(** * Aggregation of benchmark results: a shallow embedding

    This development embeds [scripts/aggregate_results.py] (the aggregation
    engine), the storage-IO adapter [scripts/parse_iostat.py], the
    block-device adapter [scripts/parse_fio.py] and the container adapter
    [scripts/parse_docker_stats.py], and proves the properties stated about
    them.

    Conventions of the embedding.
    - A Python value that travels through JSON is a [json].  A Python [int]
      is [JInt z] (unbounded), a Python [float] is [JFloat q], idealised as
      the rational number it denotes: arithmetic on floats is carried out
      exactly, without binary rounding, and infinities and NaN are left out.
    - A Python [dict] is an association list in insertion order ([dict V]);
      item assignment overwrites in place or appends a new key at the end.
    - A raised exception is a value [Raise e] of the error monad [result].
    - The file system is a tree of [node]s; the order of a directory's
      entries is the order in which [os.listdir] returns them.
    - [subprocess.run] of an adapter followed by [json.loads] is the
      parameter [run_parser] of the engine section.
    - The library functions an adapter calls on text ([json.loads],
      [str.strip], [re.match], [re.search], [float], [str]) are parameters
      of the adapter's section. *)

From Stdlib Require Import String Ascii List Bool ZArith QArith Qround Qabs Lia Lqa.
From Stdlib Require Import Permutation.
Import ListNotations.

Local Open Scope string_scope.
Local Open Scope list_scope.

(** ** Exceptions and the error monad *)

Inductive exn : Type :=
| StatisticsError
| TypeError
| AttributeError
| IndexError
| KeyError
| NotADirectoryError.

Inductive result (A : Type) : Type :=
| Ok (a : A)
| Raise (e : exn).

Arguments Ok {A} a.
Arguments Raise {A} e.

Definition bind {A B : Type} (c : result A) (k : A -> result B) : result B :=
  match c with
  | Ok a => k a
  | Raise e => Raise e
  end.

Notation "x <- c ;; k" := (bind c (fun x => k))
  (at level 61, c at next level, right associativity).

(** A [for] loop whose body may raise: the state is threaded from left to
    right and the first exception leaves the loop. *)
Fixpoint for_each {A S : Type} (body : A -> S -> result S) (l : list A) (s : S)
  : result S :=
  match l with
  | [] => Ok s
  | x :: l' => s' <- body x s ;; for_each body l' s'
  end.

(** ** JSON values *)

#[local] Set Warnings "-register-all".

Inductive json : Type :=
| JNull
| JBool (b : bool)
| JInt (z : Z)
| JFloat (q : Q)
| JStr (s : string)
| JList (l : list json)
| JObj (o : list (string * json)).

(** ** Dictionaries *)

Definition dict (V : Type) : Type := list (string * V).

Fixpoint dget {V : Type} (k : string) (d : dict V) : option V :=
  match d with
  | [] => None
  | (k', v) :: d' => if String.eqb k k' then Some v else dget k d'
  end.

Definition dmem {V : Type} (k : string) (d : dict V) : bool :=
  match dget k d with
  | Some _ => true
  | None => false
  end.

Definition keys {V : Type} (d : dict V) : list string := map fst d.

(** [dupd k f d] is [d[k] = f(d.get(k))]: the value of an existing key is
    replaced where it stands, a new key goes to the end. *)
Fixpoint dupd {V : Type} (k : string) (f : option V -> V) (d : dict V) : dict V :=
  match d with
  | [] => [(k, f None)]
  | (k', v) :: d' =>
      if String.eqb k k' then (k', f (Some v)) :: d' else (k', v) :: dupd k f d'
  end.

(** [d[k] = v] *)
Definition dset {V : Type} (k : string) (v : V) (d : dict V) : dict V :=
  dupd k (fun _ => v) d.

Definition from_option {V : Type} (dflt : V) (o : option V) : V :=
  match o with
  | Some v => v
  | None => dflt
  end.

(** [d[k].append(v)] on a [defaultdict(list)] *)
Definition dappend {V : Type} (k : string) (v : V) (d : dict (list V))
  : dict (list V) :=
  dupd k (fun o => from_option [] o ++ [v]) d.

(** ** Python primitives on JSON values *)

(** [isinstance(v, (int, float))]; [bool] is a subclass of [int]. *)
Definition is_number (v : json) : bool :=
  match v with
  | JBool _ | JInt _ | JFloat _ => true
  | _ => false
  end.

Definition is_float (v : json) : bool :=
  match v with
  | JFloat _ => true
  | _ => false
  end.

(** The number a numeric value denotes. *)
Definition num_val (v : json) : Q :=
  match v with
  | JBool true => 1%Q
  | JBool false => 0%Q
  | JInt z => inject_Z z
  | JFloat q => q
  | _ => 0%Q
  end.

(** Truth value of [if v:] *)
Definition truthy (v : json) : bool :=
  match v with
  | JNull => false
  | JBool b => b
  | JInt z => negb (Z.eqb z 0)
  | JFloat q => negb (Qeq_bool q 0%Q)
  | JStr s => negb (String.eqb s "")
  | JList l => match l with [] => false | _ => true end
  | JObj o => match o with [] => false | _ => true end
  end.

Definition qsum (data : list json) : Q :=
  fold_right (fun v acc => (num_val v + acc)%Q) 0%Q data.

(** The exact mean of the numbers in [data]. *)
Definition qmean (data : list json) : Q :=
  (qsum data / inject_Z (Z.of_nat (length data)))%Q.

(** [statistics.mean(data)]: the exact mean, returned as an [int] when
    every datum is an [int] and the mean is integral, as a [float]
    otherwise.  No data raises [StatisticsError], a datum that is not a
    number raises [TypeError]. *)
Definition statistics_mean (data : list json) : result json :=
  match data with
  | [] => Raise StatisticsError
  | _ =>
      if forallb is_number data then
        let m := Qred (qmean data) in
        if existsb is_float data then Ok (JFloat m)
        else if Pos.eqb (Qden m) 1 then Ok (JInt (Qnum m))
        else Ok (JFloat m)
      else Raise TypeError
  end.

(** Rounding of a rational to [ndigits] decimals, ties to even. *)
Definition round_half_even (q : Q) (ndigits : nat) : Q :=
  let scale := Z.pow 10 (Z.of_nat ndigits) in
  let s := (q * inject_Z scale)%Q in
  let f := Qfloor s in
  let r := (s - inject_Z f)%Q in
  let n :=
    match Qcompare r (1 # 2) with
    | Lt => f
    | Gt => (f + 1)%Z
    | Eq => if Z.even f then f else (f + 1)%Z
    end in
  Qred (Qmake n (Z.to_pos scale)).

(** [round(v, ndigits)] for [ndigits >= 0]: an [int] is returned as it
    is, a [float] is rounded. *)
Definition py_round (v : json) (ndigits : nat) : result json :=
  match v with
  | JBool b => Ok (JInt (if b then 1 else 0))
  | JInt z => Ok (JInt z)
  | JFloat q => Ok (JFloat (round_half_even q ndigits))
  | _ => Raise TypeError
  end.

(** [l[0]] *)
Definition index0 {A : Type} (l : list A) : result A :=
  match l with
  | x :: _ => Ok x
  | [] => Raise IndexError
  end.

(** ** The merger *)

Definition calculate_average_step (item : string * list json)
  (aggregated : dict json) : result (dict json) :=
  let '(metric, values) := item in
  let valid_values := filter is_number values in
  match valid_values with
  | [] => Ok aggregated
  | _ =>
      if (1 <? length valid_values)%nat then
        mean <- statistics_mean valid_values ;;
        r <- py_round mean 4 ;;
        Ok (dset metric r aggregated)
      else
        v <- index0 valid_values ;;
        Ok (dset metric v aggregated)
  end.

Definition calculate_average (scalar_lists : dict (list json))
  : result (dict json) :=
  for_each calculate_average_step scalar_lists [].

Definition aggregate_table_data_step (item : string * list json)
  (aggregated : dict json) : result (dict json) :=
  let '(key, values) := item in
  match values with
  | [] => Ok aggregated
  | _ =>
      v0 <- index0 values ;;
      if is_number v0 then
        let valid_values := filter is_number values in
        match valid_values with
        | [] => Ok aggregated
        | _ =>
            mean <- statistics_mean valid_values ;;
            r <- py_round mean 4 ;;
            Ok (dset key r aggregated)
        end
      else
        v <- index0 values ;;
        Ok (dset key v aggregated)
  end.

Definition aggregate_table_data (table_lists : dict (list json))
  : result (dict json) :=
  for_each aggregate_table_data_step table_lists [].

(** ** The result hierarchy *)

Inductive node : Type :=
| File
| Dir (entries : list (string * node)).

(** [os.path.join(a, b)] for a relative name [b] *)
Definition os_path_join (a b : string) : string := (a ++ "/" ++ b)%string.

(** [os.listdir(path)] with the node found under each name *)
Definition os_listdir (n : node) : result (list (string * node)) :=
  match n with
  | Dir entries => Ok entries
  | File => Raise NotADirectoryError
  end.

(** [os.path.exists(os.path.join(dir, name))] *)
Definition exists_in (entries : list (string * node)) (name : string) : bool :=
  dmem name entries.

(** [sub in s] for strings *)
Fixpoint contains (sub s : string) : bool :=
  if String.prefix sub s then true
  else match s with
       | EmptyString => false
       | String _ s' => contains sub s'
       end.

Definition RESULTS_DIR : string := "results".
Definition OUTPUT_FILE : string := os_path_join RESULTS_DIR "aggregated_report.json".
Definition SCRIPTS_DIR : string := "scripts".

Definition PARSER_MAP : list (string * string) :=
  [("sysbench-oltp", "parse_sysbench.py");
   ("postgres-pgbench", "parse_pgbench.py");
   ("webserver-bench", "parse_wrk.py");
   ("fio-", "parse_fio.py")].

Fixpoint first_prefix_match (rules : list (string * string)) (benchmark_name : string)
  : option string :=
  match rules with
  | [] => None
  | (key, script) :: rules' =>
      if String.prefix key benchmark_name then Some (os_path_join SCRIPTS_DIR script)
      else first_prefix_match rules' benchmark_name
  end.

Definition get_parser_for_benchmark (benchmark_name : string) : option string :=
  first_prefix_match PARSER_MAP benchmark_name.

(** ** Accumulators *)

Inductive group : Type :=
| metrics_plot
| metrics_table
| monitoring_plot
| monitoring_table
| docker_plot
| docker_table.

(** The dictionary built by [data_container()]: six accumulators, each a
    [defaultdict(list)]. *)
Record container : Type := {
  c_metrics_plot : dict (list json);
  c_metrics_table : dict (list json);
  c_monitoring_plot : dict (list json);
  c_monitoring_table : dict (list json);
  c_docker_plot : dict (list json);
  c_docker_table : dict (list json)
}.

Definition data_container : container :=
  {| c_metrics_plot := []; c_metrics_table := [];
     c_monitoring_plot := []; c_monitoring_table := [];
     c_docker_plot := []; c_docker_table := [] |}.

Definition cget (g : group) (c : container) : dict (list json) :=
  match g with
  | metrics_plot => c_metrics_plot c
  | metrics_table => c_metrics_table c
  | monitoring_plot => c_monitoring_plot c
  | monitoring_table => c_monitoring_table c
  | docker_plot => c_docker_plot c
  | docker_table => c_docker_table c
  end.

Definition cupd (g : group) (f : dict (list json) -> dict (list json))
  (c : container) : container :=
  match g with
  | metrics_plot =>
      {| c_metrics_plot := f (c_metrics_plot c); c_metrics_table := c_metrics_table c;
         c_monitoring_plot := c_monitoring_plot c; c_monitoring_table := c_monitoring_table c;
         c_docker_plot := c_docker_plot c; c_docker_table := c_docker_table c |}
  | metrics_table =>
      {| c_metrics_plot := c_metrics_plot c; c_metrics_table := f (c_metrics_table c);
         c_monitoring_plot := c_monitoring_plot c; c_monitoring_table := c_monitoring_table c;
         c_docker_plot := c_docker_plot c; c_docker_table := c_docker_table c |}
  | monitoring_plot =>
      {| c_metrics_plot := c_metrics_plot c; c_metrics_table := c_metrics_table c;
         c_monitoring_plot := f (c_monitoring_plot c); c_monitoring_table := c_monitoring_table c;
         c_docker_plot := c_docker_plot c; c_docker_table := c_docker_table c |}
  | monitoring_table =>
      {| c_metrics_plot := c_metrics_plot c; c_metrics_table := c_metrics_table c;
         c_monitoring_plot := c_monitoring_plot c; c_monitoring_table := f (c_monitoring_table c);
         c_docker_plot := c_docker_plot c; c_docker_table := c_docker_table c |}
  | docker_plot =>
      {| c_metrics_plot := c_metrics_plot c; c_metrics_table := c_metrics_table c;
         c_monitoring_plot := c_monitoring_plot c; c_monitoring_table := c_monitoring_table c;
         c_docker_plot := f (c_docker_plot c); c_docker_table := c_docker_table c |}
  | docker_table =>
      {| c_metrics_plot := c_metrics_plot c; c_metrics_table := c_metrics_table c;
         c_monitoring_plot := c_monitoring_plot c; c_monitoring_table := c_monitoring_table c;
         c_docker_plot := c_docker_plot c; c_docker_table := f (c_docker_table c) |}
  end.

(** What one pass owns while it collects: [temp_data] is
    [defaultdict(lambda: defaultdict(data_container))], [rep_data] is
    [defaultdict(lambda: defaultdict(dict))]. *)
Record store : Type := {
  temp_data : dict (dict container);
  rep_data : dict (dict (dict json))
}.

Definition empty_store : store := {| temp_data := []; rep_data := [] |}.

(** [temp_data[benchmark][filesystem][g][k].append(v)] *)
Definition temp_append (benchmark filesystem : string) (g : group) (k : string)
  (v : json) (st : store) : store :=
  {| temp_data :=
       dupd benchmark
         (fun fs_dict =>
            dupd filesystem
              (fun c => cupd g (dappend k v) (from_option data_container c))
              (from_option [] fs_dict))
         (temp_data st);
     rep_data := rep_data st |}.

(** [rep_data[benchmark][filesystem][name] = series] *)
Definition rep_assign (benchmark filesystem name : string) (series : json)
  (st : store) : store :=
  {| temp_data := temp_data st;
     rep_data :=
       dupd benchmark
         (fun fs_dict =>
            dupd filesystem
              (fun d => dset name series (from_option [] d))
              (from_option [] fs_dict))
         (rep_data st) |}.

(** [key in data] *)
Definition py_in (key : string) (data : json) : result bool :=
  match data with
  | JObj o => Ok (dmem key o)
  | JList l =>
      Ok (existsb (fun x => match x with JStr s => String.eqb s key | _ => false end) l)
  | JStr s => Ok (contains key s)
  | _ => Raise TypeError
  end.

(** [data[key]] for a string [key] *)
Definition py_getitem (data : json) (key : string) : result json :=
  match data with
  | JObj o =>
      match dget key o with
      | Some v => Ok v
      | None => Raise KeyError
      end
  | _ => Raise TypeError
  end.

(** [v.items()] *)
Definition py_items (v : json) : result (list (string * json)) :=
  match v with
  | JObj o => Ok o
  | _ => Raise AttributeError
  end.

(** [for k, v in items: for g in gs: temp_data[b][fs][g][k].append(v)] *)
Definition accumulate (benchmark filesystem : string) (gs : list group)
  (items : list (string * json)) (st : store) : store :=
  fold_left
    (fun st kv =>
       fold_left (fun st g => temp_append benchmark filesystem g (fst kv) (snd kv) st)
         gs st)
    items st.

(** [if field in data: for k, v in data[field].items(): ...] *)
Definition accumulate_field (benchmark filesystem : string) (gs : list group)
  (field : string) (data : json) (st : store) : result store :=
  present <- py_in field data ;;
  if present then
    payload <- py_getitem data field ;;
    items <- py_items payload ;;
    Ok (accumulate benchmark filesystem gs items st)
  else Ok st.

(** [if run == "run_1" and field in data: rep_data[b][fs][name] = data[field]] *)
Definition keep_representative (benchmark filesystem run name field : string)
  (data : json) (st : store) : result store :=
  if String.eqb run "run_1" then
    present <- py_in field data ;;
    if present then
      payload <- py_getitem data field ;;
      Ok (rep_assign benchmark filesystem name payload st)
    else Ok st
  else Ok st.

(** ** The run collector and the report assembler *)

Definition workload_name (benchmark : string) : string :=
  if contains "fio-" benchmark then "result.json" else "results.txt".

Inductive outcome : Type :=
| Exited (status : Z)
| Completed (path : string) (output : json)
| Uncaught (e : exn).

(** The exit status of the process. *)
Definition exit_status (o : outcome) : Z :=
  match o with
  | Exited status => status
  | Completed _ _ => 0
  | Uncaught _ => 1
  end.

(** The file written by the pass, if any. *)
Definition artifact (o : outcome) : option (string * json) :=
  match o with
  | Completed path output => Some (path, output)
  | _ => None
  end.

Section Engine.

(** [run_parser script_path input_file]: the decoded standard output of
    the adapter, [None] when the adapter exits with an error or prints
    something that is not JSON. *)
Variable run_parser : string -> string -> option json.

(** The value returned by [load_system_info()]. *)
Variable system_info : json.

(** 1. Parse Workload (Benchmarks) -> Metrics *)
Definition collect_workload (benchmark filesystem parser_script run_path : string)
  (run_entries : list (string * node)) (st : store) : result store :=
  let workload_file := os_path_join run_path (workload_name benchmark) in
  if exists_in run_entries (workload_name benchmark) then
    match run_parser parser_script workload_file with
    | Some data =>
        if truthy data then
          st1 <- accumulate_field benchmark filesystem [metrics_plot] "plot" data st ;;
          accumulate_field benchmark filesystem [metrics_table] "table" data st1
        else Ok st
    | None => Ok st
    end
  else Ok st.

(** 2. Parse Docker Stats -> Monitoring *)
Definition collect_docker_stats (benchmark filesystem run run_path : string)
  (run_entries : list (string * node)) (st : store) : result store :=
  let docker_stats_file := os_path_join run_path "docker_stats.jsonl" in
  if exists_in run_entries "docker_stats.jsonl" then
    match run_parser (os_path_join SCRIPTS_DIR "parse_docker_stats.py")
            docker_stats_file with
    | Some data =>
        if truthy data then
          st1 <- accumulate_field benchmark filesystem [docker_plot; docker_table]
                   "plot" data st ;;
          keep_representative benchmark filesystem run "docker_stats_series"
            "series" data st1
        else Ok st
    | None => Ok st
    end
  else Ok st.

(** 3. Parse IOStat -> Monitoring *)
Definition collect_iostat (benchmark filesystem run run_path : string)
  (run_entries : list (string * node)) (st : store) : result store :=
  let iostat_file := os_path_join run_path "iostat.json" in
  if exists_in run_entries "iostat.json" then
    match run_parser (os_path_join SCRIPTS_DIR "parse_iostat.py") iostat_file with
    | Some data =>
        if truthy data then
          st1 <- accumulate_field benchmark filesystem
                   [monitoring_plot; monitoring_table] "table" data st ;;
          keep_representative benchmark filesystem run "iostat_series" "plot" data st1
        else Ok st
    | None => Ok st
    end
  else Ok st.

Definition collect_run (benchmark filesystem parser_script fs_path : string)
  (entry : string * node) (st : store) : result store :=
  match snd entry with
  | File => Ok st
  | Dir run_entries =>
      let run := fst entry in
      let run_path := os_path_join fs_path run in
      st1 <- collect_workload benchmark filesystem parser_script run_path run_entries st ;;
      st2 <- collect_docker_stats benchmark filesystem run run_path run_entries st1 ;;
      collect_iostat benchmark filesystem run run_path run_entries st2
  end.

Definition collect_filesystem (benchmark parser_script benchmark_path : string)
  (entry : string * node) (st : store) : result store :=
  match snd entry with
  | File => Ok st
  | Dir runs =>
      let filesystem := fst entry in
      for_each
        (collect_run benchmark filesystem parser_script
           (os_path_join benchmark_path filesystem))
        runs st
  end.

Definition collect_benchmark (entry : string * node) (st : store) : result store :=
  match snd entry with
  | File => Ok st
  | Dir filesystems =>
      let benchmark := fst entry in
      match get_parser_for_benchmark benchmark with
      | None => Ok st
      | Some parser_script =>
          for_each
            (collect_filesystem benchmark parser_script
               (os_path_join RESULTS_DIR benchmark))
            filesystems st
      end
  end.

(** The walk through the results directory. *)
Definition collect (benchmarks : list (string * node)) : result store :=
  for_each collect_benchmark benchmarks empty_store.

(** [rep_data[benchmark][filesystem].get(name, {})] *)
Definition rep_get (rd : dict (dict (dict json))) (benchmark filesystem name : string)
  : json :=
  from_option (JObj [])
    (dget name (from_option [] (dget filesystem (from_option [] (dget benchmark rd))))).

Definition final_entry (rd : dict (dict (dict json))) (benchmark filesystem : string)
  (c : container) : result json :=
  metrics_p <- calculate_average (cget metrics_plot c) ;;
  metrics_t <- aggregate_table_data (cget metrics_table c) ;;
  docker_p <- calculate_average (cget docker_plot c) ;;
  docker_t <- aggregate_table_data (cget docker_table c) ;;
  iostat_p <- calculate_average (cget monitoring_plot c) ;;
  iostat_t <- aggregate_table_data (cget monitoring_table c) ;;
  Ok (JObj
        [("metrics", JObj [("plot", JObj metrics_p); ("table", JObj metrics_t)]);
         ("monitoring",
          JObj
            [("docker_stats",
              JObj [("plot", JObj docker_p); ("table", JObj docker_t);
                    ("series", rep_get rd benchmark filesystem "docker_stats_series")]);
             ("iostat",
              JObj [("plot", JObj iostat_p); ("table", JObj iostat_t);
                    ("series", rep_get rd benchmark filesystem "iostat_series")])])]).

(** [report[benchmark][filesystem] = entry] *)
Definition report_assign (benchmark filesystem : string) (entry : json)
  (report : dict (dict json)) : dict (dict json) :=
  dupd benchmark (fun fs_dict => dset filesystem entry (from_option [] fs_dict)) report.

(** Final Aggregation *)
Definition aggregate (st : store) : result (dict (dict json)) :=
  for_each
    (fun b_entry report =>
       for_each
         (fun f_entry report =>
            entry <- final_entry (rep_data st) (fst b_entry) (fst f_entry)
                       (snd f_entry) ;;
            Ok (report_assign (fst b_entry) (fst f_entry) entry report))
         (snd b_entry) report)
    (temp_data st) [].

Definition make_output (report : dict (dict json)) : json :=
  JObj [("system_info", system_info);
        ("data", JObj (map (fun b_entry => (fst b_entry, JObj (snd b_entry))) report))].

(** [main()], given what is found under the name [RESULTS_DIR]. *)
Definition main (results_dir : option node) : outcome :=
  match results_dir with
  | None => Exited 1
  | Some root =>
      match (benchmarks <- os_listdir root ;;
             st <- collect benchmarks ;;
             aggregate st) with
      | Ok report => Completed OUTPUT_FILE (make_output report)
      | Raise e => Uncaught e
      end
  end.

End Engine.

(** Navigation in the written document: [jpath [k1; ...; kn] v] is
    [v[k1]...[kn]], when every step finds an object with that key. *)
Fixpoint jpath (ks : list string) (v : json) : option json :=
  match ks with
  | [] => Some v
  | k :: ks' =>
      match v with
      | JObj o =>
          match dget k o with
          | Some v' => jpath ks' v'
          | None => None
          end
      | _ => None
      end
  end.

(** ** The storage-IO adapter ([parse_iostat.py]) *)

(** [v.get(key, dflt)] *)
Definition py_get (v : json) (key : string) (dflt : json) : result json :=
  match v with
  | JObj o => Ok (from_option dflt (dget key o))
  | _ => Raise AttributeError
  end.

Fixpoint chars (s : string) : list json :=
  match s with
  | EmptyString => []
  | String c s' => JStr (String c EmptyString) :: chars s'
  end.

(** The elements a [for] loop over [v] visits. *)
Definition py_iter (v : json) : result (list json) :=
  match v with
  | JList l => Ok l
  | JStr s => Ok (chars s)
  | JObj o => Ok (map (fun kv => JStr (fst kv)) o)
  | _ => Raise TypeError
  end.

(** [v[0]] *)
Definition py_first (v : json) : result json :=
  match v with
  | JList l => index0 l
  | JStr s => index0 (chars s)
  | JObj _ => Raise KeyError
  | _ => Raise TypeError
  end.

Definition enumerate {A : Type} (l : list A) : list (Z * A) :=
  combine (map Z.of_nat (seq 0 (length l))) l.

(** [while len(l) < n: l.append(0.0)] *)
Definition pad_zeros (n : nat) (l : list json) : list json :=
  l ++ repeat (JFloat 0) (n - length l).

Record iostat_acc : Type := {
  plot_data : dict (list json);
  table_stats : dict (list json);
  device_table_stats : dict (dict (list json))
}.

Definition cpu_fields : list (string * string) :=
  [("cpu_user", "user"); ("cpu_system", "system");
   ("cpu_iowait", "iowait"); ("cpu_idle", "idle")].

Definition disk_fields : list (string * string) :=
  [("read_iops", "r/s"); ("write_iops", "w/s");
   ("read_kbps", "rkB/s"); ("write_kbps", "wkB/s");
   ("read_await", "r_await"); ("write_await", "w_await"); ("util", "util")].

(** [{name: source.get(field, 0.0) for each (name, field)}] *)
Fixpoint get_fields (fields : list (string * string)) (source : json)
  : result (dict json) :=
  match fields with
  | [] => Ok []
  | (name, field) :: fields' =>
      v <- py_get source field (JFloat 0) ;;
      rest <- get_fields fields' source ;;
      Ok ((name, v) :: rest)
  end.

Definition append_all (items : dict json) (d : dict (list json)) : dict (list json) :=
  fold_left (fun d kv => dappend (fst kv) (snd kv) d) items d.

Definition skeleton (version : string) (plot : dict (list json)) (table : dict json)
  : json :=
  JObj [("version", JStr version);
        ("plot", JObj (map (fun kv => (fst kv, JList (snd kv))) plot));
        ("table", JObj table)].

Definition initial_plot_data : dict (list json) :=
  [("timestamp", []); ("cpu_user", []); ("cpu_system", []);
   ("cpu_iowait", []); ("cpu_idle", [])].

Definition initial_table_stats : dict (list json) :=
  [("cpu_user", []); ("cpu_system", []); ("cpu_iowait", []); ("cpu_idle", [])].

Section IostatAdapter.

(** [json.loads(content)], [None] for a [JSONDecodeError]. *)
Variable json_loads : string -> option json.

(** [str(v)], as an f-string formats a value. *)
Variable py_str : json -> string.

(** [re.search(r'\d+$', s)] finds a match. *)
Variable ends_with_digits : string -> bool.

(** [not content.strip()] *)
Variable is_blank : string -> bool.

(** The first disk entry whose device name does not end in digits. *)
Fixpoint find_main_disk (disk_list : list json) : result (option (json * string)) :=
  match disk_list with
  | [] => Ok None
  | disk_entry :: rest =>
      dev_name <- py_get disk_entry "disk_device" (JStr "") ;;
      match dev_name with
      | JStr s =>
          if ends_with_digits s then find_main_disk rest
          else Ok (Some (disk_entry, s))
      | _ => Raise TypeError
      end
  end.

Definition add_disk_plot (dev_name : string) (parsed_metrics : dict json)
  (pd : dict (list json)) : dict (list json) :=
  fold_left
    (fun pd kv =>
       let key := (dev_name ++ "_" ++ fst kv)%string in
       let pd1 := if dmem key pd then pd else dset key [] pd in
       let n := length (from_option [] (dget "timestamp" pd1)) in
       dupd key (fun l => pad_zeros (n - 1) (from_option [] l) ++ [snd kv]) pd1)
    parsed_metrics pd.

Definition add_disk_table (dev_name : string) (parsed_metrics : dict json)
  (dts : dict (dict (list json))) : dict (dict (list json)) :=
  let dts1 :=
    if dmem dev_name dts then dts
    else dset dev_name (map (fun kv => (fst kv, [])) parsed_metrics) dts in
  dupd dev_name (fun stats => append_all parsed_metrics (from_option [] stats)) dts1.

Definition statistics_step (entry : Z * json) (acc : iostat_acc) : result iostat_acc :=
  let '(idx, stat_entry) := entry in
  cpu_stats <- py_get stat_entry "avg-cpu" (JObj []) ;;
  cpu <- get_fields cpu_fields cpu_stats ;;
  let pd1 := append_all cpu (dappend "timestamp" (JInt idx) (plot_data acc)) in
  let ts1 := append_all cpu (table_stats acc) in
  disk_list <- py_get stat_entry "disk" (JList []) ;;
  disks <- py_iter disk_list ;;
  main_disk <- find_main_disk disks ;;
  match main_disk with
  | Some (disk_stats, dev_name) =>
      if truthy disk_stats then
        parsed_metrics <- get_fields disk_fields disk_stats ;;
        Ok {| plot_data := add_disk_plot dev_name parsed_metrics pd1;
              table_stats := ts1;
              device_table_stats :=
                add_disk_table dev_name parsed_metrics (device_table_stats acc) |}
      else
        Ok {| plot_data := pd1; table_stats := ts1;
              device_table_stats := device_table_stats acc |}
  | None =>
      Ok {| plot_data := pd1; table_stats := ts1;
            device_table_stats := device_table_stats acc |}
  end.

(** [for k in plot_data: pad plot_data[k] to the number of timestamps] *)
Definition level_plot_data (pd : dict (list json)) : dict (list json) :=
  let ts_len := length (from_option [] (dget "timestamp" pd)) in
  map (fun kv =>
         if String.eqb (fst kv) "timestamp" then kv
         else (fst kv, pad_zeros ts_len (snd kv)))
    pd.

(** [if values: table_data[name] = round(statistics.mean(values), 2)] *)
Definition average_into (name : string) (values : list json) (table_data : dict json)
  : result (dict json) :=
  match values with
  | [] => Ok table_data
  | _ =>
      mean <- statistics_mean values ;;
      r <- py_round mean 2 ;;
      Ok (dset name r table_data)
  end.

Definition compute_table_data (acc : iostat_acc) : result (dict json) :=
  cpu_table <-
    for_each (fun kv => average_into (fst kv ++ "_avg")%string (snd kv))
      (table_stats acc) [] ;;
  for_each
    (fun dev_entry =>
       for_each
         (fun kv => average_into (fst dev_entry ++ "_" ++ fst kv ++ "_avg")%string (snd kv))
         (snd dev_entry))
    (device_table_stats acc) cpu_table.

Definition parse_single_json_object (content : string) : result json :=
  match json_loads content with
  | None => Ok (skeleton "unknown" [] [])
  | Some data =>
      has_sysstat <- py_in "sysstat" data ;;
      if negb has_sysstat then Ok (skeleton "unknown" initial_plot_data [])
      else
        sysstat <- py_getitem data "sysstat" ;;
        hosts <- py_get sysstat "hosts" (JList []) ;;
        if negb (truthy hosts) then Ok (skeleton "unknown" initial_plot_data [])
        else
          host <- py_first hosts ;;
          sysname <- py_get host "sysname" (JStr "Linux") ;;
          release <- py_get host "release" (JStr "") ;;
          nodename <- py_get host "nodename" (JStr "") ;;
          machine <- py_get host "machine" (JStr "") ;;
          let version_info :=
            (py_str sysname ++ " " ++ py_str release ++ " (" ++ py_str nodename
             ++ ") " ++ py_str machine)%string in
          statistics_list <- py_get host "statistics" (JList []) ;;
          if negb (truthy statistics_list) then
            Ok (skeleton version_info initial_plot_data [])
          else
            entries <- py_iter statistics_list ;;
            acc <- for_each statistics_step (enumerate entries)
                     {| plot_data := initial_plot_data;
                        table_stats := initial_table_stats;
                        device_table_stats := [] |} ;;
            table_data <- compute_table_data acc ;;
            Ok (skeleton version_info (level_plot_data (plot_data acc)) table_data)
  end.

Definition parse_iostat (content : string) : result json :=
  if is_blank content then Ok (skeleton "unknown" [] [])
  else parse_single_json_object content.

End IostatAdapter.

(** * Specification functions and fixtures *)

(** The float [n / d]. *)
Definition q (n : Z) (d : positive) : json := JFloat (Qmake n d).

(** ** The merger *)

(** [round(statistics.mean(valid), ndigits)] as a value. *)
Definition rounded_mean (valid : list json) (ndigits : nat) : json :=
  let m := Qred (qmean valid) in
  if existsb is_float valid then JFloat (round_half_even m ndigits)
  else if Pos.eqb (Qden m) 1 then JInt (Qnum m)
  else JFloat (round_half_even m ndigits).

(** What [calculate_average] stores for a key, if anything. *)
Definition plot_entry (values : list json) : option json :=
  match filter is_number values with
  | [] => None
  | [v] => Some v
  | valid => Some (rounded_mean valid 4)
  end.

(** What [aggregate_table_data] stores for a key, if anything. *)
Definition table_entry (values : list json) : option json :=
  match values with
  | [] => None
  | v0 :: _ =>
      if is_number v0 then Some (rounded_mean (filter is_number values) 4)
      else Some v0
  end.

(** [aggregated[k] = v] when there is a value to store. *)
Definition put_entry (k : string) (o : option json) (d : dict json) : dict json :=
  match o with
  | Some v => dset k v d
  | None => d
  end.

(** Both mergers are one and the same loop over the items. *)
Definition merged (entry : list json -> option json) (d : dict (list json))
  (aggregated : dict json) : dict json :=
  fold_left (fun agg item => put_entry (fst item) (entry (snd item)) agg) d aggregated.

(** ** The store *)

(** Equality of groups, decided. *)
Definition group_eqb (g1 g2 : group) : bool :=
  match g1, g2 with
  | metrics_plot, metrics_plot
  | metrics_table, metrics_table
  | monitoring_plot, monitoring_plot
  | monitoring_table, monitoring_table
  | docker_plot, docker_plot
  | docker_table, docker_table => true
  | _, _ => false
  end.

(** [d[b][fs]] when both keys are there *)
Definition lookup2 {V : Type} (b fs : string) (d : dict (dict V)) : option V :=
  match dget b d with
  | Some fs_dict => dget fs fs_dict
  | None => None
  end.

(** The sequence accumulated so far under (b, fs, g, k). *)
Definition acc_of (st : store) (b fs : string) (g : group) (k : string) : list json :=
  from_option []
    (dget k (cget g (from_option data_container (lookup2 b fs (temp_data st))))).

(** The series kept so far under (b, fs, name). *)
Definition rep_of (st : store) (b fs name : string) : option json :=
  dget name (from_option [] (lookup2 b fs (rep_data st))).

(** The values a mapping gives for key [k], [n] times each. *)
Definition picked (k : string) (n : nat) (items : list (string * json)) : list json :=
  flat_map (fun kv => if String.eqb k (fst kv) then repeat (snd kv) n else []) items.

(** How many times [g] occurs among the groups a value is appended to. *)
Definition hits (g : group) (gs : list group) : nat :=
  length (filter (group_eqb g) gs).

(** ** One adapter output *)

(** The values [data[field]] gives for key [k], [n] times each. *)
Definition field_picked (field : string) (data : json) (k : string) (n : nat)
  : list json :=
  match data with
  | JObj o =>
      match dget field o with
      | Some (JObj items) => picked k n items
      | _ => []
      end
  | _ => []
  end.

(** [data[field]] when [data] is an object with that key. *)
Definition field_payload (field : string) (data : json) : option json :=
  match data with
  | JObj o => dget field o
  | _ => None
  end.

(** A later assignment replaces what was kept. *)
Definition override (old new : option json) : option json :=
  match new with
  | Some v => Some v
  | None => old
  end.

(** ** What a pass collects *)

(** What is kept after the rounds of a loop: the last assignment. *)
Definition last_kept {A : Type} (contrib : A -> option json) (l : list A) : option json :=
  fold_right (fun x later => override (contrib x) later) None l.

Section Collected.

Variable run_parser : string -> string -> option json.

(** The output of an adapter on the file [name] of a run directory, when
    the file is there, the adapter succeeds and its output is not empty. *)
Definition usable_output (script run_path : string) (run_entries : list (string * node))
  (name : string) : option json :=
  if exists_in run_entries name then
    match run_parser script (os_path_join run_path name) with
    | Some data => if truthy data then Some data else None
    | None => None
    end
  else None.

Definition docker_output (run_path : string) (run_entries : list (string * node))
  : option json :=
  usable_output (os_path_join SCRIPTS_DIR "parse_docker_stats.py") run_path
    run_entries "docker_stats.jsonl".

Definition iostat_output (run_path : string) (run_entries : list (string * node))
  : option json :=
  usable_output (os_path_join SCRIPTS_DIR "parse_iostat.py") run_path
    run_entries "iostat.json".

Definition from_output (o : option json) (f : json -> list json) : list json :=
  match o with
  | Some data => f data
  | None => []
  end.

(** The values one run directory adds to the sequence of (g, k). *)
Definition run_adds (benchmark parser_script fs_path : string) (g : group)
  (k : string) (entry : string * node) : list json :=
  match snd entry with
  | File => []
  | Dir run_entries =>
      let run_path := os_path_join fs_path (fst entry) in
      from_output
        (usable_output parser_script run_path run_entries (workload_name benchmark))
        (fun data =>
           field_picked "plot" data k (hits g [metrics_plot])
           ++ field_picked "table" data k (hits g [metrics_table]))
      ++ from_output (docker_output run_path run_entries)
           (fun data => field_picked "plot" data k (hits g [docker_plot; docker_table]))
      ++ from_output (iostat_output run_path run_entries)
           (fun data =>
              field_picked "table" data k (hits g [monitoring_plot; monitoring_table]))
  end.

(** The series one run directory assigns to [name], if any. *)
Definition run_keeps (fs_path name : string) (entry : string * node) : option json :=
  match snd entry with
  | File => None
  | Dir run_entries =>
      let run_path := os_path_join fs_path (fst entry) in
      if String.eqb (fst entry) "run_1" then
        if String.eqb name "docker_stats_series" then
          match docker_output run_path run_entries with
          | Some data => field_payload "series" data
          | None => None
          end
        else if String.eqb name "iostat_series" then
          match iostat_output run_path run_entries with
          | Some data => field_payload "plot" data
          | None => None
          end
        else None
      else None
  end.

Definition fs_adds (benchmark parser_script benchmark_path fs : string) (g : group)
  (k : string) (entry : string * node) : list json :=
  match snd entry with
  | File => []
  | Dir runs =>
      if String.eqb fs (fst entry) then
        flat_map
          (run_adds benchmark parser_script (os_path_join benchmark_path (fst entry)) g k)
          runs
      else []
  end.

Definition fs_keeps (benchmark_path fs name : string) (entry : string * node)
  : option json :=
  match snd entry with
  | File => None
  | Dir runs =>
      if String.eqb fs (fst entry) then
        last_kept (run_keeps (os_path_join benchmark_path (fst entry)) name) runs
      else None
  end.

Definition benchmark_adds (b fs : string) (g : group) (k : string)
  (entry : string * node) : list json :=
  match snd entry with
  | File => []
  | Dir filesystems =>
      if String.eqb b (fst entry) then
        match get_parser_for_benchmark (fst entry) with
        | None => []
        | Some parser_script =>
            flat_map
              (fs_adds (fst entry) parser_script (os_path_join RESULTS_DIR (fst entry))
                 fs g k)
              filesystems
        end
      else []
  end.

Definition benchmark_keeps (b fs name : string) (entry : string * node) : option json :=
  match snd entry with
  | File => None
  | Dir filesystems =>
      if String.eqb b (fst entry) then
        match get_parser_for_benchmark (fst entry) with
        | None => None
        | Some _ =>
            last_kept (fs_keeps (os_path_join RESULTS_DIR (fst entry)) fs name)
              filesystems
        end
      else None
  end.

(** Everything the walk appends under (b, fs, g, k), in the order of the
    walk. *)
Definition collected (b fs : string) (g : group) (k : string)
  (benchmarks : list (string * node)) : list json :=
  flat_map (benchmark_adds b fs g k) benchmarks.

(** The series the walk leaves under (b, fs, name). *)
Definition kept (b fs name : string) (benchmarks : list (string * node)) : option json :=
  last_kept (benchmark_keeps b fs name) benchmarks.

(** The two monitoring sources are collected by the same code, up to the
    names involved. *)
Definition collect_monitoring (script file_name : string) (gs : list group)
  (field name rep_field : string) (benchmark filesystem run run_path : string)
  (run_entries : list (string * node)) (st : store) : result store :=
  if exists_in run_entries file_name then
    match run_parser script (os_path_join run_path file_name) with
    | Some data =>
        if truthy data then
          st1 <- accumulate_field benchmark filesystem gs field data st ;;
          keep_representative benchmark filesystem run name rep_field data st1
        else Ok st
    | None => Ok st
    end
  else Ok st.

End Collected.

(** ** Keys stay distinct *)

Definition dict_all {V : Type} (P : V -> Prop) (d : dict V) : Prop :=
  Forall (fun kv => P (snd kv)) d.

Definition wf_container (c : container) : Prop :=
  forall g, NoDup (keys (cget g c)).

Definition wf_filesystems (fs_dict : dict container) : Prop :=
  NoDup (keys fs_dict) /\ dict_all wf_container fs_dict.

Definition wf_temp (td : dict (dict container)) : Prop :=
  NoDup (keys td) /\ dict_all wf_filesystems td.

(** A container exists only once something was appended to it. *)
Definition inhabited (c : container) : Prop :=
  exists g k, from_option [] (dget k (cget g c)) <> [].

Definition all_inhabited (td : dict (dict container)) : Prop :=
  forall b fs c, lookup2 b fs td = Some c -> inhabited c.

(** ** The report *)

(** The entry [final_entry] builds, as a value. *)
Definition entry_json (rd : dict (dict (dict json))) (b fs : string) (c : container)
  : json :=
  JObj
    [("metrics",
      JObj [("plot", JObj (merged plot_entry (cget metrics_plot c) []));
            ("table", JObj (merged table_entry (cget metrics_table c) []))]);
     ("monitoring",
      JObj
        [("docker_stats",
          JObj [("plot", JObj (merged plot_entry (cget docker_plot c) []));
                ("table", JObj (merged table_entry (cget docker_table c) []));
                ("series", rep_get rd b fs "docker_stats_series")]);
         ("iostat",
          JObj [("plot", JObj (merged plot_entry (cget monitoring_plot c) []));
                ("table", JObj (merged table_entry (cget monitoring_table c) []));
                ("series", rep_get rd b fs "iostat_series")])])].

Definition report_of (st : store) : dict (dict json) :=
  fold_left
    (fun report b_entry =>
       fold_left
         (fun report f_entry =>
            report_assign (fst b_entry) (fst f_entry)
              (entry_json (rep_data st) (fst b_entry) (fst f_entry) (snd f_entry))
              report)
         (snd b_entry) report)
    (temp_data st) [].

(** ** A whole pass *)

(** Where the merged mapping of a group sits in an entry of the report. *)
Definition group_path (g : group) : list string :=
  match g with
  | metrics_plot => ["metrics"; "plot"]
  | metrics_table => ["metrics"; "table"]
  | docker_plot => ["monitoring"; "docker_stats"; "plot"]
  | docker_table => ["monitoring"; "docker_stats"; "table"]
  | monitoring_plot => ["monitoring"; "iostat"; "plot"]
  | monitoring_table => ["monitoring"; "iostat"; "table"]
  end.

(** Which merger reduces the sequences of a group. *)
Definition group_entry (g : group) : list json -> option json :=
  match g with
  | metrics_plot | docker_plot | monitoring_plot => plot_entry
  | metrics_table | docker_table | monitoring_table => table_entry
  end.

(** Where the representative series of a source sits in an entry. *)
Definition series_path (name : string) : list string :=
  if String.eqb name "docker_stats_series" then ["monitoring"; "docker_stats"; "series"]
  else ["monitoring"; "iostat"; "series"].

(** ** When the walk cannot raise *)

Definition is_obj (v : json) : bool :=
  match v with
  | JObj _ => true
  | _ => false
  end.

Definition mapping_or_absent (field : string) (o : list (string * json)) : bool :=
  match dget field o with
  | Some v => is_obj v
  | None => true
  end.

(** An adapter output honours the record contract when it is an object
    whose [plot] and [table], if present, are mappings; an empty output
    is ignored by the engine whatever it is. *)
Definition well_shaped (data : json) : bool :=
  match data with
  | JObj o => mapping_or_absent "plot" o && mapping_or_absent "table" o
  | _ => negb (truthy data)
  end.

(** ** Fixtures *)

(** An adapter oracle given by a table from "script input_file" to what
    the adapter prints; the adapter fails on anything else. *)
Definition parser_table (t : dict json) : string -> string -> option json :=
  fun script_path input_file => dget (script_path ++ " " ++ input_file)%string t.

Definition is_plot (g : group) : bool :=
  match g with
  | metrics_plot | docker_plot | monitoring_plot => true
  | _ => false
  end.

Definition run_with (files : list string) : node :=
  Dir (map (fun name => (name, File)) files).

Definition pgbench_output (tps : Q) : json :=
  JObj [("version", JStr "pgbench (PostgreSQL) 16.1");
        ("plot", JObj [("tps", JFloat tps)]);
        ("table", JObj [("clients", JInt 10)])].

Definition three_runs (file : string) : list (string * node) :=
  [("postgres-pgbench",
    Dir [("fsA",
          Dir [("run_1", run_with [file]); ("run_2", run_with [file]);
               ("run_3", run_with [file])])])].

(** Three runs of one configuration, tps = 100, 110 and 105. *)
Definition demo_parser : string -> string -> option json :=
  parser_table
    [("scripts/parse_pgbench.py results/postgres-pgbench/fsA/run_1/results.txt",
      pgbench_output 100);
     ("scripts/parse_pgbench.py results/postgres-pgbench/fsA/run_2/results.txt",
      pgbench_output 110);
     ("scripts/parse_pgbench.py results/postgres-pgbench/fsA/run_3/results.txt",
      pgbench_output 105)].

Definition demo_out : json :=
  Eval vm_compute in
    match main demo_parser (JObj []) (Some (Dir (three_runs "results.txt"))) with
    | Completed _ out => out
    | _ => JNull
    end.


Definition docker_output_of (cpu_perc : Q) (series : list Q) : json :=
  JObj [("plot", JObj [("cpu_perc", JFloat cpu_perc)]);
        ("series", JObj [("cpu_perc", JList (map JFloat series))])].

(** Three runs whose container statistics average to 12.31, 12.32 and
    12.32 percent of CPU. *)
Definition docker_parser : string -> string -> option json :=
  parser_table
    [("scripts/parse_docker_stats.py results/postgres-pgbench/fsA/run_1/docker_stats.jsonl",
      docker_output_of (1231 # 100) [12 # 1; 1262 # 100]);
     ("scripts/parse_docker_stats.py results/postgres-pgbench/fsA/run_2/docker_stats.jsonl",
      docker_output_of (1232 # 100) [1232 # 100]);
     ("scripts/parse_docker_stats.py results/postgres-pgbench/fsA/run_3/docker_stats.jsonl",
      docker_output_of (1232 # 100) [1232 # 100])].



(** An output of the block-device adapter. *)
Definition fio_output (rw bs : string) : json :=
  JObj [("version", JStr "fio-3.36");
        ("plot", JObj [("read_iops", JFloat (15234 # 1))]);
        ("table", JObj [("job_name", JNull); ("rw_mode", JStr rw); ("bs", JStr bs);
                        ("read_io_bytes", JInt 4096000)])].

(** Two runs of the block-device exerciser that agree on the mode and
    differ on the block size. *)
Definition fio_parser : string -> string -> option json :=
  parser_table
    [("scripts/parse_fio.py results/fio-randread/fsA/run_1/result.json",
      fio_output "randread" "4k");
     ("scripts/parse_fio.py results/fio-randread/fsA/run_2/result.json",
      fio_output "randread" "8k")].

Definition fio_results : list (string * node) :=
  [("fio-randread",
    Dir [("fsA", Dir [("run_1", run_with ["result.json"]);
                      ("run_2", run_with ["result.json"])])])].

(** Accumulated sequences that mix numbers, strings and nulls. *)
Definition mixed_sequences : dict (list json) :=
  [("tps", [JNull; JInt 100; JStr "n/a"; JInt 110; JInt 105]);
   ("note", [JStr "warmup"; JNull]);
   ("iops", [JInt 3; JStr "n/a"; JInt 4])].

(** Run [run_1] has no container statistics, run [run_2] has. *)
Definition late_monitoring_parser : string -> string -> option json :=
  parser_table
    [("scripts/parse_pgbench.py results/postgres-pgbench/fsA/run_1/results.txt",
      pgbench_output 100);
     ("scripts/parse_pgbench.py results/postgres-pgbench/fsA/run_2/results.txt",
      pgbench_output 110);
     ("scripts/parse_docker_stats.py results/postgres-pgbench/fsA/run_2/docker_stats.jsonl",
      docker_output_of (1232 # 100) [1232 # 100])].

Definition late_monitoring_results : list (string * node) :=
  [("postgres-pgbench",
    Dir [("fsA", Dir [("run_1", run_with ["results.txt"]);
                      ("run_2", run_with ["results.txt"; "docker_stats.jsonl"])])])].

(** Two runs named [1] and [2], both with container statistics. *)
Definition numbered_parser : string -> string -> option json :=
  parser_table
    [("scripts/parse_docker_stats.py results/postgres-pgbench/fsA/1/docker_stats.jsonl",
      docker_output_of (1231 # 100) [12 # 1; 1262 # 100]);
     ("scripts/parse_docker_stats.py results/postgres-pgbench/fsA/2/docker_stats.jsonl",
      docker_output_of (1232 # 100) [1232 # 100])].

Definition numbered_results : list (string * node) :=
  [("postgres-pgbench",
    Dir [("fsA", Dir [("1", run_with ["docker_stats.jsonl"]);
                      ("2", run_with ["docker_stats.jsonl"])])])].

(** What the adapter [script] gives under [field] for the file [name] of
    the run directory called [run_1], if there is such a directory. *)
Definition run_1_payload (run_parser : string -> string -> option json)
  (b fs : string) (runs : list (string * node)) (script name field : string)
  : option json :=
  match dget "run_1" runs with
  | Some (Dir run_entries) =>
      match usable_output run_parser script
              (os_path_join (os_path_join (os_path_join RESULTS_DIR b) fs) "run_1")
              run_entries name with
      | Some data => field_payload field data
      | None => None
      end
  | _ => None
  end.

(** Closes [NoDup] goals on lists of distinct literal names. *)
Ltac distinct_names := repeat constructor; simpl; intuition discriminate.

(** An output of the storage-IO adapter for two samples. *)
Definition iostat_sample : json :=
  JObj [("version", JStr "Linux 6.1 (bench) x86_64");
        ("plot", JObj [("timestamp", JList [JInt 0; JInt 1]);
                       ("cpu_user", JList [JFloat (15 # 10); JFloat (25 # 10)])]);
        ("table", JObj [("cpu_user_avg", JFloat (2 # 1))])].




(** ** Further properties of the engine *)



(** [data[field]] is there and is not a mapping. *)
Definition broken_field (field : string) (data : json) : bool :=
  match data with
  | JObj o =>
      match dget field o with
      | Some v => negb (is_obj v)
      | None => false
      end
  | _ => false
  end.

(** A pass over two benchmarks; the workload adapter prints a list where
    the [plot] mapping of one run is expected. *)
Definition malformed_outputs : dict json :=
  [("scripts/parse_pgbench.py results/postgres-pgbench/fsA/run_1/results.txt",
    pgbench_output 100);
   ("scripts/parse_fio.py results/fio-randread/fsA/run_1/result.json",
    JObj [("version", JStr "fio-3.36"); ("plot", JList [JFloat (15234 # 1)])])].

Definition malformed_results : list (string * node) :=
  [("postgres-pgbench", Dir [("fsA", Dir [("run_1", run_with ["results.txt"])])]);
   ("fio-randread", Dir [("fsA", Dir [("run_1", run_with ["result.json"])])])].

(** ** Listing order *)




(** ** The series of the storage-IO adapter *)


(** [s.endswith(suf)] *)
Fixpoint is_suffix (suf s : string) : bool :=
  if String.eqb suf s then true
  else match s with
       | EmptyString => false
       | String _ s' => is_suffix suf s'
       end.



(** Fixtures: renderings of the library functions the adapter calls, for
    device names in ASCII, and a log of three samples of which only the
    second reports devices. *)
Definition ascii_digit (c : ascii) : bool :=
  (48 <=? nat_of_ascii c)%nat && (nat_of_ascii c <=? 57)%nat.

Fixpoint ends_in_digit (s : string) : bool :=
  match s with
  | EmptyString => false
  | String c EmptyString => ascii_digit c
  | String _ s' => ends_in_digit s'
  end.

Definition str_of (v : json) : string :=
  match v with
  | JStr s => s
  | _ => ""
  end.

Definition cpu_sample (user idle : Q) : json :=
  JObj [("user", JFloat user); ("system", JFloat (1 # 2)); ("iowait", JFloat 0);
        ("idle", JFloat idle)].

Definition iostat_log : json :=
  JObj
    [("sysstat",
      JObj
        [("hosts",
          JList
            [JObj
               [("nodename", JStr "bench"); ("sysname", JStr "Linux");
                ("release", JStr "6.1"); ("machine", JStr "x86_64");
                ("statistics",
                 JList
                   [JObj [("avg-cpu", cpu_sample (3 # 2) 98); ("disk", JList [])];
                    JObj [("avg-cpu", cpu_sample (5 # 2) 97);
                          ("disk",
                           JList
                             [JObj [("disk_device", JStr "vdb1"); ("r/s", JFloat 9)];
                              JObj [("disk_device", JStr "vdb"); ("r/s", JFloat 120);
                                    ("w/s", JFloat 30); ("util", JFloat (25 # 2))];
                              JObj [("disk_device", JStr "vdc"); ("r/s", JFloat 7)]])];
                    JObj [("avg-cpu", cpu_sample 2 (195 # 2))]])]])])].

Definition log_loads (content : string) : option json :=
  if String.eqb content "log" then Some iostat_log else None.

Definition iostat_log_out : json :=
  Eval vm_compute in
    match parse_iostat log_loads str_of ends_in_digit (String.eqb "") "log" with
    | Ok out => out
    | Raise _ => JNull
    end.

(** ** The devices of a sample *)

(** The samples the adapter iterates over:
    [data["sysstat"]["hosts"][0]["statistics"]]. *)
Definition samples_of (data : json) : list json :=
  match (sysstat <- py_getitem data "sysstat" ;;
         hosts <- py_get sysstat "hosts" (JList []) ;;
         host <- py_first hosts ;;
         statistics_list <- py_get host "statistics" (JList []) ;;
         py_iter statistics_list) with
  | Ok entries => entries
  | Raise _ => []
  end.

(** The disk entries of a sample: [stat_entry.get("disk", [])]. *)
Definition disks_of (stat_entry : json) : list json :=
  match (disk_list <- py_get stat_entry "disk" (JList []) ;; py_iter disk_list) with
  | Ok disks => disks
  | Raise _ => []
  end.

(** [disk_entry.get("disk_device", "")] when it is a string. *)
Definition device_name (disk_entry : json) : option string :=
  match py_get disk_entry "disk_device" (JStr "") with
  | Ok (JStr s) => Some s
  | _ => None
  end.

(** A disk entry the search for the main device steps over: its name ends
    in digits. *)
Definition numbered (ends_with_digits : string -> bool) (disk_entry : json) : bool :=
  match device_name disk_entry with
  | Some s => ends_with_digits s
  | None => false
  end.

(** Between two samples that reported no device. *)
Definition base_only (acc : iostat_acc) : Prop :=
  keys (plot_data acc) = keys initial_plot_data /\
  keys (table_stats acc) = keys initial_table_stats /\
  device_table_stats acc = [].

(** What every entry of the adapter's table satisfies. *)
Definition rounded_average (kv : string * json) : Prop :=
  is_suffix "_avg" (fst kv) = true /\
  is_number (snd kv) = true /\
  exists z : Z, (num_val (snd kv) == z # 100)%Q.

(** A log of two samples of a host whose only disk is an NVMe namespace. *)
Definition nvme_log : json :=
  JObj
    [("sysstat",
      JObj
        [("hosts",
          JList
            [JObj
               [("nodename", JStr "bench"); ("sysname", JStr "Linux");
                ("statistics",
                 JList
                   [JObj [("avg-cpu", cpu_sample (3 # 2) 98);
                          ("disk",
                           JList [JObj [("disk_device", JStr "nvme0n1");
                                        ("r/s", JFloat 5000)]])];
                    JObj [("avg-cpu", cpu_sample (5 # 2) 97);
                          ("disk",
                           JList [JObj [("disk_device", JStr "nvme0n1");
                                        ("r/s", JFloat 7000)];
                                  JObj [("disk_device", JStr "nvme0n1p1");
                                        ("r/s", JFloat 7000)]])]])]])])].

Definition nvme_loads (content : string) : option json :=
  if String.eqb content "nvme" then Some nvme_log else None.

(** ** The block-device adapter ([parse_fio.py]) *)

(** [v > 0] *)
Definition py_gt0 (v : json) : result bool :=
  match v with
  | JBool b => Ok b
  | JInt z => Ok (0 <? z)%Z
  | JFloat x => Ok (negb (Qle_bool x 0))
  | _ => Raise TypeError
  end.

(** [if key in percentiles: table_data[name] = percentiles[key]] *)
Definition percentile_into (name key : string) (percentiles : json)
  (table_data : dict json) : result (dict json) :=
  present <- py_in key percentiles ;;
  if present then
    v <- py_getitem percentiles key ;;
    Ok (dset name v table_data)
  else Ok table_data.

(** The block "Read Stats" for [dir = "read"] and the block "Write Stats"
    for [dir = "write"]: the two are the same code up to the direction. *)
Definition direction_stats (dir : string) (job : json)
  (pt : dict json * dict json) : result (dict json * dict json) :=
  let '(plot_data, table_data) := pt in
  stats <- py_get job dir (JObj []) ;;
  io_bytes <- py_get stats "io_bytes" (JInt 0) ;;
  positive <- py_gt0 io_bytes ;;
  if positive then
    iops <- py_get stats "iops" (JFloat 0) ;;
    bw_bytes <- py_get stats "bw_bytes" (JFloat 0) ;;
    lat_ns <- py_get stats "lat_ns" (JObj []) ;;
    lat_mean <- py_get lat_ns "mean" (JFloat 0) ;;
    let plot_data :=
      dset (dir ++ "_lat_ns_mean") lat_mean
        (dset (dir ++ "_bw_bytes") bw_bytes
           (dset (dir ++ "_iops") iops plot_data)) in
    lat_ns <- py_get stats "lat_ns" (JObj []) ;;
    lat_min <- py_get lat_ns "min" (JInt 0) ;;
    lat_ns <- py_get stats "lat_ns" (JObj []) ;;
    lat_max <- py_get lat_ns "max" (JInt 0) ;;
    let table_data :=
      dset (dir ++ "_lat_ns_max") lat_max
        (dset (dir ++ "_lat_ns_min") lat_min
           (dset (dir ++ "_io_bytes") io_bytes table_data)) in
    clat_ns <- py_get stats "clat_ns" (JObj []) ;;
    percentiles <- py_get clat_ns "percentile" (JObj []) ;;
    table_data <- percentile_into (dir ++ "_lat_ns_p95") "95.000000" percentiles
                    table_data ;;
    table_data <- percentile_into (dir ++ "_lat_ns_p99") "99.000000" percentiles
                    table_data ;;
    Ok (plot_data, table_data)
  else Ok (plot_data, table_data).

Definition fio_error (message : string) : json := JObj [("error", JStr message)].

Section FioAdapter.

(** [json.loads(content)], [None] for a [JSONDecodeError]. *)
Variable json_loads : string -> option json.

Definition parse_fio (content : string) : result json :=
  match json_loads content with
  | None => Ok (fio_error "Invalid JSON content")
  | Some data =>
      version <- py_get data "fio version" (JStr "unknown") ;;
      jobs <- py_get data "jobs" (JList []) ;;
      if negb (truthy jobs) then Ok (fio_error "No jobs found in FIO result")
      else
        job <- py_first jobs ;;
        options <- py_get job "job options" (JObj []) ;;
        job_name <- py_get job "jobname" JNull ;;
        rw_mode <- py_get options "rw" JNull ;;
        bs <- py_get options "bs" JNull ;;
        ioengine <- py_get options "ioengine" JNull ;;
        iodepth <- py_get options "iodepth" (JStr "1") ;;
        let table_data :=
          dset "iodepth" iodepth
            (dset "ioengine" ioengine
               (dset "bs" bs (dset "rw_mode" rw_mode (dset "job_name" job_name [])))) in
        pt <- direction_stats "read" job ([], table_data) ;;
        pt <- direction_stats "write" job pt ;;
        error <- py_get job "error" (JInt 0) ;;
        Ok (JObj [("version", version);
                  ("plot", JObj (fst pt));
                  ("table", JObj (dset "error" error (snd pt)))])
  end.

End FioAdapter.

(** The three scalars the adapter plots for a direction. *)
Definition direction_keys (dir : string) : list string :=
  [(dir ++ "_iops")%string; (dir ++ "_bw_bytes")%string; (dir ++ "_lat_ns_mean")%string].

(** The entries the adapter may add to the table for a direction. *)
Definition direction_table_keys (dir : string) : list string :=
  [(dir ++ "_io_bytes")%string; (dir ++ "_lat_ns_min")%string;
   (dir ++ "_lat_ns_max")%string; (dir ++ "_lat_ns_p95")%string;
   (dir ++ "_lat_ns_p99")%string].

(** The job moved bytes in the direction [dir]:
    [job.get(dir, {}).get("io_bytes", 0) > 0]. *)
Definition positive_io (dir : string) (job : json) : bool :=
  match (stats <- py_get job dir (JObj []) ;;
         io_bytes <- py_get stats "io_bytes" (JInt 0) ;;
         py_gt0 io_bytes) with
  | Ok b => b
  | Raise _ => false
  end.

(** Fixtures: a result with two jobs, the first of which only reads. *)
Definition fio_job (name : string) (read_bytes write_bytes : Z) (iops : Q) : json :=
  JObj [("jobname", JStr name);
        ("job options", JObj [("rw", JStr "randread"); ("bs", JStr "4k");
                              ("ioengine", JStr "libaio"); ("iodepth", JStr "32")]);
        ("read", JObj [("io_bytes", JInt read_bytes); ("iops", JFloat iops);
                       ("bw_bytes", JInt 62398464);
                       ("lat_ns", JObj [("min", JInt 41000); ("max", JInt 9120000);
                                        ("mean", JFloat (2098113 # 10))]);
                       ("clat_ns",
                        JObj [("percentile",
                               JObj [("50.000000", JInt 195584);
                                     ("95.000000", JInt 411648);
                                     ("99.000000", JInt 602112)])])]);
        ("write", JObj [("io_bytes", JInt write_bytes); ("iops", JFloat 0);
                        ("bw_bytes", JInt 0)]);
        ("error", JInt 0)].

Definition fio_result (jobs : list json) : json :=
  JObj [("fio version", JStr "fio-3.36"); ("jobs", JList jobs)].

Definition fio_loads (content : string) : option json :=
  if String.eqb content "two jobs" then
    Some (fio_result [fio_job "randread" 4096000 0 15234;
                      fio_job "randread" 8192000 0 30000])
  else if String.eqb content "one job" then
    Some (fio_result [fio_job "randread" 4096000 0 15234])
  else if String.eqb content "no job" then Some (fio_result [])
  else None.

(** ** The container adapter ([parse_docker_stats.py]) *)

(** How a run of the adapter may end other than by returning: one of the
    exceptions above, a [ValueError], or [sys.exit(status)]. *)
Inductive failure : Type :=
| Exception (e : exn)
| ValueError
| SystemExit (status : Z).

Inductive attempt (A : Type) : Type :=
| Returns (a : A)
| Fails (f : failure).

Arguments Returns {A} a.
Arguments Fails {A} f.

Definition attempt_bind {A B : Type} (c : attempt A) (k : A -> attempt B) : attempt B :=
  match c with
  | Returns a => k a
  | Fails f => Fails f
  end.

Notation "x <~ c ;; k" := (attempt_bind c (fun x => k))
  (at level 61, c at next level, right associativity).

Definition lift {A : Type} (r : result A) : attempt A :=
  match r with
  | Ok a => Returns a
  | Raise e => Fails (Exception e)
  end.

(** [for line in f: ...] *)
Fixpoint for_lines {A S : Type} (body : A -> S -> attempt S) (l : list A) (s : S)
  : attempt S :=
  match l with
  | [] => Returns s
  | x :: l' => s' <~ body x s ;; for_lines body l' s'
  end.

(** [s.replace(c, "")] for a pattern of one character *)
Fixpoint remove_char (c : ascii) (s : string) : string :=
  match s with
  | EmptyString => EmptyString
  | String a s' =>
      if Ascii.eqb a c then remove_char c s' else String a (remove_char c s')
  end.

(** [v.replace("%", "")] *)
Definition py_replace_percent (v : json) : attempt string :=
  match v with
  | JStr s => Returns (remove_char "%"%char s)
  | _ => Fails (Exception AttributeError)
  end.

(** [s.split(sep)] for a non-empty separator: the pieces between the
    occurrences of [sep] found from left to right; [skip] characters of an
    occurrence are still to be passed over, [piece] is the piece read so
    far. *)
Fixpoint split_from (sep : string) (skip : nat) (piece s : string) : list string :=
  match s with
  | EmptyString => [piece]
  | String c s' =>
      match skip with
      | S skip' => split_from sep skip' piece s'
      | O =>
          if String.prefix sep s
          then piece :: split_from sep (String.length sep - 1) "" s'
          else split_from sep 0 (piece ++ String c "") s'
      end
  end.

(** [v.split(" / ")] *)
Definition py_split (v : json) : attempt (list string) :=
  match v with
  | JStr s => Returns (split_from " / " 0 "" s)
  | _ => Fails (Exception AttributeError)
  end.

(** [a, b = parts] *)
Definition unpack2 (parts : list string) : attempt (string * string) :=
  match parts with
  | [a; b] => Returns (a, b)
  | _ => Fails ValueError
  end.

Definition units : dict Z :=
  [("B", 1); ("kB", 1000); ("MB", 1000 ^ 2); ("GB", 1000 ^ 3); ("TB", 1000 ^ 4);
   ("KiB", 1024); ("MiB", 1024 ^ 2); ("GiB", 1024 ^ 3); ("TiB", 1024 ^ 4)]%Z.

(** The seven lists of [data]. *)
Record docker_data : Type := {
  cpu_perc : list Q;
  mem_usage_bytes : list Q;
  mem_limit_bytes : list Q;
  block_read_bytes : list Q;
  block_write_bytes : list Q;
  net_rx_bytes : list Q;
  net_tx_bytes : list Q
}.

Definition empty_docker_data : docker_data :=
  {| cpu_perc := []; mem_usage_bytes := []; mem_limit_bytes := [];
     block_read_bytes := []; block_write_bytes := [];
     net_rx_bytes := []; net_tx_bytes := [] |}.

(** [round(sum(l) / len(l), 2) if l else 0.0] *)
Definition average2 (l : list Q) : Q :=
  match l with
  | [] => 0%Q
  | _ =>
      round_half_even
        (fold_right Qplus 0%Q l / inject_Z (Z.of_nat (length l)))%Q 2
  end.

(** [l[-1] if l else 0.0] *)
Definition last_or_zero (l : list Q) : Q := last l 0%Q.

Definition floats (l : list Q) : json := JList (map JFloat l).

Definition series_of (d : docker_data) : dict json :=
  [("cpu_perc", floats (cpu_perc d));
   ("mem_usage_bytes", floats (mem_usage_bytes d));
   ("mem_limit_bytes", floats (mem_limit_bytes d));
   ("block_read_bytes", floats (block_read_bytes d));
   ("block_write_bytes", floats (block_write_bytes d));
   ("net_rx_bytes", floats (net_rx_bytes d));
   ("net_tx_bytes", floats (net_tx_bytes d))].

(** Calculate Summary Statistics *)
Definition summary_of (d : docker_data) : dict json :=
  [("cpu_perc", JFloat (average2 (cpu_perc d)));
   ("mem_usage_bytes", JFloat (average2 (mem_usage_bytes d)));
   ("block_read_bytes", JFloat (last_or_zero (block_read_bytes d)));
   ("block_write_bytes", JFloat (last_or_zero (block_write_bytes d)));
   ("net_rx_bytes", JFloat (last_or_zero (net_rx_bytes d)));
   ("net_tx_bytes", JFloat (last_or_zero (net_tx_bytes d)))].

Section DockerAdapter.

(** [json.loads(line)], [None] for a [JSONDecodeError]. *)
Variable json_loads : string -> option json.

(** [not line.strip()] *)
Variable is_blank : string -> bool.

(** [s.strip()] *)
Variable py_strip : string -> string.

(** The groups of [re.match(r'^([\d\.]+)([a-zA-Z]+)$', s)], when it
    matches. *)
Variable match_size : string -> option (string * string).

(** [float(s)], [None] for a [ValueError]; the strings [float] reads as an
    infinity or as NaN are left out. *)
Variable py_float : string -> option Q.

Definition parse_size (size_str : json) : attempt Q :=
  if negb (truthy size_str) then Returns 0%Q
  else
    match size_str with
    | JStr s =>
        if String.eqb s "--" then Returns 0%Q
        else
          match match_size (py_strip s) with
          | Some (value, unit) =>
              match py_float value with
              | Some x => Returns (x * inject_Z (from_option 1%Z (dget unit units)))%Q
              | None => Fails ValueError
              end
          | None => Returns (from_option 0%Q (py_float s))
          end
    | _ => Fails (Exception AttributeError)
    end.

(** [a, b = text.split(" / ")] and the two sizes parsed, in this order. *)
Definition parse_pair (text : json) : attempt (Q * Q) :=
  parts <~ py_split text ;;
  ab <~ unpack2 parts ;;
  a <~ parse_size (JStr (fst ab)) ;;
  b <~ parse_size (JStr (snd ab)) ;;
  Returns (a, b).

(** The body of the loop over the lines of the file. *)
Definition sample_step (line : string) (d : docker_data) : attempt docker_data :=
  if is_blank line then Returns d
  else
    match json_loads line with
    | None => Returns d
    | Some entry =>
        cpu <~ lift (py_get entry "CPUPerc" (JStr "0%")) ;;
        cpu_str <~ py_replace_percent cpu ;;
        let cpu_value := from_option 0%Q (py_float cpu_str) in
        mem_str <~ lift (py_get entry "MemUsage" (JStr "0B / 0B")) ;;
        mem_split <~ lift (py_in " / " mem_str) ;;
        mem <~ (if mem_split then parse_pair mem_str
                else used <~ parse_size mem_str ;; Returns (used, 0%Q)) ;;
        block_str <~ lift (py_get entry "BlockIO" (JStr "0B / 0B")) ;;
        block_split <~ lift (py_in " / " block_str) ;;
        block <~ (if block_split then parse_pair block_str else Returns (0%Q, 0%Q)) ;;
        net_str <~ lift (py_get entry "NetIO" (JStr "0B / 0B")) ;;
        net_split <~ lift (py_in " / " net_str) ;;
        net <~ (if net_split then parse_pair net_str else Returns (0%Q, 0%Q)) ;;
        Returns {| cpu_perc := cpu_perc d ++ [cpu_value];
                   mem_usage_bytes := mem_usage_bytes d ++ [fst mem];
                   mem_limit_bytes := mem_limit_bytes d ++ [snd mem];
                   block_read_bytes := block_read_bytes d ++ [fst block];
                   block_write_bytes := block_write_bytes d ++ [snd block];
                   net_rx_bytes := net_rx_bytes d ++ [fst net];
                   net_tx_bytes := net_tx_bytes d ++ [snd net] |}
    end.

(** [parse_docker_stats(file_path)], given the lines of the file, [None]
    when the file does not exist. *)
Definition parse_docker_stats (file : option (list string)) : attempt json :=
  match file with
  | None => Fails (SystemExit 1)
  | Some lines =>
      d <~ for_lines sample_step lines empty_docker_data ;;
      Returns (JObj [("plot", JObj (summary_of d)); ("series", JObj (series_of d))])
  end.

(** A line that gives a sample: it is not blank and it decodes. *)
Definition is_sample (line : string) : bool :=
  negb (is_blank line)
  && match json_loads line with
     | Some _ => true
     | None => false
     end.

End DockerAdapter.


(** Fixtures: renderings of the library functions for the strings of the
    sample file below, which has a blank line and a line cut short. *)
Definition stats_line (cpu mem block net : string) : json :=
  JObj [("CPUPerc", JStr cpu); ("MemUsage", JStr mem); ("BlockIO", JStr block);
        ("NetIO", JStr net)].

Definition stats_loads (line : string) : option json :=
  if String.eqb line "first" then
    Some (stats_line "12.5%" "420MiB / 8GiB" "72MB / 252MB" "5kB / 126B")
  else if String.eqb line "second" then
    Some (stats_line "13.5%" "421MiB / 8GiB" "80MB / 300MB" "--")
  else if String.eqb line "three sizes" then
    Some (stats_line "13.5%" "421MiB / 8GiB / 1GiB" "80MB / 300MB" "--")
  else None.

Definition stats_match (s : string) : option (string * string) :=
  dget s [("420MiB", ("420", "MiB")); ("421MiB", ("421", "MiB")); ("8GiB", ("8", "GiB"));
          ("1GiB", ("1", "GiB"));
          ("72MB", ("72", "MB")); ("252MB", ("252", "MB")); ("80MB", ("80", "MB"));
          ("300MB", ("300", "MB")); ("5kB", ("5", "kB")); ("126B", ("126", "B"))].

Definition stats_float (s : string) : option Q :=
  dget s [("12.5", 25 # 2); ("13.5", 27 # 2); ("420", 420 # 1); ("421", 421 # 1);
          ("8", 8 # 1); ("1", 1 # 1); ("72", 72 # 1); ("252", 252 # 1); ("80", 80 # 1);
          ("300", 300 # 1); ("5", 5 # 1); ("126", 126 # 1)]%Q.

Definition stats_file : list string := ["first"; ""; "{cut"; "second"].

(** ** The engine on the adapters *)

(** What the three adapters embedded here may print. *)
Definition from_iostat (data : json) : Prop :=
  exists json_loads py_str ends_with_digits is_blank content,
    parse_iostat json_loads py_str ends_with_digits is_blank content = Ok data.

Definition from_fio (data : json) : Prop :=
  exists json_loads content, parse_fio json_loads content = Ok data.

Definition from_docker_stats (data : json) : Prop :=
  exists json_loads is_blank py_strip match_size py_float lines,
    parse_docker_stats json_loads is_blank py_strip match_size py_float (Some lines)
    = Returns data.

Definition modelled_scripts : list string :=
  [os_path_join SCRIPTS_DIR "parse_iostat.py";
   os_path_join SCRIPTS_DIR "parse_docker_stats.py";
   os_path_join SCRIPTS_DIR "parse_fio.py"].

(** [run_parser] runs the adapters: what it returns for one of the three
    scripts above is what the adapter returns (its standard output,
    decoded); the other adapters are only supposed to honour the record
    contract. *)
Definition runs_the_adapters (run_parser : string -> string -> option json) : Prop :=
  forall script input_file data,
    run_parser script input_file = Some data ->
    (script = os_path_join SCRIPTS_DIR "parse_iostat.py" -> from_iostat data) /\
    (script = os_path_join SCRIPTS_DIR "parse_docker_stats.py" -> from_docker_stats data) /\
    (script = os_path_join SCRIPTS_DIR "parse_fio.py" -> from_fio data) /\
    (~ In script modelled_scripts -> well_shaped data = true).

(** The standard output of an adapter that ended without an exception. *)
Definition printed (r : result json) : option json :=
  match r with
  | Ok v => Some v
  | Raise _ => None
  end.

Definition printed_attempt (r : attempt json) : option json :=
  match r with
  | Returns v => Some v
  | Fails _ => None
  end.

(** An adapter runner on the fixtures: each script runs on its sample
    input, whatever the file. *)
Definition fixture_runner (script input_file : string) : option json :=
  if String.eqb script "scripts/parse_iostat.py" then
    printed (parse_iostat log_loads str_of ends_in_digit (String.eqb "") "log")
  else if String.eqb script "scripts/parse_docker_stats.py" then
    printed_attempt
      (parse_docker_stats stats_loads (String.eqb "") (fun s => s) stats_match stats_float
         (Some stats_file))
  else if String.eqb script "scripts/parse_fio.py" then
    printed (parse_fio fio_loads "one job")
  else None.

Definition monitored_results : list (string * node) :=
  [("fio-randread",
    Dir [("fsA",
          Dir [("run_1", run_with ["result.json"; "docker_stats.jsonl"; "iostat.json"]);
               ("run_2", run_with ["result.json"; "docker_stats.jsonl"])])])].

Definition monitored_out : json :=
  Eval vm_compute in
    match main fixture_runner (JObj []) (Some (Dir monitored_results)) with
    | Completed _ out => out
    | _ => JNull
    end.

(** * Properties *)

(** The input of the docstring of [calculate_average]; the mean of the
    latencies is kept with 4 decimals. *)
Example calculate_average_doc :
  calculate_average [("tps", [JInt 100; JInt 110; JInt 105]);
                     ("latency", [q 11 10; q 12 10; q 11 10])]
  = Ok [("tps", JInt 105); ("latency", q 11333 10000)].
Proof. vm_compute. reflexivity. Qed.

(** ** Dictionaries *)

Lemma dget_dupd {V : Type} (k k' : string) (f : option V -> V) (d : dict V) :
  dget k (dupd k' f d)
  = if String.eqb k k' then Some (f (dget k' d)) else dget k d.
Proof.
  induction d as [|[k0 v] d IH]; simpl.
  - destruct (String.eqb k k'); reflexivity.
  - destruct (String.eqb_spec k' k0) as [->|Hne]; simpl.
    + destruct (String.eqb k k0); reflexivity.
    + rewrite IH. destruct (String.eqb_spec k k0) as [->|Hne'].
      * destruct (String.eqb_spec k0 k') as [E|_]; [congruence | reflexivity].
      * reflexivity.
Qed.

Lemma dget_dupd_same {V : Type} (k : string) (f : option V -> V) (d : dict V) :
  dget k (dupd k f d) = Some (f (dget k d)).
Proof. rewrite dget_dupd, String.eqb_refl. reflexivity. Qed.

Lemma dget_dupd_other {V : Type} (k k' : string) (f : option V -> V) (d : dict V) :
  k <> k' -> dget k (dupd k' f d) = dget k d.
Proof.
  intros Hne. rewrite dget_dupd.
  destruct (String.eqb_spec k k'); [contradiction | reflexivity].
Qed.

Lemma dget_dset {V : Type} (k k' : string) (v : V) (d : dict V) :
  dget k (dset k' v d) = if String.eqb k k' then Some v else dget k d.
Proof. unfold dset. apply dget_dupd. Qed.

Lemma dget_None_iff {V : Type} (k : string) (d : dict V) :
  dget k d = None <-> ~ In k (keys d).
Proof.
  induction d as [|[k0 v] d IH]; simpl.
  - tauto.
  - destruct (String.eqb_spec k k0) as [->|Hne].
    + split; [discriminate | intros H; exfalso; apply H; now left].
    + rewrite IH. split.
      * intros H [E|HIn]; [congruence | contradiction].
      * intros H HIn. apply H. now right.
Qed.

Lemma dget_In {V : Type} (k : string) (v : V) (d : dict V) :
  dget k d = Some v -> In (k, v) d.
Proof.
  induction d as [|[k0 v0] d IH]; simpl; [discriminate|].
  destruct (String.eqb_spec k k0) as [->|Hne].
  - intros [= ->]. now left.
  - intros H. right. now apply IH.
Qed.

Lemma keys_dupd {V : Type} (k : string) (f : option V -> V) (d : dict V) :
  keys (dupd k f d) = if dmem k d then keys d else keys d ++ [k].
Proof.
  unfold dmem. induction d as [|[k0 v] d IH]; simpl; [reflexivity|].
  destruct (String.eqb_spec k k0) as [->|Hne]; simpl; [reflexivity|].
  rewrite IH. destruct (dget k d); reflexivity.
Qed.

(** ** The loop combinator *)

Lemma for_each_app {A S : Type} (body : A -> S -> result S) (l1 l2 : list A) (s : S) :
  for_each body (l1 ++ l2) s = (s1 <- for_each body l1 s ;; for_each body l2 s1).
Proof.
  revert s. induction l1 as [|x l1 IH]; intros s; simpl; [reflexivity|].
  destruct (body x s); simpl; [apply IH | reflexivity].
Qed.

(** A relation kept by every round of a loop is kept by the loop. *)
Lemma for_each_invariant {A S : Type} (R : S -> S -> Prop)
  (body : A -> S -> result S) (l : list A) :
  (forall s, R s s) ->
  (forall s1 s2 s3, R s1 s2 -> R s2 s3 -> R s1 s3) ->
  (forall x s s', In x l -> body x s = Ok s' -> R s s') ->
  forall s s', for_each body l s = Ok s' -> R s s'.
Proof.
  intros Hrefl Htrans. induction l as [|x l IH]; intros Hbody s s'; simpl.
  - intros [= ->]. apply Hrefl.
  - destruct (body x s) as [s1|e] eqn:E; simpl; [|discriminate].
    intros H. apply Htrans with s1.
    + apply (Hbody x); [now left | exact E].
    + apply IH; [|exact H]. intros y t t' HIn. apply Hbody. now right.
Qed.


(** ** Numbers *)



(** What [round] returns is a whole number of [10^-ndigits]. *)
Lemma round_half_even_grid (q : Q) (ndigits : nat) :
  exists n : Z, round_half_even q ndigits == n # Z.to_pos (10 ^ Z.of_nat ndigits).
Proof.
  unfold round_half_even. eexists. apply Qred_correct.
Qed.



(** ** The merger *)

Lemma forallb_filter {A : Type} (p : A -> bool) (l : list A) :
  forallb p (filter p l) = true.
Proof.
  induction l as [|x l IH]; simpl; [reflexivity|].
  destruct (p x) eqn:E; simpl; [rewrite E|]; exact IH.
Qed.

Lemma mean_then_round (valid : list json) (ndigits : nat) :
  valid <> [] -> forallb is_number valid = true ->
  (mean <- statistics_mean valid ;; py_round mean ndigits)
  = Ok (rounded_mean valid ndigits).
Proof.
  intros Hne Hall. unfold statistics_mean, rounded_mean.
  destruct valid as [|v valid]; [contradiction|].
  rewrite Hall.
  destruct (existsb is_float (v :: valid)); [reflexivity|].
  destruct (Pos.eqb _ 1); reflexivity.
Qed.

Lemma rounded_mean_is_number (valid : list json) (ndigits : nat) :
  is_number (rounded_mean valid ndigits) = true.
Proof.
  unfold rounded_mean.
  destruct (existsb is_float valid); [reflexivity|].
  destruct (Pos.eqb _ 1); reflexivity.
Qed.


Lemma bind_assoc {A B C : Type} (c : result A) (f : A -> result B) (g : B -> result C) :
  (x <- c ;; y <- f x ;; g y) = (y <- (x <- c ;; f x) ;; g y).
Proof. destruct c; reflexivity. Qed.

Lemma calculate_average_step_eq (item : string * list json) (aggregated : dict json) :
  calculate_average_step item aggregated
  = Ok (put_entry (fst item) (plot_entry (snd item)) aggregated).
Proof.
  destruct item as [metric values]. unfold calculate_average_step, plot_entry.
  cbn [fst snd].
  pose proof (forallb_filter is_number values) as Hall.
  destruct (filter is_number values) as [|v1 [|v2 valid]] eqn:E; try reflexivity.
  change (1 <? length (v1 :: v2 :: valid))%nat with true. cbv iota.
  rewrite bind_assoc, mean_then_round; [reflexivity | discriminate | exact Hall].
Qed.

Lemma aggregate_table_data_step_eq (item : string * list json) (aggregated : dict json) :
  aggregate_table_data_step item aggregated
  = Ok (put_entry (fst item) (table_entry (snd item)) aggregated).
Proof.
  destruct item as [key values]. unfold aggregate_table_data_step, table_entry.
  cbn [fst snd].
  destruct values as [|v0 values]; [reflexivity|].
  cbn [index0 bind].
  destruct (is_number v0) eqn:E0; [|reflexivity].
  pose proof (forallb_filter is_number (v0 :: values)) as Hall.
  cbn [filter] in *. rewrite E0 in *.
  rewrite bind_assoc, mean_then_round; [reflexivity | discriminate | exact Hall].
Qed.

Lemma merge_loop (entry : list json -> option json)
  (step : string * list json -> dict json -> result (dict json)) :
  (forall item agg, step item agg = Ok (put_entry (fst item) (entry (snd item)) agg)) ->
  forall d agg, for_each step d agg = Ok (merged entry d agg).
Proof.
  intros Hstep. induction d as [|item d IH]; intros agg; simpl; [reflexivity|].
  rewrite Hstep. simpl. apply IH.
Qed.

Lemma dget_put_entry (k k' : string) (o : option json) (d : dict json) :
  dget k (put_entry k' o d)
  = if String.eqb k k' then match o with Some v => Some v | None => dget k d end
    else dget k d.
Proof.
  destruct o as [v|]; simpl.
  - apply dget_dset.
  - destruct (String.eqb k k'); reflexivity.
Qed.

Lemma dget_merged (entry : list json -> option json) (k : string)
  (d : dict (list json)) :
  NoDup (keys d) ->
  forall agg,
    dget k (merged entry d agg)
    = match dget k d with
      | Some values =>
          match entry values with
          | Some v => Some v
          | None => dget k agg
          end
      | None => dget k agg
      end.
Proof.
  induction d as [|[k0 values] d IH]; intros Hnd agg; simpl; [reflexivity|].
  inversion Hnd as [|? ? Hnotin Hnd']; subst.
  unfold merged in *. rewrite (IH Hnd').
  destruct (String.eqb_spec k k0) as [->|Hne].
  - assert (Hk : dget k0 d = None) by (apply dget_None_iff; exact Hnotin).
    rewrite Hk, dget_put_entry, String.eqb_refl. reflexivity.
  - rewrite dget_put_entry.
    destruct (String.eqb_spec k k0); [contradiction|]. reflexivity.
Qed.

Lemma calculate_average_eq (d : dict (list json)) :
  calculate_average d = Ok (merged plot_entry d []).
Proof. apply merge_loop, calculate_average_step_eq. Qed.

Lemma aggregate_table_data_eq (d : dict (list json)) :
  aggregate_table_data d = Ok (merged table_entry d []).
Proof. apply merge_loop, aggregate_table_data_step_eq. Qed.



(** ** The store *)

Lemma group_eqb_spec (g1 g2 : group) : reflect (g1 = g2) (group_eqb g1 g2).
Proof. destruct g1, g2; simpl; constructor; congruence. Qed.

Lemma cget_cupd (g g' : group) (f : dict (list json) -> dict (list json))
  (c : container) :
  cget g (cupd g' f c) = if group_eqb g g' then f (cget g c) else cget g c.
Proof. destruct g, g'; reflexivity. Qed.

Lemma lookup2_dupd {V : Type} (b fs b' fs' : string) (f : option V -> V)
  (d : dict (dict V)) :
  lookup2 b' fs' (dupd b (fun o => dupd fs f (from_option [] o)) d)
  = if String.eqb b' b && String.eqb fs' fs then Some (f (lookup2 b fs d))
    else lookup2 b' fs' d.
Proof.
  unfold lookup2. rewrite dget_dupd.
  destruct (String.eqb_spec b' b) as [->|Hb]; simpl.
  - rewrite dget_dupd.
    destruct (String.eqb_spec fs' fs) as [->|Hfs];
      destruct (dget b d); reflexivity.
  - reflexivity.
Qed.

Lemma rep_data_temp_append (b fs : string) (g : group) (k : string) (v : json)
  (st : store) :
  rep_data (temp_append b fs g k v st) = rep_data st.
Proof. reflexivity. Qed.

Lemma temp_data_rep_assign (b fs name : string) (v : json) (st : store) :
  temp_data (rep_assign b fs name v st) = temp_data st.
Proof. reflexivity. Qed.

Lemma acc_of_temp_append (b fs : string) (g : group) (k : string) (v : json)
  (st : store) (b' fs' : string) (g' : group) (k' : string) :
  acc_of (temp_append b fs g k v st) b' fs' g' k'
  = acc_of st b' fs' g' k'
    ++ (if String.eqb b' b && String.eqb fs' fs && group_eqb g' g && String.eqb k' k
        then [v] else []).
Proof.
  unfold acc_of, temp_append. cbn [temp_data]. rewrite lookup2_dupd.
  destruct (String.eqb_spec b' b) as [->|Hb]; simpl; [|now rewrite app_nil_r].
  destruct (String.eqb_spec fs' fs) as [->|Hfs]; simpl; [|now rewrite app_nil_r].
  rewrite cget_cupd.
  destruct (group_eqb_spec g' g) as [->|Hg]; simpl; [|now rewrite app_nil_r].
  unfold dappend. rewrite dget_dupd.
  destruct (String.eqb_spec k' k) as [->|Hk]; simpl; [reflexivity | now rewrite app_nil_r].
Qed.

Lemma acc_of_groups (b fs : string) (gs : list group) (k : string) (v : json)
  (b' fs' : string) (g' : group) (k' : string) :
  forall st,
    acc_of (fold_left (fun st g => temp_append b fs g k v st) gs st) b' fs' g' k'
    = acc_of st b' fs' g' k'
      ++ (if String.eqb b' b && String.eqb fs' fs && String.eqb k' k
          then repeat v (hits g' gs) else []).
Proof.
  unfold hits.
  induction gs as [|g gs IH]; intros st; simpl.
  - destruct (_ && _); now rewrite app_nil_r.
  - rewrite IH, acc_of_temp_append, <- app_assoc. f_equal.
    destruct (String.eqb b' b), (String.eqb fs' fs), (group_eqb g' g), (String.eqb k' k);
      reflexivity.
Qed.

Lemma acc_of_accumulate (b fs : string) (gs : list group) (items : list (string * json))
  (b' fs' : string) (g' : group) (k' : string) :
  forall st,
    acc_of (accumulate b fs gs items st) b' fs' g' k'
    = acc_of st b' fs' g' k'
      ++ (if String.eqb b' b && String.eqb fs' fs
          then picked k' (hits g' gs) items else []).
Proof.
  unfold accumulate, picked.
  induction items as [|[k v] items IH]; intros st; simpl.
  - destruct (_ && _); now rewrite app_nil_r.
  - rewrite IH, acc_of_groups, <- app_assoc. f_equal.
    destruct (String.eqb b' b), (String.eqb fs' fs), (String.eqb k' k); reflexivity.
Qed.

Lemma rep_data_accumulate (b fs : string) (gs : list group)
  (items : list (string * json)) :
  forall st, rep_data (accumulate b fs gs items st) = rep_data st.
Proof.
  unfold accumulate. induction items as [|kv items IH]; intros st; simpl; [reflexivity|].
  rewrite IH. clear IH. revert st.
  induction gs as [|g gs IH]; intros st; simpl; [reflexivity|].
  now rewrite IH.
Qed.

Lemma picked_cons (k : string) (n : nat) (k0 : string) (v : json)
  (items : list (string * json)) :
  picked k n ((k0, v) :: items)
  = (if String.eqb k k0 then repeat v n else []) ++ picked k n items.
Proof. reflexivity. Qed.

(** With distinct keys, a mapping gives at most one value for a key. *)
Lemma picked_once (k : string) (items : list (string * json)) :
  NoDup (keys items) ->
  picked k 1 items = match dget k items with Some v => [v] | None => [] end.
Proof.
  induction items as [|[k0 v] items IH]; intros Hnd; [reflexivity|].
  inversion Hnd as [|? ? Hnotin Hnd']; subst.
  rewrite picked_cons, (IH Hnd'). cbn [dget].
  destruct (String.eqb_spec k k0) as [->|Hne]; [|reflexivity].
  assert (Hk : dget k0 items = None) by (apply dget_None_iff; exact Hnotin).
  now rewrite Hk.
Qed.


(** ** One adapter output *)

Lemma accumulate_field_Ok (b fs : string) (gs : list group) (field : string)
  (data : json) (st st' : store) :
  accumulate_field b fs gs field data st = Ok st' ->
  rep_data st' = rep_data st /\
  forall b' fs' g' k',
    acc_of st' b' fs' g' k'
    = acc_of st b' fs' g' k'
      ++ (if String.eqb b' b && String.eqb fs' fs
          then field_picked field data k' (hits g' gs) else []).
Proof.
  unfold accumulate_field, field_picked.
  assert (Hsame : forall b' fs' g' k',
             acc_of st b' fs' g' k'
             = acc_of st b' fs' g' k'
               ++ (if String.eqb b' b && String.eqb fs' fs then [] else [])).
  { intros. destruct (_ && _); now rewrite app_nil_r. }
  destruct data as [| | | | s | l | o]; simpl; try discriminate.
  - destruct (contains field s); simpl; [discriminate|].
    intros [= <-]. split; [reflexivity | exact Hsame].
  - destruct (existsb _ l); simpl; [discriminate|].
    intros [= <-]. split; [reflexivity | exact Hsame].
  - unfold dmem. destruct (dget field o) as [payload|]; simpl.
    + destruct payload as [| | | | | |items]; simpl; try discriminate.
      intros [= <-]. split; [apply rep_data_accumulate|].
      intros. apply acc_of_accumulate.
    + intros [= <-]. split; [reflexivity | exact Hsame].
Qed.

Lemma rep_of_rep_assign (b fs name : string) (v : json) (st : store)
  (b' fs' name' : string) :
  rep_of (rep_assign b fs name v st) b' fs' name'
  = if String.eqb b' b && String.eqb fs' fs && String.eqb name' name then Some v
    else rep_of st b' fs' name'.
Proof.
  unfold rep_of, rep_assign. cbn [rep_data]. rewrite lookup2_dupd.
  destruct (String.eqb_spec b' b) as [->|Hb]; simpl; [|reflexivity].
  destruct (String.eqb_spec fs' fs) as [->|Hfs]; simpl; [|reflexivity].
  apply dget_dset.
Qed.

Lemma keep_representative_Ok (b fs run name field : string) (data : json)
  (st st' : store) :
  keep_representative b fs run name field data st = Ok st' ->
  temp_data st' = temp_data st /\
  forall b' fs' name',
    rep_of st' b' fs' name'
    = if String.eqb b' b && String.eqb fs' fs && String.eqb name' name
      then override (rep_of st b' fs' name')
             (if String.eqb run "run_1" then field_payload field data else None)
      else rep_of st b' fs' name'.
Proof.
  unfold keep_representative, field_payload.
  assert (Hsame : forall b' fs' name',
             rep_of st b' fs' name'
             = if String.eqb b' b && String.eqb fs' fs && String.eqb name' name
               then override (rep_of st b' fs' name') None
               else rep_of st b' fs' name').
  { intros. destruct (_ && _); reflexivity. }
  destruct (String.eqb run "run_1").
  - destruct data as [| | | | s | l | o]; simpl; try discriminate.
    + destruct (contains field s); simpl; [discriminate|].
      intros [= <-]. split; [reflexivity | exact Hsame].
    + destruct (existsb _ l); simpl; [discriminate|].
      intros [= <-]. split; [reflexivity | exact Hsame].
    + unfold dmem. destruct (dget field o) as [payload|]; simpl.
      * intros [= <-]. split; [reflexivity|].
        intros. rewrite rep_of_rep_assign.
        destruct (_ && _); reflexivity.
      * intros [= <-]. split; [reflexivity | exact Hsame].
  - intros [= <-]. split; [reflexivity | exact Hsame].
Qed.

Lemma acc_of_temp_data (st st' : store) :
  temp_data st' = temp_data st ->
  forall b fs g k, acc_of st' b fs g k = acc_of st b fs g k.
Proof. intros H b fs g k. unfold acc_of. now rewrite H. Qed.

Lemma rep_of_rep_data (st st' : store) :
  rep_data st' = rep_data st ->
  forall b fs name, rep_of st' b fs name = rep_of st b fs name.
Proof. intros H b fs name. unfold rep_of. now rewrite H. Qed.

(** ** What a pass collects *)

Lemma if_app {A : Type} (c : bool) (l1 l2 : list A) :
  (if c then l1 else []) ++ (if c then l2 else []) = if c then l1 ++ l2 else [].
Proof. destruct c; reflexivity. Qed.

Lemma override_assoc (o a b : option json) :
  override (override o a) b = override o (override a b).
Proof. destruct b; reflexivity. Qed.

Lemma flat_map_nil {A B : Type} (l : list A) :
  flat_map (fun _ : A => @nil B) l = [].
Proof. induction l; simpl; auto. Qed.

(** Observations that only grow: each round appends its contribution. *)
Lemma for_each_appends {A S B : Type} (obs : S -> list B) (contrib : A -> list B)
  (body : A -> S -> result S) (l : list A) :
  (forall x s s', body x s = Ok s' -> obs s' = obs s ++ contrib x) ->
  forall s s', for_each body l s = Ok s' -> obs s' = obs s ++ flat_map contrib l.
Proof.
  intros Hbody. induction l as [|x l IH]; intros s s'; simpl.
  - intros [= <-]. now rewrite app_nil_r.
  - destruct (body x s) as [s1|e] eqn:E; simpl; [|discriminate].
    intros H. rewrite (IH _ _ H), (Hbody _ _ _ E), app_assoc. reflexivity.
Qed.

Lemma for_each_overrides {A S : Type} (obs : S -> option json)
  (contrib : A -> option json) (body : A -> S -> result S) (l : list A) :
  (forall x s s', body x s = Ok s' -> obs s' = override (obs s) (contrib x)) ->
  forall s s', for_each body l s = Ok s' ->
               obs s' = override (obs s) (last_kept contrib l).
Proof.
  intros Hbody. induction l as [|x l IH]; intros s s'; simpl.
  - intros [= <-]. reflexivity.
  - destruct (body x s) as [s1|e] eqn:E; simpl; [|discriminate].
    intros H. rewrite (IH _ _ H), (Hbody _ _ _ E). apply override_assoc.
Qed.

Section CollectFacts.

Variable run_parser : string -> string -> option json.

Lemma collect_docker_stats_eq (b fs run run_path : string)
  (run_entries : list (string * node)) (st : store) :
  collect_docker_stats run_parser b fs run run_path run_entries st
  = collect_monitoring run_parser (os_path_join SCRIPTS_DIR "parse_docker_stats.py")
      "docker_stats.jsonl" [docker_plot; docker_table] "plot"
      "docker_stats_series" "series" b fs run run_path run_entries st.
Proof. reflexivity. Qed.

Lemma collect_iostat_eq (b fs run run_path : string)
  (run_entries : list (string * node)) (st : store) :
  collect_iostat run_parser b fs run run_path run_entries st
  = collect_monitoring run_parser (os_path_join SCRIPTS_DIR "parse_iostat.py")
      "iostat.json" [monitoring_plot; monitoring_table] "table"
      "iostat_series" "plot" b fs run run_path run_entries st.
Proof. reflexivity. Qed.

Lemma collect_monitoring_Ok (script file_name : string) (gs : list group)
  (field name rep_field b fs run run_path : string)
  (run_entries : list (string * node)) (st st' : store) :
  collect_monitoring run_parser script file_name gs field name rep_field b fs run run_path
    run_entries st = Ok st' ->
  (forall b' fs' g k,
      acc_of st' b' fs' g k
      = acc_of st b' fs' g k
        ++ (if String.eqb b' b && String.eqb fs' fs
            then from_output
                   (usable_output run_parser script run_path run_entries file_name)
                   (fun data => field_picked field data k (hits g gs))
            else []))
  /\
  (forall b' fs' name',
      rep_of st' b' fs' name'
      = if String.eqb b' b && String.eqb fs' fs && String.eqb name' name
        then override (rep_of st b' fs' name')
               (match usable_output run_parser script run_path run_entries file_name with
                | Some data =>
                    if String.eqb run "run_1" then field_payload rep_field data
                    else None
                | None => None
                end)
        else rep_of st b' fs' name').
Proof.
  unfold collect_monitoring, usable_output.
  assert (Hidle : Ok st = Ok st' ->
            (forall b' fs' g k,
                acc_of st' b' fs' g k
                = acc_of st b' fs' g k
                  ++ (if String.eqb b' b && String.eqb fs' fs then [] else []))
            /\
            (forall b' fs' name',
                rep_of st' b' fs' name'
                = if String.eqb b' b && String.eqb fs' fs && String.eqb name' name
                  then override (rep_of st b' fs' name') None
                  else rep_of st b' fs' name')).
  { intros [= <-]. split; intros; destruct (_ && _); simpl; auto using app_nil_r. }
  destruct (exists_in run_entries file_name); [|exact Hidle].
  destruct (run_parser script (os_path_join run_path file_name)) as [data|];
    [|exact Hidle].
  destruct (truthy data); [|exact Hidle].
  destruct (accumulate_field b fs gs field data st) as [st1|e] eqn:E1; simpl;
    [|discriminate].
  intros E2.
  apply accumulate_field_Ok in E1 as [Hr1 Ha1].
  apply keep_representative_Ok in E2 as [Ht2 Hr2].
  split.
  - intros. rewrite (acc_of_temp_data _ _ Ht2), Ha1. reflexivity.
  - intros. rewrite Hr2, (rep_of_rep_data _ _ Hr1). reflexivity.
Qed.

Lemma collect_workload_Ok (b fs parser_script run_path : string)
  (run_entries : list (string * node)) (st st' : store) :
  collect_workload run_parser b fs parser_script run_path run_entries st = Ok st' ->
  rep_data st' = rep_data st /\
  forall b' fs' g k,
    acc_of st' b' fs' g k
    = acc_of st b' fs' g k
      ++ (if String.eqb b' b && String.eqb fs' fs
          then from_output
                 (usable_output run_parser parser_script run_path run_entries
                    (workload_name b))
                 (fun data =>
                    field_picked "plot" data k (hits g [metrics_plot])
                    ++ field_picked "table" data k (hits g [metrics_table]))
          else []).
Proof.
  unfold collect_workload, usable_output.
  assert (Hidle : Ok st = Ok st' ->
            rep_data st' = rep_data st /\
            forall b' fs' g k,
              acc_of st' b' fs' g k
              = acc_of st b' fs' g k
                ++ (if String.eqb b' b && String.eqb fs' fs then [] else [])).
  { intros [= <-]. split; [reflexivity|].
    intros; destruct (_ && _); simpl; auto using app_nil_r. }
  destruct (exists_in run_entries (workload_name b)); [|exact Hidle].
  destruct (run_parser parser_script _) as [data|]; [|exact Hidle].
  destruct (truthy data); [|exact Hidle].
  destruct (accumulate_field b fs [metrics_plot] "plot" data st) as [st1|e] eqn:E1;
    simpl; [|discriminate].
  intros E2.
  apply accumulate_field_Ok in E1 as [Hr1 Ha1].
  apply accumulate_field_Ok in E2 as [Hr2 Ha2].
  split; [congruence|].
  intros. rewrite Ha2, Ha1, <- app_assoc, if_app. reflexivity.
Qed.

Lemma collect_run_Ok (b fs parser_script fs_path : string) (entry : string * node)
  (st st' : store) :
  collect_run run_parser b fs parser_script fs_path entry st = Ok st' ->
  (forall b' fs' g k,
      acc_of st' b' fs' g k
      = acc_of st b' fs' g k
        ++ (if String.eqb b' b && String.eqb fs' fs
            then run_adds run_parser b parser_script fs_path g k entry else []))
  /\
  (forall b' fs' name,
      rep_of st' b' fs' name
      = override (rep_of st b' fs' name)
          (if String.eqb b' b && String.eqb fs' fs
           then run_keeps run_parser fs_path name entry else None)).
Proof.
  unfold collect_run, run_adds, run_keeps, docker_output, iostat_output.
  destruct entry as [run [|run_entries]]; cbn [fst snd].
  - intros [= <-]. split; intros; destruct (_ && _); simpl; auto using app_nil_r.
  - destruct (collect_workload _ _ _ _ _ _ _) as [st1|e] eqn:E1; simpl; [|discriminate].
    destruct (collect_docker_stats _ _ _ _ _ _ _) as [st2|e] eqn:E2; simpl;
      [|discriminate].
    intros E3.
    apply collect_workload_Ok in E1 as [Hr1 Ha1].
    rewrite collect_docker_stats_eq in E2.
    apply collect_monitoring_Ok in E2 as [Ha2 Hr2].
    rewrite collect_iostat_eq in E3.
    apply collect_monitoring_Ok in E3 as [Ha3 Hr3].
    split.
    + intros. rewrite Ha3, Ha2, Ha1, <- !app_assoc, !if_app. reflexivity.
    + intros. rewrite Hr3, Hr2, (rep_of_rep_data _ _ Hr1).
      destruct (String.eqb b' b && String.eqb fs' fs); simpl; [|reflexivity].
      destruct (String.eqb_spec name "docker_stats_series") as [->|Hd]; simpl.
      * destruct (usable_output _ _ _ _ "docker_stats.jsonl");
          destruct (String.eqb run "run_1"); reflexivity.
      * destruct (String.eqb name "iostat_series"); simpl.
        -- destruct (usable_output _ _ _ _ "iostat.json");
             destruct (String.eqb run "run_1"); reflexivity.
        -- destruct (String.eqb run "run_1"); reflexivity.
Qed.

End CollectFacts.

Lemma flat_map_if {A B : Type} (c : bool) (f : A -> list B) (l : list A) :
  flat_map (fun x => if c then f x else []) l = if c then flat_map f l else [].
Proof. destruct c; [reflexivity | apply flat_map_nil]. Qed.

Lemma last_kept_none {A : Type} (l : list A) :
  last_kept (fun _ : A => None) l = None.
Proof. induction l as [|x l IH]; simpl; [reflexivity | now rewrite IH]. Qed.

Lemma last_kept_if {A : Type} (c : bool) (f : A -> option json) (l : list A) :
  last_kept (fun x => if c then f x else None) l = if c then last_kept f l else None.
Proof. destruct c; [reflexivity | apply last_kept_none]. Qed.

Lemma override_None_l (o : option json) : override None o = o.
Proof. destruct o; reflexivity. Qed.

Section CollectWalk.

Variable run_parser : string -> string -> option json.

Lemma collect_filesystem_Ok (b parser_script benchmark_path : string)
  (entry : string * node) (st st' : store) :
  collect_filesystem run_parser b parser_script benchmark_path entry st = Ok st' ->
  (forall b' fs' g k,
      acc_of st' b' fs' g k
      = acc_of st b' fs' g k
        ++ (if String.eqb b' b
            then fs_adds run_parser b parser_script benchmark_path fs' g k entry
            else []))
  /\
  (forall b' fs' name,
      rep_of st' b' fs' name
      = override (rep_of st b' fs' name)
          (if String.eqb b' b
           then fs_keeps run_parser benchmark_path fs' name entry else None)).
Proof.
  unfold collect_filesystem, fs_adds, fs_keeps.
  destruct entry as [fs [|runs]]; cbn [fst snd].
  - intros [= <-]. split; intros; destruct (String.eqb b' b); simpl;
      auto using app_nil_r.
  - intros H. split.
    + intros b' fs' g k.
      rewrite (for_each_appends (fun s => acc_of s b' fs' g k)
                 (fun e => if String.eqb b' b && String.eqb fs' fs
                           then run_adds run_parser b parser_script
                                  (os_path_join benchmark_path fs) g k e
                           else [])
                 _ runs
                 (fun x s s' E => proj1 (collect_run_Ok _ _ _ _ _ _ _ _ E) b' fs' g k)
                 _ _ H).
      rewrite flat_map_if.
      destruct (String.eqb b' b), (String.eqb fs' fs); reflexivity.
    + intros b' fs' name.
      rewrite (for_each_overrides (fun s => rep_of s b' fs' name)
                 (fun e => if String.eqb b' b && String.eqb fs' fs
                           then run_keeps run_parser (os_path_join benchmark_path fs)
                                  name e
                           else None)
                 _ runs
                 (fun x s s' E => proj2 (collect_run_Ok _ _ _ _ _ _ _ _ E) b' fs' name)
                 _ _ H).
      rewrite last_kept_if.
      destruct (String.eqb b' b), (String.eqb fs' fs); reflexivity.
Qed.

Lemma collect_benchmark_Ok (entry : string * node) (st st' : store) :
  collect_benchmark run_parser entry st = Ok st' ->
  (forall b' fs' g k,
      acc_of st' b' fs' g k
      = acc_of st b' fs' g k ++ benchmark_adds run_parser b' fs' g k entry)
  /\
  (forall b' fs' name,
      rep_of st' b' fs' name
      = override (rep_of st b' fs' name) (benchmark_keeps run_parser b' fs' name entry)).
Proof.
  unfold collect_benchmark, benchmark_adds, benchmark_keeps.
  destruct entry as [b [|filesystems]]; cbn [fst snd].
  - intros [= <-]. split; intros; simpl; auto using app_nil_r.
  - destruct (get_parser_for_benchmark b) as [parser_script|].
    + intros H. split.
      * intros b' fs' g k.
        rewrite (for_each_appends (fun s => acc_of s b' fs' g k)
                   (fun e => if String.eqb b' b
                             then fs_adds run_parser b parser_script
                                    (os_path_join RESULTS_DIR b) fs' g k e
                             else [])
                   _ filesystems
                   (fun x s s' E =>
                      proj1 (collect_filesystem_Ok _ _ _ _ _ _ E) b' fs' g k)
                   _ _ H).
        rewrite flat_map_if. reflexivity.
      * intros b' fs' name.
        rewrite (for_each_overrides (fun s => rep_of s b' fs' name)
                   (fun e => if String.eqb b' b
                             then fs_keeps run_parser (os_path_join RESULTS_DIR b)
                                    fs' name e
                             else None)
                   _ filesystems
                   (fun x s s' E =>
                      proj2 (collect_filesystem_Ok _ _ _ _ _ _ E) b' fs' name)
                   _ _ H).
        rewrite last_kept_if. reflexivity.
    + intros [= <-]. split; intros; destruct (String.eqb b' b); simpl;
        auto using app_nil_r.
Qed.

(** The accumulators and the cache after the walk, in terms of the tree. *)
Lemma collect_Ok (benchmarks : list (string * node)) (st : store) :
  collect run_parser benchmarks = Ok st ->
  (forall b fs g k, acc_of st b fs g k = collected run_parser b fs g k benchmarks)
  /\
  (forall b fs name, rep_of st b fs name = kept run_parser b fs name benchmarks).
Proof.
  unfold collect, collected, kept. intros H. split.
  - intros b fs g k.
    rewrite (for_each_appends (fun s => acc_of s b fs g k)
               (benchmark_adds run_parser b fs g k) _ benchmarks
               (fun x s s' E => proj1 (collect_benchmark_Ok _ _ _ E) b fs g k)
               _ _ H).
    destruct g; reflexivity.
  - intros b fs name.
    rewrite (for_each_overrides (fun s => rep_of s b fs name)
               (benchmark_keeps run_parser b fs name) _ benchmarks
               (fun x s s' E => proj2 (collect_benchmark_Ok _ _ _ E) b fs name)
               _ _ H).
    apply override_None_l.
Qed.

End CollectWalk.

(** ** Keys stay distinct *)

Lemma NoDup_keys_dupd {V : Type} (k : string) (f : option V -> V) (d : dict V) :
  NoDup (keys d) -> NoDup (keys (dupd k f d)).
Proof.
  intros Hnd. rewrite keys_dupd. unfold dmem.
  destruct (dget k d) eqn:E; [exact Hnd|].
  apply dget_None_iff in E.
  apply NoDup_app; [exact Hnd | repeat constructor; intros [] |].
  intros x Hx [<-|[]]. contradiction.
Qed.

Lemma dict_all_dget {V : Type} (P : V -> Prop) (k : string) (v : V) (d : dict V) :
  dict_all P d -> dget k d = Some v -> P v.
Proof.
  intros Hall Hk. apply dget_In in Hk.
  unfold dict_all in Hall. rewrite Forall_forall in Hall.
  apply (Hall (k, v) Hk).
Qed.

Lemma dict_all_dupd {V : Type} (P : V -> Prop) (k : string) (f : option V -> V)
  (d : dict V) :
  dict_all P d -> P (f None) -> (forall v, P v -> P (f (Some v))) ->
  dict_all P (dupd k f d).
Proof.
  intros Hall Hnone Hsome. unfold dict_all in *.
  induction d as [|[k0 v] d IH]; simpl.
  - repeat constructor. exact Hnone.
  - inversion Hall as [|? ? Hv Hd]; subst.
    destruct (String.eqb k k0); constructor; simpl; auto.
Qed.

Lemma wf_data_container : wf_container data_container.
Proof. intros g. destruct g; constructor. Qed.

Lemma wf_container_cupd (g : group) (k : string) (v : json) (c : container) :
  wf_container c -> wf_container (cupd g (dappend k v) c).
Proof.
  intros Hc g'. rewrite cget_cupd.
  destruct (group_eqb g' g); [|apply Hc].
  unfold dappend. apply NoDup_keys_dupd, Hc.
Qed.

Lemma wf_temp_append (b fs : string) (g : group) (k : string) (v : json) (st : store) :
  wf_temp (temp_data st) -> wf_temp (temp_data (temp_append b fs g k v st)).
Proof.
  intros [Hnd Hall]. unfold temp_append. cbn [temp_data]. split.
  - apply NoDup_keys_dupd, Hnd.
  - assert (Hin : forall fs_dict, wf_filesystems fs_dict ->
                   wf_filesystems
                     (dupd fs (fun c => cupd g (dappend k v) (from_option data_container c))
                        fs_dict)).
    { intros fs_dict [Hnd' Hall']. split.
      - apply NoDup_keys_dupd, Hnd'.
      - apply dict_all_dupd; [exact Hall' | |]; simpl.
        + apply wf_container_cupd, wf_data_container.
        + intros c Hc. apply wf_container_cupd, Hc. }
    apply dict_all_dupd; [exact Hall | |].
    + apply (Hin []). split; constructor.
    + intros fs_dict Hfs. apply (Hin fs_dict), Hfs.
Qed.

(** A property of the state kept by every round is kept by the loop. *)
Lemma for_each_keeps {A S : Type} (P : S -> Prop) (body : A -> S -> result S)
  (l : list A) :
  (forall x s s', body x s = Ok s' -> P s -> P s') ->
  forall s s', for_each body l s = Ok s' -> P s -> P s'.
Proof.
  intros Hbody. induction l as [|x l IH]; intros s s'; simpl.
  - intros [= <-]. auto.
  - destruct (body x s) as [s1|e] eqn:E; simpl; [|discriminate].
    intros H Hs. apply (IH _ _ H), (Hbody _ _ _ E), Hs.
Qed.

(** Induction on the appends of a pass: what holds of the empty
    [temp_data] and is kept by every [append] holds when the walk ends. *)
Section TempInvariant.

Variable run_parser : string -> string -> option json.
Variable P : dict (dict container) -> Prop.
Hypothesis P_append :
  forall b fs g k v st,
    P (temp_data st) -> P (temp_data (temp_append b fs g k v st)).

Lemma keeps_accumulate (b fs : string) (gs : list group)
  (items : list (string * json)) :
  forall st, P (temp_data st) -> P (temp_data (accumulate b fs gs items st)).
Proof.
  unfold accumulate. induction items as [|kv items IH]; intros st HP; simpl;
    [exact HP|].
  apply IH. clear IH. revert st HP.
  induction gs as [|g gs IH]; intros st HP; simpl; [exact HP|].
  apply IH, P_append, HP.
Qed.

Lemma keeps_accumulate_field (b fs : string) (gs : list group) (field : string)
  (data : json) (st st' : store) :
  accumulate_field b fs gs field data st = Ok st' ->
  P (temp_data st) -> P (temp_data st').
Proof.
  unfold accumulate_field.
  destruct (py_in field data) as [[|]|e]; simpl; try discriminate.
  - destruct (py_getitem data field) as [payload|e]; simpl; [|discriminate].
    destruct (py_items payload) as [items|e]; simpl; [|discriminate].
    intros [= <-]. apply keeps_accumulate.
  - intros [= <-]. auto.
Qed.

Lemma keeps_collect_monitoring (script file_name : string) (gs : list group)
  (field name rep_field b fs run run_path : string)
  (run_entries : list (string * node)) (st st' : store) :
  collect_monitoring run_parser script file_name gs field name rep_field b fs run
    run_path run_entries st = Ok st' ->
  P (temp_data st) -> P (temp_data st').
Proof.
  unfold collect_monitoring.
  destruct (exists_in run_entries file_name); [|intros [= <-]; auto].
  destruct (run_parser script _) as [data|]; [|intros [= <-]; auto].
  destruct (truthy data); [|intros [= <-]; auto].
  destruct (accumulate_field b fs gs field data st) as [st1|e] eqn:E1; simpl;
    [|discriminate].
  intros E2 HP.
  apply keep_representative_Ok in E2 as [-> _].
  apply (keeps_accumulate_field _ _ _ _ _ _ _ E1 HP).
Qed.

Lemma keeps_collect_run (b fs parser_script fs_path : string) (entry : string * node)
  (st st' : store) :
  collect_run run_parser b fs parser_script fs_path entry st = Ok st' ->
  P (temp_data st) -> P (temp_data st').
Proof.
  unfold collect_run. destruct entry as [run [|run_entries]]; cbn [fst snd].
  - intros [= <-]. auto.
  - destruct (collect_workload _ _ _ _ _ _ _) as [st1|e] eqn:E1; simpl; [|discriminate].
    destruct (collect_docker_stats _ _ _ _ _ _ _) as [st2|e] eqn:E2; simpl;
      [|discriminate].
    intros E3 HP.
    rewrite collect_iostat_eq in E3.
    apply (keeps_collect_monitoring _ _ _ _ _ _ _ _ _ _ _ _ _ E3).
    rewrite collect_docker_stats_eq in E2.
    apply (keeps_collect_monitoring _ _ _ _ _ _ _ _ _ _ _ _ _ E2).
    revert E1. unfold collect_workload.
    destruct (exists_in _ _); [|intros [= <-]; auto].
    destruct (run_parser parser_script _) as [data|]; [|intros [= <-]; auto].
    destruct (truthy data); [|intros [= <-]; auto].
    destruct (accumulate_field b fs [metrics_plot] "plot" data st) as [st0|e] eqn:E0;
      simpl; [|discriminate].
    intros E1.
    apply (keeps_accumulate_field _ _ _ _ _ _ _ E1).
    apply (keeps_accumulate_field _ _ _ _ _ _ _ E0 HP).
Qed.

Lemma keeps_collect (benchmarks : list (string * node)) (st : store) :
  P [] -> collect run_parser benchmarks = Ok st -> P (temp_data st).
Proof.
  unfold collect. intros Hnil H.
  refine (for_each_keeps (fun s => P (temp_data s)) _ _ _ _ _ H Hnil).
  intros [b [|filesystems]] s s'; unfold collect_benchmark; cbn [fst snd];
    [intros [= <-]; auto|].
  destruct (get_parser_for_benchmark b) as [parser_script|]; [|intros [= <-]; auto].
  apply (for_each_keeps (fun s => P (temp_data s))).
  intros [fs [|runs]] t t'; unfold collect_filesystem; cbn [fst snd];
    [intros [= <-]; auto|].
  apply (for_each_keeps (fun s => P (temp_data s))).
  intros entry u u'. apply keeps_collect_run.
Qed.

End TempInvariant.

Lemma wf_collect (run_parser : string -> string -> option json)
  (benchmarks : list (string * node)) (st : store) :
  collect run_parser benchmarks = Ok st -> wf_temp (temp_data st).
Proof.
  apply (keeps_collect run_parser wf_temp wf_temp_append).
  split; constructor.
Qed.

Lemma inhabited_append (b fs : string) (g : group) (k : string) (v : json) (st : store) :
  all_inhabited (temp_data st) ->
  all_inhabited (temp_data (temp_append b fs g k v st)).
Proof.
  intros Hall b' fs' c. unfold temp_append. cbn [temp_data]. rewrite lookup2_dupd.
  destruct (String.eqb b' b && String.eqb fs' fs); [|apply Hall].
  intros [= <-]. exists g, k.
  rewrite cget_cupd.
  destruct (group_eqb_spec g g) as [_|Hne]; [|contradiction].
  unfold dappend. rewrite dget_dupd_same. simpl.
  destruct (from_option [] _); discriminate.
Qed.

Lemma inhabited_collect (run_parser : string -> string -> option json)
  (benchmarks : list (string * node)) (st : store) :
  collect run_parser benchmarks = Ok st -> all_inhabited (temp_data st).
Proof.
  apply (keeps_collect run_parser all_inhabited inhabited_append).
  intros b fs c. unfold lookup2. simpl. discriminate.
Qed.

(** ** The report *)

Lemma final_entry_eq (rd : dict (dict (dict json))) (b fs : string) (c : container) :
  final_entry rd b fs c = Ok (entry_json rd b fs c).
Proof.
  unfold final_entry. rewrite !calculate_average_eq, !aggregate_table_data_eq.
  reflexivity.
Qed.

Lemma for_each_pure {A S : Type} (body : A -> S -> result S) (f : A -> S -> S)
  (l : list A) :
  (forall x s, body x s = Ok (f x s)) ->
  forall s, for_each body l s = Ok (fold_left (fun s x => f x s) l s).
Proof.
  intros Hbody. induction l as [|x l IH]; intros s; simpl; [reflexivity|].
  rewrite Hbody. simpl. apply IH.
Qed.

Lemma aggregate_eq (st : store) : aggregate st = Ok (report_of st).
Proof.
  unfold aggregate, report_of.
  apply (for_each_pure _
           (fun b_entry report =>
              fold_left
                (fun report f_entry =>
                   report_assign (fst b_entry) (fst f_entry)
                     (entry_json (rep_data st) (fst b_entry) (fst f_entry) (snd f_entry))
                     report)
                (snd b_entry) report)).
  intros b_entry report.
  apply (for_each_pure _
           (fun f_entry report =>
              report_assign (fst b_entry) (fst f_entry)
                (entry_json (rep_data st) (fst b_entry) (fst f_entry) (snd f_entry))
                report)).
  intros f_entry r. rewrite final_entry_eq. reflexivity.
Qed.

Lemma lookup2_report_assign (b fs b' fs' : string) (e : json) (report : dict (dict json)) :
  lookup2 b' fs' (report_assign b fs e report)
  = if String.eqb b' b && String.eqb fs' fs then Some e else lookup2 b' fs' report.
Proof.
  unfold report_assign, dset.
  apply (lookup2_dupd b fs b' fs' (fun _ => e) report).
Qed.

Lemma lookup2_inner (mk : string -> container -> json) (b0 b fs : string)
  (fs_dict : dict container) :
  NoDup (keys fs_dict) ->
  forall report,
    lookup2 b fs
      (fold_left (fun report f_entry =>
                    report_assign b0 (fst f_entry) (mk (fst f_entry) (snd f_entry)) report)
         fs_dict report)
    = if String.eqb b b0
      then match dget fs fs_dict with
           | Some c => Some (mk fs c)
           | None => lookup2 b fs report
           end
      else lookup2 b fs report.
Proof.
  induction fs_dict as [|[fs0 c0] fs_dict IH]; intros Hnd report; simpl.
  - destruct (String.eqb b b0); reflexivity.
  - inversion Hnd as [|? ? Hnotin Hnd']; subst.
    rewrite (IH Hnd'), lookup2_report_assign.
    destruct (String.eqb b b0); simpl; [|reflexivity].
    destruct (String.eqb_spec fs fs0) as [->|Hne].
    + assert (Hk : dget fs0 fs_dict = None) by (apply dget_None_iff; exact Hnotin).
      now rewrite Hk.
    + reflexivity.
Qed.

Lemma lookup2_outer (mk : string -> string -> container -> json) (b fs : string)
  (td : dict (dict container)) :
  wf_temp td ->
  forall report,
    lookup2 b fs
      (fold_left
         (fun report b_entry =>
            fold_left
              (fun report f_entry =>
                 report_assign (fst b_entry) (fst f_entry)
                   (mk (fst b_entry) (fst f_entry) (snd f_entry)) report)
              (snd b_entry) report)
         td report)
    = match lookup2 b fs td with
      | Some c => Some (mk b fs c)
      | None => lookup2 b fs report
      end.
Proof.
  intros [Hnd Hall]. unfold dict_all in Hall.
  induction td as [|[b0 fs_dict] td IH]; intros report; simpl; [reflexivity|].
  inversion Hnd as [|? ? Hnotin Hnd']; subst.
  inversion Hall as [|? ? [Hfs _] Hall']; subst.
  rewrite (IH Hnd' Hall'). cbn [fst snd].
  rewrite (lookup2_inner (mk b0) b0 b fs fs_dict Hfs).
  unfold lookup2 at 1 4. cbn [dget].
  destruct (String.eqb_spec b b0) as [->|Hne].
  - assert (Hk : dget b0 td = None) by (apply dget_None_iff; exact Hnotin).
    rewrite Hk. destruct (dget fs fs_dict); reflexivity.
  - destruct (dget b td) as [fsd|]; [destruct (dget fs fsd)|]; reflexivity.
Qed.

Lemma lookup2_report_of (st : store) (b fs : string) :
  wf_temp (temp_data st) ->
  lookup2 b fs (report_of st)
  = match lookup2 b fs (temp_data st) with
    | Some c => Some (entry_json (rep_data st) b fs c)
    | None => None
    end.
Proof.
  intros Hwf. unfold report_of.
  rewrite (lookup2_outer (entry_json (rep_data st)) b fs _ Hwf). reflexivity.
Qed.

Lemma dget_map_values {V W : Type} (f : V -> W) (k : string) (d : dict V) :
  dget k (map (fun kv => (fst kv, f (snd kv))) d)
  = match dget k d with Some v => Some (f v) | None => None end.
Proof.
  induction d as [|[k0 v] d IH]; simpl; [reflexivity|].
  destruct (String.eqb k k0); [reflexivity | exact IH].
Qed.

Lemma jpath_output (system_info : json) (report : dict (dict json)) (b fs : string)
  (rest : list string) :
  jpath ("data" :: b :: fs :: rest) (make_output system_info report)
  = match lookup2 b fs report with
    | Some e => jpath rest e
    | None => None
    end.
Proof.
  unfold make_output, lookup2. cbn [jpath dget String.eqb Ascii.eqb Bool.eqb].
  simpl. rewrite (dget_map_values JObj). unfold dict in *.
  destruct (dget b report) as [fs_dict|]; [|reflexivity].
  destruct (dget fs fs_dict); reflexivity.
Qed.

(** ** A whole pass *)

Lemma entry_value (rd : dict (dict (dict json))) (b fs : string) (c : container)
  (g : group) (k : string) :
  jpath (group_path g ++ [k]) (entry_json rd b fs c)
  = dget k (merged (group_entry g) (cget g c) []).
Proof. destruct g; simpl; destruct (dget k _); reflexivity. Qed.

Lemma group_entry_nil (g : group) : group_entry g [] = None.
Proof. destruct g; reflexivity. Qed.

Lemma rep_get_rep_of (st : store) (b fs name : string) :
  rep_get (rep_data st) b fs name = from_option (JObj []) (rep_of st b fs name).
Proof.
  unfold rep_get, rep_of, lookup2.
  destruct (dget b (rep_data st)); reflexivity.
Qed.

Lemma wf_temp_lookup2 (td : dict (dict container)) (b fs : string) (c : container) :
  wf_temp td -> lookup2 b fs td = Some c -> wf_container c.
Proof.
  intros [_ Hall]. unfold lookup2.
  destruct (dget b td) as [fs_dict|] eqn:Eb; [|discriminate].
  intros Hfs. destruct (dict_all_dget _ _ _ _ Hall Eb) as [_ Hall'].
  apply (dict_all_dget _ _ _ _ Hall' Hfs).
Qed.

Section Pass.

Variable run_parser : string -> string -> option json.
Variable system_info : json.


Lemma main_completed (benchmarks : list (string * node)) (path : string) (out : json) :
  main run_parser system_info (Some (Dir benchmarks)) = Completed path out ->
  exists st,
    collect run_parser benchmarks = Ok st /\
    path = OUTPUT_FILE /\ out = make_output system_info (report_of st).
Proof.
  unfold main. cbn [os_listdir bind].
  destruct (collect run_parser benchmarks) as [st|e]; cbn [bind]; [|discriminate].
  rewrite aggregate_eq. intros [= <- <-]. now exists st.
Qed.

(** The entry of a (benchmark, configuration) pair in the written report. *)
Lemma report_entry (benchmarks : list (string * node)) (st : store) (b fs : string)
  (rest : list string) :
  collect run_parser benchmarks = Ok st ->
  jpath ("data" :: b :: fs :: rest) (make_output system_info (report_of st))
  = match lookup2 b fs (temp_data st) with
    | Some c => jpath rest (entry_json (rep_data st) b fs c)
    | None => None
    end.
Proof.
  intros H. rewrite jpath_output, lookup2_report_of by apply (wf_collect _ _ _ H).
  destruct (lookup2 b fs (temp_data st)); reflexivity.
Qed.

(** Every merged value of the report is the merge of exactly the values
    the walk collected for its key. *)
Lemma report_value (benchmarks : list (string * node)) (path : string) (out : json)
  (b fs : string) (g : group) (k : string) :
  main run_parser system_info (Some (Dir benchmarks)) = Completed path out ->
  jpath ("data" :: b :: fs :: group_path g ++ [k]) out
  = group_entry g (collected run_parser b fs g k benchmarks).
Proof.
  intros Hmain. destruct (main_completed _ _ _ Hmain) as (st & Hst & _ & ->).
  rewrite (report_entry _ _ _ _ _ Hst).
  rewrite <- (proj1 (collect_Ok _ _ _ Hst) b fs g k). unfold acc_of.
  destruct (lookup2 b fs (temp_data st)) as [c|] eqn:E; cbn [from_option].
  - rewrite entry_value, dget_merged
      by apply (wf_temp_lookup2 _ _ _ _ (wf_collect _ _ _ Hst) E).
    destruct (dget k (cget g c)) as [values|]; cbn [from_option dget].
    + destruct (group_entry g values); reflexivity.
    + now rewrite group_entry_nil.
  - destruct g; reflexivity.
Qed.

(** The series of an entry is what the walk kept, or the empty mapping. *)
Lemma report_series (benchmarks : list (string * node)) (path : string) (out : json)
  (b fs name : string) (e : json) :
  main run_parser system_info (Some (Dir benchmarks)) = Completed path out ->
  name = "docker_stats_series" \/ name = "iostat_series" ->
  jpath ["data"; b; fs] out = Some e ->
  jpath ("data" :: b :: fs :: series_path name) out
  = Some (from_option (JObj []) (kept run_parser b fs name benchmarks)).
Proof.
  intros Hmain Hname. destruct (main_completed _ _ _ Hmain) as (st & Hst & _ & ->).
  rewrite !(report_entry _ _ _ _ _ Hst).
  rewrite <- (proj2 (collect_Ok _ _ _ Hst) b fs name).
  destruct (lookup2 b fs (temp_data st)) as [c|]; [|discriminate].
  intros _. destruct Hname as [-> | ->]; simpl; now rewrite rep_get_rep_of.
Qed.

(** A pair has an entry exactly when the walk collected a value for it. *)
Lemma report_entry_iff (benchmarks : list (string * node)) (path : string) (out : json)
  (b fs : string) :
  main run_parser system_info (Some (Dir benchmarks)) = Completed path out ->
  (jpath ["data"; b; fs] out <> None
   <-> exists g k, collected run_parser b fs g k benchmarks <> []).
Proof.
  intros Hmain. destruct (main_completed _ _ _ Hmain) as (st & Hst & _ & ->).
  rewrite (report_entry _ _ _ _ _ Hst).
  split.
  - destruct (lookup2 b fs (temp_data st)) as [c|] eqn:E; [|congruence].
    intros _. destruct (inhabited_collect _ _ _ Hst b fs c E) as (g & k & Hne).
    exists g, k. rewrite <- (proj1 (collect_Ok _ _ _ Hst) b fs g k).
    unfold acc_of. now rewrite E.
  - intros (g & k & Hne).
    rewrite <- (proj1 (collect_Ok _ _ _ Hst) b fs g k) in Hne. unfold acc_of in Hne.
    destruct (lookup2 b fs (temp_data st)) as [c|]; [discriminate|].
    exfalso. apply Hne. destruct g; reflexivity.
Qed.

End Pass.

(** ** When the walk cannot raise *)




Section Totality.

Variable run_parser : string -> string -> option json.
Hypothesis outputs_well_shaped :
  forall script path data, run_parser script path = Some data -> well_shaped data = true.





End Totality.

(** ** Unique names *)

Lemma last_kept_unique {A : Type} (contrib : string * A -> option json) (key : string)
  (l : list (string * A)) :
  NoDup (keys l) ->
  (forall x, fst x <> key -> contrib x = None) ->
  last_kept contrib l
  = match dget key l with
    | Some v => contrib (key, v)
    | None => None
    end.
Proof.
  intros Hnd Hother. induction l as [|[k0 v] l IH]; simpl; [reflexivity|].
  inversion Hnd as [|? ? Hnotin Hnd']; subst.
  destruct (String.eqb_spec key k0) as [->|Hne].
  - assert (Hl : last_kept contrib l = None).
    { rewrite (IH Hnd').
      assert (Hk : dget k0 l = None) by (apply dget_None_iff; exact Hnotin).
      now rewrite Hk. }
    rewrite Hl. reflexivity.
  - rewrite (IH Hnd'), (Hother (k0, v)) by (simpl; congruence).
    apply override_None_l.
Qed.

(** * The properties of the specification *)

(** ** Groups *)


Lemma group_entry_table (g : group) : is_plot g = false -> group_entry g = table_entry.
Proof. destruct g; simpl; congruence. Qed.



(** ** C1 *)




(** ** C3 *)




(** ** C4 *)






(** ** C6 *)

(** C6: in a table group, when the first value collected for a key is not
    a number, the merged value is that first value unchanged, whatever was
    collected after it. *)
Theorem non_numeric_table_field_takes_first
  (run_parser : string -> string -> option json) (system_info : json)
  (benchmarks : list (string * node)) (path : string) (out : json)
  (b fs : string) (g : group) (k : string) (v0 : json) (rest : list json) :
  main run_parser system_info (Some (Dir benchmarks)) = Completed path out ->
  is_plot g = false ->
  collected run_parser b fs g k benchmarks = v0 :: rest ->
  is_number v0 = false ->
  jpath ("data" :: b :: fs :: group_path g ++ [k]) out = Some v0.
Proof.
  intros Hmain Hg Hvalues Hv0.
  rewrite (report_value _ _ _ _ _ b fs g k Hmain), Hvalues, (group_entry_table g Hg).
  unfold table_entry. now rewrite Hv0.
Qed.

Lemma non_numeric_table_field_takes_first_witness :
  exists out,
    main fio_parser (JObj []) (Some (Dir fio_results)) = Completed OUTPUT_FILE out /\
    jpath ["data"; "fio-randread"; "fsA"; "metrics"; "table"; "rw_mode"] out
    = Some (JStr "randread") /\
    jpath ["data"; "fio-randread"; "fsA"; "metrics"; "table"; "bs"] out
    = Some (JStr "4k").
Proof.
  eexists.
  assert (Hmain : main fio_parser (JObj []) (Some (Dir fio_results))
                  = Completed OUTPUT_FILE _) by (vm_compute; reflexivity).
  split; [exact Hmain|]. split.
  - apply (non_numeric_table_field_takes_first _ _ _ _ _ "fio-randread" "fsA"
             metrics_table "rw_mode" (JStr "randread") [JStr "randread"] Hmain eq_refl);
      vm_compute; reflexivity.
  - apply (non_numeric_table_field_takes_first _ _ _ _ _ "fio-randread" "fsA"
             metrics_table "bs" (JStr "4k") [JStr "8k"] Hmain eq_refl);
      vm_compute; reflexivity.
Defined.

(** ** C8 *)

(** C8: when the result root does not exist the pass exits with status 1
    and writes nothing. *)
Theorem missing_result_root_is_fatal
  (run_parser : string -> string -> option json) (system_info : json) :
  main run_parser system_info None = Exited 1 /\
  exit_status (main run_parser system_info None) <> 0%Z /\
  artifact (main run_parser system_info None) = None.
Proof. repeat split. discriminate. Qed.

(** ** C10 *)



(** ** C2 *)

(** C2, as stated, fails.  When [run_1] produced no series and [run_2]
    did, the lowest-ordered run that produced one is [run_2], yet the
    report carries the empty mapping; and when the run directories are
    named [1] and [2] the series of the lowest one is not kept either. *)
Lemma lowest_run_series_counterexample :
  (exists out data series,
      main late_monitoring_parser (JObj []) (Some (Dir late_monitoring_results))
      = Completed OUTPUT_FILE out /\
      docker_output late_monitoring_parser "results/postgres-pgbench/fsA/run_1"
        [("results.txt", File)] = None /\
      docker_output late_monitoring_parser "results/postgres-pgbench/fsA/run_2"
        [("results.txt", File); ("docker_stats.jsonl", File)] = Some data /\
      field_payload "series" data = Some series /\
      jpath ["data"; "postgres-pgbench"; "fsA"; "monitoring"; "docker_stats"; "series"] out
      = Some (JObj []) /\
      series <> JObj [])
  /\
  (exists out data series,
      main numbered_parser (JObj []) (Some (Dir numbered_results))
      = Completed OUTPUT_FILE out /\
      docker_output numbered_parser "results/postgres-pgbench/fsA/1"
        [("docker_stats.jsonl", File)] = Some data /\
      field_payload "series" data = Some series /\
      jpath ["data"; "postgres-pgbench"; "fsA"; "monitoring"; "docker_stats"; "series"] out
      = Some (JObj []) /\
      series <> JObj []).
Proof.
  split.
  - eexists. eexists. eexists.
    split; [vm_compute; reflexivity|].
    split; [vm_compute; reflexivity|].
    split; [vm_compute; reflexivity|].
    split; [vm_compute; reflexivity|].
    split; [vm_compute; reflexivity | discriminate].
  - eexists. eexists. eexists.
    split; [vm_compute; reflexivity|].
    split; [vm_compute; reflexivity|].
    split; [vm_compute; reflexivity|].
    split; [vm_compute; reflexivity | discriminate].
Qed.

Lemma kept_run_1 (run_parser : string -> string -> option json)
  (benchmarks filesystems runs : list (string * node)) (b fs name : string) :
  NoDup (keys benchmarks) -> dget b benchmarks = Some (Dir filesystems) ->
  get_parser_for_benchmark b <> None ->
  NoDup (keys filesystems) -> dget fs filesystems = Some (Dir runs) ->
  NoDup (keys runs) ->
  kept run_parser b fs name benchmarks
  = run_keeps run_parser (os_path_join (os_path_join RESULTS_DIR b) fs) name
      ("run_1", from_option File (dget "run_1" runs)).
Proof.
  intros Hnb Hb Hparser Hnf Hfs Hnr. unfold kept.
  rewrite (last_kept_unique _ b benchmarks Hnb), Hb.
  2:{ intros [b0 n] Hne. unfold benchmark_keeps. cbn [fst snd] in *.
      destruct n; [reflexivity|].
      destruct (String.eqb_spec b b0); [congruence | reflexivity]. }
  unfold benchmark_keeps. cbn [fst snd]. rewrite String.eqb_refl.
  destruct (get_parser_for_benchmark b); [|congruence].
  rewrite (last_kept_unique _ fs filesystems Hnf), Hfs.
  2:{ intros [fs0 n] Hne. unfold fs_keeps. cbn [fst snd] in *.
      destruct n; [reflexivity|].
      destruct (String.eqb_spec fs fs0); [congruence | reflexivity]. }
  unfold fs_keeps. cbn [fst snd]. rewrite String.eqb_refl.
  rewrite (last_kept_unique _ "run_1" runs Hnr).
  2:{ intros [run n] Hne. unfold run_keeps. cbn [fst snd] in *.
      destruct n; [reflexivity|].
      destruct (String.eqb_spec run "run_1"); [congruence | reflexivity]. }
  destruct (dget "run_1" runs); reflexivity.
Qed.

(** C2, amended: for every (benchmark, configuration, monitoring source)
    triple, the series kept in the cache is exactly the payload of the run
    whose directory is named [run_1], verbatim, when the adapter output of
    that run has one ([series] for the container statistics, [plot] for
    the storage-IO statistics); nothing is kept when there is no such run
    or it has no payload, and the report then carries the empty mapping.
    A run of any other name never assigns the cache, so nothing overwrites
    what [run_1] stored. *)
Theorem representative_series_is_run_1
  (run_parser : string -> string -> option json) (system_info : json)
  (benchmarks filesystems runs : list (string * node)) (st : store) (b fs : string) :
  collect run_parser benchmarks = Ok st ->
  NoDup (keys benchmarks) -> dget b benchmarks = Some (Dir filesystems) ->
  get_parser_for_benchmark b <> None ->
  NoDup (keys filesystems) -> dget fs filesystems = Some (Dir runs) ->
  NoDup (keys runs) ->
  let docker_series :=
    run_1_payload run_parser b fs runs
      (os_path_join SCRIPTS_DIR "parse_docker_stats.py") "docker_stats.jsonl" "series" in
  let iostat_series :=
    run_1_payload run_parser b fs runs
      (os_path_join SCRIPTS_DIR "parse_iostat.py") "iostat.json" "plot" in
  rep_of st b fs "docker_stats_series" = docker_series /\
  rep_of st b fs "iostat_series" = iostat_series /\
  (forall path out e,
      main run_parser system_info (Some (Dir benchmarks)) = Completed path out ->
      jpath ["data"; b; fs] out = Some e ->
      jpath ["data"; b; fs; "monitoring"; "docker_stats"; "series"] out
      = Some (from_option (JObj []) docker_series) /\
      jpath ["data"; b; fs; "monitoring"; "iostat"; "series"] out
      = Some (from_option (JObj []) iostat_series))
  /\
  (forall run name field data st0,
      run <> "run_1" -> keep_representative b fs run name field data st0 = Ok st0).
Proof.
  intros Hst Hnb Hb Hparser Hnf Hfs Hnr docker_series iostat_series.
  assert (Hd : kept run_parser b fs "docker_stats_series" benchmarks = docker_series).
  { rewrite (kept_run_1 _ _ _ _ _ _ _ Hnb Hb Hparser Hnf Hfs Hnr).
    unfold docker_series, run_1_payload, run_keeps, docker_output. cbn [fst snd].
    destruct (dget "run_1" runs) as [[|run_entries]|]; reflexivity. }
  assert (Hi : kept run_parser b fs "iostat_series" benchmarks = iostat_series).
  { rewrite (kept_run_1 _ _ _ _ _ _ _ Hnb Hb Hparser Hnf Hfs Hnr).
    unfold iostat_series, run_1_payload, run_keeps, iostat_output. cbn [fst snd].
    destruct (dget "run_1" runs) as [[|run_entries]|]; reflexivity. }
  split; [|split; [|split]].
  - rewrite (proj2 (collect_Ok _ _ _ Hst)). exact Hd.
  - rewrite (proj2 (collect_Ok _ _ _ Hst)). exact Hi.
  - intros path out e Hmain He. split.
    + rewrite <- Hd.
      apply (report_series _ _ _ _ _ b fs "docker_stats_series" e Hmain
               (or_introl eq_refl) He).
    + rewrite <- Hi.
      apply (report_series _ _ _ _ _ b fs "iostat_series" e Hmain
               (or_intror eq_refl) He).
  - intros run name field data st0 Hne. unfold keep_representative.
    destruct (String.eqb_spec run "run_1"); [contradiction | reflexivity].
Qed.

Lemma representative_series_is_run_1_witness :
  exists st,
    collect docker_parser (three_runs "docker_stats.jsonl") = Ok st /\
    rep_of st "postgres-pgbench" "fsA" "docker_stats_series"
    = Some (JObj [("cpu_perc", JList [JFloat (12 # 1); JFloat (1262 # 100)])]).
Proof.
  eexists.
  assert (Hst : collect docker_parser (three_runs "docker_stats.jsonl") = Ok _)
    by (vm_compute; reflexivity).
  split; [exact Hst|].
  rewrite (proj1 (representative_series_is_run_1 docker_parser (JObj [])
                    (three_runs "docker_stats.jsonl")
                    [("fsA",
                      Dir [("run_1", run_with ["docker_stats.jsonl"]);
                           ("run_2", run_with ["docker_stats.jsonl"]);
                           ("run_3", run_with ["docker_stats.jsonl"])])]
                    [("run_1", run_with ["docker_stats.jsonl"]);
                     ("run_2", run_with ["docker_stats.jsonl"]);
                     ("run_3", run_with ["docker_stats.jsonl"])]
                    _ "postgres-pgbench" "fsA" Hst
                    ltac:(distinct_names) eq_refl ltac:(discriminate)
                    ltac:(distinct_names) eq_refl ltac:(distinct_names))).
  vm_compute. reflexivity.
Defined.

(** ** C7 *)

(** C7: for both monitoring sources, every scalar of the adapter output of
    a run (the [plot] mapping of the container statistics, the [table]
    mapping of the storage-IO statistics) is appended to the plot
    accumulator and to the table accumulator of the source, so that the
    two accumulators hold the same sequence for every key and the merged
    plot and table mappings of the report are both computed from it. *)
Theorem monitoring_scalars_feed_both_groups
  (run_parser : string -> string -> option json) (system_info : json)
  (benchmarks : list (string * node)) (path : string) (out : json)
  (b fs k : string) :
  main run_parser system_info (Some (Dir benchmarks)) = Completed path out ->
  (forall run run_path run_entries st st' o items v,
      collect_docker_stats run_parser b fs run run_path run_entries st = Ok st' ->
      docker_output run_parser run_path run_entries = Some (JObj o) ->
      dget "plot" o = Some (JObj items) -> NoDup (keys items) ->
      dget k items = Some v ->
      acc_of st' b fs docker_plot k = acc_of st b fs docker_plot k ++ [v] /\
      acc_of st' b fs docker_table k = acc_of st b fs docker_table k ++ [v])
  /\
  (forall run run_path run_entries st st' o items v,
      collect_iostat run_parser b fs run run_path run_entries st = Ok st' ->
      iostat_output run_parser run_path run_entries = Some (JObj o) ->
      dget "table" o = Some (JObj items) -> NoDup (keys items) ->
      dget k items = Some v ->
      acc_of st' b fs monitoring_plot k = acc_of st b fs monitoring_plot k ++ [v] /\
      acc_of st' b fs monitoring_table k = acc_of st b fs monitoring_table k ++ [v])
  /\
  (exists values p t,
      collected run_parser b fs docker_plot k benchmarks = values /\
      collected run_parser b fs docker_table k benchmarks = values /\
      calculate_average [(k, values)] = Ok p /\
      aggregate_table_data [(k, values)] = Ok t /\
      jpath ["data"; b; fs; "monitoring"; "docker_stats"; "plot"; k] out = dget k p /\
      jpath ["data"; b; fs; "monitoring"; "docker_stats"; "table"; k] out = dget k t)
  /\
  (exists values p t,
      collected run_parser b fs monitoring_plot k benchmarks = values /\
      collected run_parser b fs monitoring_table k benchmarks = values /\
      calculate_average [(k, values)] = Ok p /\
      aggregate_table_data [(k, values)] = Ok t /\
      jpath ["data"; b; fs; "monitoring"; "iostat"; "plot"; k] out = dget k p /\
      jpath ["data"; b; fs; "monitoring"; "iostat"; "table"; k] out = dget k t).
Proof.
  intros Hmain.
  assert (Hone : forall (entry : list json -> option json) values,
             dget k (merged entry [(k, values)] []) = entry values).
  { intros entry values. unfold merged. simpl. rewrite dget_put_entry, String.eqb_refl.
    destruct (entry values); reflexivity. }
  split; [|split; [|split]].
  - intros run run_path run_entries st st' o items v Hrun Hout Hplot Hnd Hk.
    rewrite collect_docker_stats_eq in Hrun.
    apply collect_monitoring_Ok in Hrun as [Hacc _].
    unfold docker_output in Hout.
    rewrite !Hacc, Hout, !String.eqb_refl. cbn [andb from_output field_picked].
    rewrite Hplot.
    change (hits docker_plot [docker_plot; docker_table]) with 1%nat.
    change (hits docker_table [docker_plot; docker_table]) with 1%nat.
    rewrite (picked_once k items Hnd), Hk. split; reflexivity.
  - intros run run_path run_entries st st' o items v Hrun Hout Htable Hnd Hk.
    rewrite collect_iostat_eq in Hrun.
    apply collect_monitoring_Ok in Hrun as [Hacc _].
    unfold iostat_output in Hout.
    rewrite !Hacc, Hout, !String.eqb_refl. cbn [andb from_output field_picked].
    rewrite Htable.
    change (hits monitoring_plot [monitoring_plot; monitoring_table]) with 1%nat.
    change (hits monitoring_table [monitoring_plot; monitoring_table]) with 1%nat.
    rewrite (picked_once k items Hnd), Hk. split; reflexivity.
  - exists (collected run_parser b fs docker_plot k benchmarks).
    eexists. eexists.
    split; [reflexivity|]. split; [reflexivity|].
    split; [apply calculate_average_eq|]. split; [apply aggregate_table_data_eq|].
    rewrite !Hone. split.
    + apply (report_value _ _ _ _ _ b fs docker_plot k Hmain).
    + apply (report_value _ _ _ _ _ b fs docker_table k Hmain).
  - exists (collected run_parser b fs monitoring_plot k benchmarks).
    eexists. eexists.
    split; [reflexivity|]. split; [reflexivity|].
    split; [apply calculate_average_eq|]. split; [apply aggregate_table_data_eq|].
    rewrite !Hone. split.
    + apply (report_value _ _ _ _ _ b fs monitoring_plot k Hmain).
    + apply (report_value _ _ _ _ _ b fs monitoring_table k Hmain).
Qed.

Lemma monitoring_scalars_feed_both_groups_witness :
  exists out v,
    main docker_parser (JObj []) (Some (Dir (three_runs "docker_stats.jsonl")))
    = Completed OUTPUT_FILE out /\
    jpath ["data"; "postgres-pgbench"; "fsA"; "monitoring"; "docker_stats"; "plot";
           "cpu_perc"] out = Some v /\
    jpath ["data"; "postgres-pgbench"; "fsA"; "monitoring"; "docker_stats"; "table";
           "cpu_perc"] out = Some v.
Proof.
  eexists. exists (JFloat (123167 # 10000)).
  assert (Hmain : main docker_parser (JObj []) (Some (Dir (three_runs "docker_stats.jsonl")))
                  = Completed OUTPUT_FILE _) by (vm_compute; reflexivity).
  split; [exact Hmain|].
  destruct (monitoring_scalars_feed_both_groups _ _ _ _ _ "postgres-pgbench" "fsA"
              "cpu_perc" Hmain) as (_ & _ & (values & p & t & Hv & _ & Hp & Ht & Hjp & Hjt) & _).
  rewrite Hjp, Hjt. subst values.
  vm_compute in Hp. vm_compute in Ht.
  injection Hp as <-. injection Ht as <-.
  split; vm_compute; reflexivity.
Defined.

(** ** C9 *)

Lemma bind_Ok {A B : Type} (c : result A) (k : A -> result B) (b : B) :
  bind c k = Ok b -> exists a, c = Ok a /\ k a = Ok b.
Proof. destruct c as [a|e]; simpl; [|discriminate]. intros H. now exists a. Qed.

Lemma picked_zero (k : string) (items : list (string * json)) : picked k 0 items = [].
Proof.
  induction items as [|[k0 v] items IH]; [reflexivity|].
  rewrite picked_cons, IH. destruct (String.eqb k k0); reflexivity.
Qed.

(** Every return of the adapter builds the same three keys. *)
Lemma parse_iostat_shape (json_loads : string -> option json) (py_str : json -> string)
  (ends_with_digits is_blank : string -> bool) (content : string) (out : json) :
  parse_iostat json_loads py_str ends_with_digits is_blank content = Ok out ->
  exists version plot table, out = skeleton version plot table.
Proof.
  unfold parse_iostat, parse_single_json_object.
  destruct (is_blank content); [intros [= <-]; eauto|].
  destruct (json_loads content) as [data|]; [|intros [= <-]; eauto].
  intros H.
  apply bind_Ok in H as (has_sysstat & _ & H).
  destruct (negb has_sysstat); [injection H as <-; eauto|].
  apply bind_Ok in H as (sysstat & _ & H).
  apply bind_Ok in H as (hosts & _ & H).
  destruct (negb (truthy hosts)); [injection H as <-; eauto|].
  apply bind_Ok in H as (host & _ & H).
  apply bind_Ok in H as (sysname & _ & H).
  apply bind_Ok in H as (release & _ & H).
  apply bind_Ok in H as (nodename & _ & H).
  apply bind_Ok in H as (machine & _ & H).
  apply bind_Ok in H as (statistics_list & _ & H).
  destruct (negb (truthy statistics_list)); [injection H as <-; eauto|].
  apply bind_Ok in H as (entries & _ & H).
  apply bind_Ok in H as (acc & _ & H).
  apply bind_Ok in H as (table_data & _ & H).
  injection H as <-. eauto.
Qed.

(** C9: for the storage-IO source the engine accumulates the scalars of the
    adapter's [table] mapping (into both monitoring groups, and into no
    other group) and keeps the adapter's [plot] mapping as the
    representative series; for the container source it accumulates the
    scalars of [plot] and keeps [series].  The storage-IO adapter returns
    the keys [version], [plot] and [table] and never a [series] key. *)
Theorem monitoring_sources_swap_key_roles :
  (forall run_parser b fs run run_path run_entries st st' o,
      collect_iostat run_parser b fs run run_path run_entries st = Ok st' ->
      iostat_output run_parser run_path run_entries = Some (JObj o) ->
      (forall g k,
          acc_of st' b fs g k
          = acc_of st b fs g k
            ++ match g, dget "table" o with
               | (monitoring_plot | monitoring_table), Some (JObj items) => picked k 1 items
               | _, _ => []
               end) /\
      rep_of st' b fs "iostat_series"
      = (if String.eqb run "run_1"
         then override (rep_of st b fs "iostat_series") (dget "plot" o)
         else rep_of st b fs "iostat_series") /\
      rep_of st' b fs "docker_stats_series" = rep_of st b fs "docker_stats_series")
  /\
  (forall run_parser b fs run run_path run_entries st st' o,
      collect_docker_stats run_parser b fs run run_path run_entries st = Ok st' ->
      docker_output run_parser run_path run_entries = Some (JObj o) ->
      (forall g k,
          acc_of st' b fs g k
          = acc_of st b fs g k
            ++ match g, dget "plot" o with
               | (docker_plot | docker_table), Some (JObj items) => picked k 1 items
               | _, _ => []
               end) /\
      rep_of st' b fs "docker_stats_series"
      = (if String.eqb run "run_1"
         then override (rep_of st b fs "docker_stats_series") (dget "series" o)
         else rep_of st b fs "docker_stats_series") /\
      rep_of st' b fs "iostat_series" = rep_of st b fs "iostat_series")
  /\
  (forall json_loads py_str ends_with_digits is_blank content out,
      parse_iostat json_loads py_str ends_with_digits is_blank content = Ok out ->
      (exists version plot table,
          out = JObj [("version", version); ("plot", plot); ("table", table)]) /\
      py_in "series" out = Ok false).
Proof.
  split; [|split].
  - intros run_parser b fs run run_path run_entries st st' o Hrun Hout.
    rewrite collect_iostat_eq in Hrun.
    apply collect_monitoring_Ok in Hrun as [Hacc Hrep].
    unfold iostat_output in Hout. rewrite Hout in Hacc, Hrep.
    split; [|split].
    + intros g k. rewrite Hacc, !String.eqb_refl. cbn [andb from_output field_picked].
      f_equal.
      destruct (dget "table" o) as [[| | | | | |items]|]; destruct g;
        try reflexivity; apply picked_zero.
    + rewrite Hrep, !String.eqb_refl. cbn [andb field_payload].
      destruct (String.eqb run "run_1"); reflexivity.
    + rewrite Hrep, !String.eqb_refl. reflexivity.
  - intros run_parser b fs run run_path run_entries st st' o Hrun Hout.
    rewrite collect_docker_stats_eq in Hrun.
    apply collect_monitoring_Ok in Hrun as [Hacc Hrep].
    unfold docker_output in Hout. rewrite Hout in Hacc, Hrep.
    split; [|split].
    + intros g k. rewrite Hacc, !String.eqb_refl. cbn [andb from_output field_picked].
      f_equal.
      destruct (dget "plot" o) as [[| | | | | |items]|]; destruct g;
        try reflexivity; apply picked_zero.
    + rewrite Hrep, !String.eqb_refl. cbn [andb field_payload].
      destruct (String.eqb run "run_1"); reflexivity.
    + rewrite Hrep, !String.eqb_refl. reflexivity.
  - intros json_loads py_str ends_with_digits is_blank content out H.
    apply parse_iostat_shape in H as (version & plot & table & ->).
    split; [|reflexivity].
    unfold skeleton. eauto.
Qed.

Lemma monitoring_sources_swap_key_roles_witness :
  exists st',
    collect_iostat (parser_table [("scripts/parse_iostat.py results/fio-rw/fsA/run_1/iostat.json",
                                    iostat_sample)])
      "fio-rw" "fsA" "run_1" "results/fio-rw/fsA/run_1" [("iostat.json", File)]
      empty_store = Ok st' /\
    acc_of st' "fio-rw" "fsA" monitoring_table "cpu_user_avg" = [JFloat (2 # 1)] /\
    acc_of st' "fio-rw" "fsA" monitoring_plot "cpu_user" = [] /\
    rep_of st' "fio-rw" "fsA" "iostat_series"
    = Some (JObj [("timestamp", JList [JInt 0; JInt 1]);
                  ("cpu_user", JList [JFloat (15 # 10); JFloat (25 # 10)])]).
Proof.
  eexists.
  assert (Hrun : collect_iostat
                   (parser_table
                      [("scripts/parse_iostat.py results/fio-rw/fsA/run_1/iostat.json",
                        iostat_sample)])
                   "fio-rw" "fsA" "run_1" "results/fio-rw/fsA/run_1"
                   [("iostat.json", File)] empty_store = Ok _)
    by (vm_compute; reflexivity).
  split; [exact Hrun|].
  destruct (proj1 monitoring_sources_swap_key_roles _ _ _ _ _ _ _ _ _ Hrun eq_refl)
    as (Hacc & Hrep & _).
  rewrite !Hacc, Hrep. repeat split.
Defined.

(** ** C5 *)





(** * Further properties *)

(** ** The registry *)

Lemma prefix_first (a b : ascii) (s t : string) :
  String.prefix (String a s) (String b t) = true -> a = b.
Proof. simpl. destruct (Ascii.ascii_dec a b); [auto | discriminate]. Qed.

Lemma prefix_app (k n x : string) :
  String.prefix k n = true -> String.prefix k (n ++ x) = true.
Proof.
  revert k. induction n as [|c n IH]; intros k; destruct k as [|a k]; simpl.
  - intros _. destruct x; reflexivity.
  - discriminate.
  - reflexivity.
  - destruct (Ascii.ascii_dec a c); [apply IH | discriminate].
Qed.

Lemma prefix_contains (p s : string) : String.prefix p s = true -> contains p s = true.
Proof. intros H. destruct s; cbn [contains]; rewrite H; reflexivity. Qed.

Lemma contains_app_l (p a s : string) : contains p s = true -> contains p (a ++ s) = true.
Proof.
  intros H. induction a as [|c a IH]; [exact H|].
  change (String c a ++ s)%string with (String c (a ++ s)). cbn [contains].
  rewrite IH. destruct (String.prefix p (String c (a ++ s))); reflexivity.
Qed.

Lemma prefix_self_app (p t : string) : String.prefix p (p ++ t) = true.
Proof.
  induction p as [|c p IH]; simpl; [destruct t; reflexivity|].
  destruct (Ascii.ascii_dec c c); [exact IH | contradiction].
Qed.

Lemma registry_rules_disjoint (name key1 file1 key2 file2 : string) :
  In (key1, file1) PARSER_MAP -> In (key2, file2) PARSER_MAP ->
  String.prefix key1 name = true -> String.prefix key2 name = true ->
  key1 = key2 /\ file1 = file2.
Proof.
  intros H1 H2 P1 P2.
  destruct name as [|c name].
  - simpl in H1. destruct H1 as [[= <- <-]|[[= <- <-]|[[= <- <-]|[[= <- <-]|[]]]]];
      discriminate.
  - simpl in H1, H2.
    destruct H1 as [[= <- <-]|[[= <- <-]|[[= <- <-]|[[= <- <-]|[]]]]];
      destruct H2 as [[= <- <-]|[[= <- <-]|[[= <- <-]|[[= <- <-]|[]]]]];
      try (split; reflexivity);
      apply prefix_first in P1; apply prefix_first in P2; congruence.
Qed.

Lemma registry_lookup (name script : string) :
  get_parser_for_benchmark name = Some script <->
  exists key file,
    In (key, file) PARSER_MAP /\ String.prefix key name = true /\
    script = os_path_join SCRIPTS_DIR file.
Proof.
  unfold get_parser_for_benchmark. split.
  - unfold PARSER_MAP, first_prefix_match.
    destruct (String.prefix "sysbench-oltp" name) eqn:E1;
      [intros [= <-]; do 2 eexists; split; [left; reflexivity | auto]|].
    destruct (String.prefix "postgres-pgbench" name) eqn:E2;
      [intros [= <-]; do 2 eexists; split; [right; left; reflexivity | auto]|].
    destruct (String.prefix "webserver-bench" name) eqn:E3;
      [intros [= <-]; do 2 eexists; split; [do 2 right; left; reflexivity | auto]|].
    destruct (String.prefix "fio-" name) eqn:E4;
      [intros [= <-]; do 2 eexists; split; [do 3 right; left; reflexivity | auto]|].
    discriminate.
  - intros (key & file & HIn & Hp & ->).
    unfold PARSER_MAP, first_prefix_match.
    destruct (String.prefix "sysbench-oltp" name) eqn:E1.
    { destruct (registry_rules_disjoint _ _ _ _ _ HIn (or_introl eq_refl) Hp E1) as [_ ->].
      reflexivity. }
    destruct (String.prefix "postgres-pgbench" name) eqn:E2.
    { destruct (registry_rules_disjoint _ _ _ _ _ HIn (or_intror (or_introl eq_refl)) Hp E2)
        as [_ ->].
      reflexivity. }
    destruct (String.prefix "webserver-bench" name) eqn:E3.
    { destruct (registry_rules_disjoint _ _ _ _ _ HIn
                  (or_intror (or_intror (or_introl eq_refl))) Hp E3)
        as [_ ->]. reflexivity. }
    destruct (String.prefix "fio-" name) eqn:E4.
    { destruct (registry_rules_disjoint _ _ _ _ _ HIn
                  (or_intror (or_intror (or_intror (or_introl eq_refl)))) Hp E4)
        as [_ ->]. reflexivity. }
    simpl in HIn.
    destruct HIn as [[= <- <-]|[[= <- <-]|[[= <- <-]|[[= <- <-]|[]]]]]; congruence.
Qed.

(** X1: the registry returns an adapter exactly for the names that begin
    with one of its four prefixes, and no name begins with two of them, so
    the adapter found does not depend on the order of the rules. *)
Theorem registry_match_is_unique (name : string) :
  (forall script,
      get_parser_for_benchmark name = Some script <->
      exists key file,
        In (key, file) PARSER_MAP /\ String.prefix key name = true /\
        script = os_path_join SCRIPTS_DIR file)
  /\
  (forall key1 file1 key2 file2,
      In (key1, file1) PARSER_MAP -> In (key2, file2) PARSER_MAP ->
      String.prefix key1 name = true -> String.prefix key2 name = true ->
      key1 = key2 /\ file1 = file2).
Proof.
  split.
  - intros script. apply registry_lookup.
  - intros key1 file1 key2 file2. apply registry_rules_disjoint.
Qed.

Lemma registry_match_is_unique_witness :
  get_parser_for_benchmark "fio-randread-4k" = Some "scripts/parse_fio.py".
Proof.
  apply (proj1 (registry_match_is_unique "fio-randread-4k")).
  exists "fio-", "parse_fio.py". split; [simpl; tauto|]. split; reflexivity.
Defined.

(** X2: a benchmark the registry routes to the block-device adapter is
    always read from [result.json], and a name without [fio-] from
    [results.txt]; but the file is chosen by a substring test and the
    adapter by a prefix test, so a directory of any family whose name
    continues with [fio-] keeps its family's adapter and is read from
    [result.json]. *)
Theorem workload_file_follows_fio_substring (name : string) :
  (get_parser_for_benchmark name = Some (os_path_join SCRIPTS_DIR "parse_fio.py") ->
   workload_name name = "result.json")
  /\
  (contains "fio-" name = false -> workload_name name = "results.txt")
  /\
  (forall script tail,
      get_parser_for_benchmark name = Some script ->
      get_parser_for_benchmark (name ++ "fio-" ++ tail) = Some script /\
      workload_name (name ++ "fio-" ++ tail) = "result.json").
Proof.
  split; [|split].
  - intros H.
    apply registry_lookup in H as (key & file & HIn & Hp & Hs).
    assert (key = "fio-") as ->.
    { simpl in HIn.
      destruct HIn as [[= <- <-]|[[= <- <-]|[[= <- <-]|[[= <- <-]|[]]]]];
        try discriminate. reflexivity. }
    unfold workload_name. now rewrite (prefix_contains _ _ Hp).
  - intros H. unfold workload_name. now rewrite H.
  - intros script tail H. split.
    + apply registry_lookup in H as (key & file & HIn & Hp & ->).
      apply registry_lookup.
      exists key, file. split; [exact HIn|]. split; [|reflexivity].
      apply prefix_app, Hp.
    + unfold workload_name.
      rewrite (contains_app_l "fio-" name ("fio-" ++ tail)); [reflexivity|].
      apply prefix_contains, (prefix_self_app "fio-" tail).
Qed.

Lemma workload_file_follows_fio_substring_witness :
  workload_name "fio-seqwrite" = "result.json" /\
  get_parser_for_benchmark "sysbench-oltp-fio-host" = Some "scripts/parse_sysbench.py" /\
  workload_name "sysbench-oltp-fio-host" = "result.json".
Proof.
  split.
  - apply (proj1 (workload_file_follows_fio_substring "fio-seqwrite")). reflexivity.
  - apply (proj2 (proj2 (workload_file_follows_fio_substring "sysbench-oltp-"))
             "scripts/parse_sysbench.py" "host").
    reflexivity.
Defined.

(** ** What the walk ignores *)




(** ** When the walk raises *)

Lemma for_each_Ok_In {A S : Type} (body : A -> S -> result S) (l : list A) (x : A) :
  In x l -> forall s s', for_each body l s = Ok s' -> exists s1 s2, body x s1 = Ok s2.
Proof.
  induction l as [|y l IH]; intros HIn s s'; simpl; [contradiction|].
  destruct (body y s) as [s1|e] eqn:E; simpl; [|discriminate].
  destruct HIn as [->|HIn]; [eauto|].
  apply (IH HIn).
Qed.

Lemma usable_output_Some (run_parser : string -> string -> option json)
  (script run_path : string) (run_entries : list (string * node)) (name : string)
  (data : json) :
  usable_output run_parser script run_path run_entries name = Some data ->
  exists_in run_entries name = true /\
  run_parser script (os_path_join run_path name) = Some data /\
  truthy data = true.
Proof.
  unfold usable_output.
  destruct (exists_in run_entries name); [|discriminate].
  destruct (run_parser script _) as [d|]; [|discriminate].
  destruct (truthy d) eqn:E; [|discriminate].
  intros [= <-]. auto.
Qed.

Lemma accumulate_field_broken (b fs : string) (gs : list group) (field : string)
  (data : json) (st : store) :
  broken_field field data = true ->
  accumulate_field b fs gs field data st = Raise AttributeError.
Proof.
  unfold broken_field, accumulate_field.
  destruct data as [| | | | | |o]; try discriminate.
  simpl. unfold dmem.
  destruct (dget field o) as [v|]; [|discriminate].
  simpl. destruct v; simpl; try reflexivity. discriminate.
Qed.

(** X4: one adapter output whose scalar mapping is present but is not a
    mapping ([plot] or [table] of the workload adapter, [plot] of the
    container adapter, [table] of the storage-IO adapter) aborts the whole
    pass with an uncaught exception: no report is written, whatever the
    other runs and benchmarks hold. *)
Theorem malformed_field_aborts_the_pass
  (run_parser : string -> string -> option json) (system_info : json)
  (benchmarks filesystems runs run_entries : list (string * node))
  (b fs run parser_script : string) :
  In (b, Dir filesystems) benchmarks ->
  get_parser_for_benchmark b = Some parser_script ->
  In (fs, Dir runs) filesystems ->
  In (run, Dir run_entries) runs ->
  (exists data,
      usable_output run_parser parser_script
        (os_path_join (os_path_join (os_path_join RESULTS_DIR b) fs) run)
        run_entries (workload_name b) = Some data /\
      (broken_field "plot" data = true \/ broken_field "table" data = true))
  \/
  (exists data,
      docker_output run_parser
        (os_path_join (os_path_join (os_path_join RESULTS_DIR b) fs) run) run_entries
      = Some data /\
      broken_field "plot" data = true)
  \/
  (exists data,
      iostat_output run_parser
        (os_path_join (os_path_join (os_path_join RESULTS_DIR b) fs) run) run_entries
      = Some data /\
      broken_field "table" data = true) ->
  (exists e, main run_parser system_info (Some (Dir benchmarks)) = Uncaught e) /\
  artifact (main run_parser system_info (Some (Dir benchmarks))) = None /\
  exit_status (main run_parser system_info (Some (Dir benchmarks))) = 1%Z.
Proof.
  intros Hb Hparser Hfs Hrun Hbroken.
  assert (Hnot : forall path out,
             main run_parser system_info (Some (Dir benchmarks)) <> Completed path out).
  { intros path out Hmain.
    destruct (main_completed _ _ _ _ _ Hmain) as (st & Hst & _).
    unfold collect in Hst.
    destruct (for_each_Ok_In _ _ _ Hb _ _ Hst) as (s1 & s2 & H1).
    unfold collect_benchmark in H1. cbn [fst snd] in H1. rewrite Hparser in H1.
    destruct (for_each_Ok_In _ _ _ Hfs _ _ H1) as (t1 & t2 & H2).
    unfold collect_filesystem in H2. cbn [fst snd] in H2.
    destruct (for_each_Ok_In _ _ _ Hrun _ _ H2) as (u1 & u2 & H3).
    unfold collect_run in H3. cbn [fst snd] in H3.
    apply bind_Ok in H3 as (w1 & Hw & H3).
    apply bind_Ok in H3 as (w2 & Hd & Hi).
    destruct Hbroken as [(data & Hout & Hbad) | [(data & Hout & Hbad) | (data & Hout & Hbad)]].
    - apply usable_output_Some in Hout as (Hex & Hrp & Ht).
      unfold collect_workload in Hw. rewrite Hex, Hrp, Ht in Hw.
      apply bind_Ok in Hw as (w0 & Hp & Htab).
      destruct Hbad as [Hbad | Hbad].
      + rewrite (accumulate_field_broken _ _ _ _ _ _ Hbad) in Hp. discriminate.
      + rewrite (accumulate_field_broken _ _ _ _ _ _ Hbad) in Htab. discriminate.
    - apply usable_output_Some in Hout as (Hex & Hrp & Ht).
      unfold collect_docker_stats in Hd. rewrite Hex, Hrp, Ht in Hd.
      apply bind_Ok in Hd as (w0 & Hp & _).
      rewrite (accumulate_field_broken _ _ _ _ _ _ Hbad) in Hp. discriminate.
    - apply usable_output_Some in Hout as (Hex & Hrp & Ht).
      unfold collect_iostat in Hi. rewrite Hex, Hrp, Ht in Hi.
      apply bind_Ok in Hi as (w0 & Hp & _).
      rewrite (accumulate_field_broken _ _ _ _ _ _ Hbad) in Hp. discriminate. }
  destruct (main run_parser system_info (Some (Dir benchmarks))) as [status|path out|e] eqn:E.
  - unfold main in E. cbn [os_listdir bind] in E.
    destruct (st <- collect run_parser benchmarks ;; aggregate st); discriminate.
  - exfalso. apply (Hnot path out). reflexivity.
  - split; [now exists e|]. split; reflexivity.
Qed.

Lemma malformed_field_aborts_the_pass_witness :
  artifact (main (parser_table malformed_outputs) (JObj []) (Some (Dir malformed_results)))
  = None.
Proof.
  apply (malformed_field_aborts_the_pass (parser_table malformed_outputs) (JObj [])
           malformed_results
           [("fsA", Dir [("run_1", run_with ["result.json"])])]
           [("run_1", run_with ["result.json"])]
           [("result.json", File)]
           "fio-randread" "fsA" "run_1" "scripts/parse_fio.py").
  - simpl. auto.
  - reflexivity.
  - simpl. auto.
  - simpl. auto.
  - left. eexists. split; [vm_compute; reflexivity|]. left. reflexivity.
Defined.

(** ** The merged mappings *)

Lemma merged_cons (entry : list json -> option json) (item : string * list json)
  (d : dict (list json)) (agg : dict json) :
  merged entry (item :: d) agg
  = merged entry d (put_entry (fst item) (entry (snd item)) agg).
Proof. reflexivity. Qed.

Lemma NoDup_keys_put_entry (k : string) (o : option json) (agg : dict json) :
  NoDup (keys agg) -> NoDup (keys (put_entry k o agg)).
Proof.
  destruct o; simpl; [|auto]. unfold dset. apply NoDup_keys_dupd.
Qed.

Lemma merged_NoDup (entry : list json -> option json) (d : dict (list json)) :
  forall agg, NoDup (keys agg) -> NoDup (keys (merged entry d agg)).
Proof.
  induction d as [|item d IH]; intros agg Hnd; [exact Hnd|].
  rewrite merged_cons. apply IH, NoDup_keys_put_entry, Hnd.
Qed.

Lemma merged_present (entry : list json -> option json) (d : dict (list json))
  (k : string) :
  forall agg,
    dget k (merged entry d agg) <> None <->
    dget k agg <> None \/ exists values, In (k, values) d /\ entry values <> None.
Proof.
  induction d as [|[k0 values0] d IH]; intros agg.
  - simpl. split; [auto | intros [H | (values & [] & _)]; exact H].
  - rewrite merged_cons, IH, dget_put_entry. cbn [fst snd]. split.
    + intros [H | (values & HIn & Hv)].
      * destruct (String.eqb_spec k k0) as [->|Hne]; [|now left].
        destruct (entry values0) eqn:E; [|now left].
        right. exists values0. split; [now left | congruence].
      * right. exists values. split; [now right | exact Hv].
    + intros [H | (values & [[= -> ->] | HIn] & Hv)].
      * left. destruct (String.eqb k k0); [|exact H].
        destruct (entry values0); [discriminate | exact H].
      * left. rewrite String.eqb_refl.
        destruct (entry values) eqn:E; [discriminate | congruence].
      * right. now exists values.
Qed.

Lemma merged_values (entry : list json -> option json) (Good : string -> json -> Prop)
  (d : dict (list json)) :
  (forall k values v, In (k, values) d -> entry values = Some v -> Good k v) ->
  forall agg,
    (forall k v, dget k agg = Some v -> Good k v) ->
    forall k v, dget k (merged entry d agg) = Some v -> Good k v.
Proof.
  induction d as [|[k0 values0] d IH]; intros Hentry agg Hagg k v; [apply Hagg|].
  rewrite merged_cons. apply IH.
  - intros k' values v' HIn. apply Hentry. now right.
  - intros k' v'. rewrite dget_put_entry. cbn [fst snd].
    destruct (String.eqb_spec k' k0) as [->|Hne]; [|apply Hagg].
    destruct (entry values0) eqn:E; [|apply Hagg].
    intros [= <-]. apply (Hentry k0 values0); [now left | exact E].
Qed.

Lemma plot_entry_is_number (values : list json) (v : json) :
  plot_entry values = Some v -> is_number v = true.
Proof.
  unfold plot_entry.
  pose proof (forallb_filter is_number values) as Hall.
  destruct (filter is_number values) as [|v1 [|v2 rest]]; [discriminate | |].
  - intros [= <-]. simpl in Hall. now rewrite andb_true_r in Hall.
  - intros [= <-]. apply rounded_mean_is_number.
Qed.

Lemma plot_entry_Some_iff (values : list json) :
  plot_entry values <> None <-> exists v, In v values /\ is_number v = true.
Proof.
  unfold plot_entry. split.
  - destruct (filter is_number values) as [|v1 rest] eqn:E.
    + intros H. now contradiction H.
    + intros _. exists v1.
      apply filter_In. rewrite E. now left.
  - intros (v & HIn & Hv).
    assert (H : In v (filter is_number values)) by (apply filter_In; auto).
    destruct (filter is_number values) as [|v1 [|v2 rest]]; [contradiction | |];
      discriminate.
Qed.

(** X5: the mapping returned by [calculate_average] has distinct keys, has
    a key exactly when some sequence collected under that key holds a
    number, and every value in it is a number; the mapping returned by
    [aggregate_table_data] has distinct keys, has a key exactly when some
    sequence collected under it is not empty, and each of its values is a
    number or the first value of a collected sequence. *)
Theorem merged_mappings_keys_and_values (d : dict (list json)) (p t : dict json) :
  calculate_average d = Ok p ->
  aggregate_table_data d = Ok t ->
  (NoDup (keys p) /\
   (forall k,
       dget k p <> None <->
       exists values v, In (k, values) d /\ In v values /\ is_number v = true) /\
   (forall k v, dget k p = Some v -> is_number v = true))
  /\
  (NoDup (keys t) /\
   (forall k, dget k t <> None <-> exists values, In (k, values) d /\ values <> []) /\
   (forall k v,
       dget k t = Some v ->
       is_number v = true \/ exists rest, In (k, v :: rest) d)).
Proof.
  rewrite calculate_average_eq, aggregate_table_data_eq.
  intros [= <-] [= <-]. split; split; [| split | | split].
  - apply merged_NoDup. constructor.
  - intros k. rewrite merged_present. split.
    + intros [H | (values & HIn & Hv)]; [now contradiction H|].
      apply plot_entry_Some_iff in Hv as (v & Hv & Hnum). now exists values, v.
    + intros (values & v & HIn & Hv & Hnum). right. exists values.
      split; [exact HIn|]. apply plot_entry_Some_iff. now exists v.
  - apply (merged_values plot_entry (fun _ v => is_number v = true)).
    + intros k values v _. apply plot_entry_is_number.
    + discriminate.
  - apply merged_NoDup. constructor.
  - intros k. rewrite merged_present. split.
    + intros [H | (values & HIn & Hv)]; [now contradiction H|].
      exists values. split; [exact HIn|]. intros ->. now apply Hv.
    + intros (values & HIn & Hne). right. exists values. split; [exact HIn|].
      unfold table_entry. destruct values as [|v0 rest]; [contradiction|].
      destruct (is_number v0); discriminate.
  - apply (merged_values table_entry
             (fun k v => is_number v = true \/ exists rest, In (k, v :: rest) d)).
    + intros k values v HIn. unfold table_entry.
      destruct values as [|v0 rest]; [discriminate|].
      destruct (is_number v0) eqn:E.
      * intros [= <-]. left. apply rounded_mean_is_number.
      * intros [= <-]. right. now exists rest.
    + discriminate.
Qed.

Lemma merged_mappings_keys_and_values_witness :
  exists p,
    calculate_average mixed_sequences = Ok p /\
    dget "tps" p <> None /\ dget "note" p = None.
Proof.
  eexists.
  assert (Hp : calculate_average mixed_sequences = Ok _) by (vm_compute; reflexivity).
  assert (Ht : aggregate_table_data mixed_sequences = Ok _) by (vm_compute; reflexivity).
  split; [exact Hp|].
  destruct (merged_mappings_keys_and_values _ _ _ Hp Ht) as ((_ & Hkeys & _) & _).
  split.
  - apply Hkeys. exists [JNull; JInt 100; JStr "n/a"; JInt 110; JInt 105], (JInt 100).
    simpl. auto 10.
  - vm_compute. reflexivity.
Defined.

(** ** The entries of the report *)

Lemma flat_map_nonempty {A B : Type} (f : A -> list B) (l : list A) :
  flat_map f l <> [] -> exists x, In x l /\ f x <> [].
Proof.
  induction l as [|x l IH]; simpl; [intros H; now contradiction H|].
  destruct (f x) eqn:E.
  - intros H. destruct (IH H) as (y & HIn & Hy). exists y. auto.
  - intros _. exists x. split; [now left | congruence].
Qed.

Lemma from_output_nonempty (o : option json) (f : json -> list json) :
  from_output o f <> [] -> o <> None.
Proof. destruct o; [discriminate | intros H; now contradiction H]. Qed.

(** X6: the written report holds the system metadata verbatim, and each
    of its entries comes from the hierarchy: a (benchmark, configuration)
    pair has an entry only if the benchmark is a directory the registry
    resolves, the configuration a directory in it, and one of its run
    directories holds a file on which an adapter succeeded with a
    non-empty output.  Every entry has the same shape, the series being
    what the walk kept or the empty mapping, and the values of the three
    plot mappings are numbers. *)
Theorem report_entries_come_from_the_hierarchy
  (run_parser : string -> string -> option json) (system_info : json)
  (benchmarks : list (string * node)) (path : string) (out : json)
  (b fs : string) (e : json) :
  main run_parser system_info (Some (Dir benchmarks)) = Completed path out ->
  jpath ["data"; b; fs] out = Some e ->
  path = OUTPUT_FILE /\
  jpath ["system_info"] out = Some system_info /\
  (exists filesystems runs run run_entries parser_script,
      In (b, Dir filesystems) benchmarks /\
      get_parser_for_benchmark b = Some parser_script /\
      In (fs, Dir runs) filesystems /\
      In (run, Dir run_entries) runs /\
      (usable_output run_parser parser_script
         (os_path_join (os_path_join (os_path_join RESULTS_DIR b) fs) run)
         run_entries (workload_name b) <> None \/
       docker_output run_parser
         (os_path_join (os_path_join (os_path_join RESULTS_DIR b) fs) run) run_entries
       <> None \/
       iostat_output run_parser
         (os_path_join (os_path_join (os_path_join RESULTS_DIR b) fs) run) run_entries
       <> None))
  /\
  (exists metrics_p metrics_t docker_p docker_t iostat_p iostat_t,
      e = JObj
            [("metrics", JObj [("plot", JObj metrics_p); ("table", JObj metrics_t)]);
             ("monitoring",
              JObj
                [("docker_stats",
                  JObj [("plot", JObj docker_p); ("table", JObj docker_t);
                        ("series",
                         from_option (JObj [])
                           (kept run_parser b fs "docker_stats_series" benchmarks))]);
                 ("iostat",
                  JObj [("plot", JObj iostat_p); ("table", JObj iostat_t);
                        ("series",
                         from_option (JObj [])
                           (kept run_parser b fs "iostat_series" benchmarks))])])] /\
      (forall k v,
          dget k metrics_p = Some v \/ dget k docker_p = Some v \/ dget k iostat_p = Some v ->
          is_number v = true)).
Proof.
  intros Hmain He.
  destruct (main_completed _ _ _ _ _ Hmain) as (st & Hst & -> & ->).
  split; [reflexivity|]. split; [reflexivity|]. split.
  - assert (Hne : jpath ["data"; b; fs] (make_output system_info (report_of st)) <> None)
      by congruence.
    apply (report_entry_iff _ _ _ _ _ b fs Hmain) in Hne as (g & k & Hne).
    unfold collected in Hne.
    apply flat_map_nonempty in Hne as ([b0 n] & Hb & Hne).
    unfold benchmark_adds in Hne. cbn [fst snd] in Hne.
    destruct n as [|filesystems]; [now contradiction Hne|].
    destruct (String.eqb_spec b b0) as [<-|_]; [|now contradiction Hne].
    destruct (get_parser_for_benchmark b) as [parser_script|] eqn:Hp;
      [|now contradiction Hne].
    apply flat_map_nonempty in Hne as ([fs0 n] & Hfs & Hne).
    unfold fs_adds in Hne. cbn [fst snd] in Hne.
    destruct n as [|runs]; [now contradiction Hne|].
    destruct (String.eqb_spec fs fs0) as [<-|_]; [|now contradiction Hne].
    apply flat_map_nonempty in Hne as ([run n] & Hrun & Hne).
    unfold run_adds in Hne. cbn [fst snd] in Hne.
    destruct n as [|run_entries]; [now contradiction Hne|].
    exists filesystems, runs, run, run_entries, parser_script.
    repeat (split; [assumption || reflexivity|]).
    destruct (usable_output run_parser parser_script _ run_entries (workload_name b));
      [left; discriminate|].
    destruct (docker_output run_parser _ run_entries); [right; left; discriminate|].
    destruct (iostat_output run_parser _ run_entries); [right; right; discriminate|].
    now contradiction Hne.
  - rewrite (report_entry _ _ _ _ _ _ nil Hst) in He.
    destruct (lookup2 b fs (temp_data st)) as [c|]; [|discriminate].
    cbn [jpath] in He. injection He as <-.
    unfold entry_json. rewrite !rep_get_rep_of, !(proj2 (collect_Ok _ _ _ Hst)).
    do 6 eexists. split; [reflexivity|].
    intros k v [H | [H | H]]; revert H;
      apply (merged_values plot_entry (fun _ v => is_number v = true));
      try discriminate; intros k' values v' _; apply plot_entry_is_number.
Qed.

Lemma report_entries_come_from_the_hierarchy_witness :
  exists e,
    jpath ["data"; "postgres-pgbench"; "fsA"] demo_out = Some e /\
    jpath ["system_info"] demo_out = Some (JObj []).
Proof.
  assert (Hmain : main demo_parser (JObj []) (Some (Dir (three_runs "results.txt")))
                  = Completed OUTPUT_FILE demo_out) by (vm_compute; reflexivity).
  eexists.
  assert (He : jpath ["data"; "postgres-pgbench"; "fsA"] demo_out = Some _)
    by (vm_compute; reflexivity).
  split; [exact He|].
  apply (report_entries_come_from_the_hierarchy _ _ _ _ _ _ _ _ Hmain He).
Defined.

(** ** Listing order *)















Section Relisting.

Variable run_parser : string -> string -> option json.








End Relisting.



(** ** The range of a merged value *)








(** ** The series of the storage-IO adapter *)


Lemma is_suffix_app (dev suf : string) : is_suffix suf (dev ++ suf) = true.
Proof.
  induction dev as [|c dev IH]; simpl.
  - destruct suf; simpl; [reflexivity|].
    now rewrite Ascii.eqb_refl, String.eqb_refl.
  - rewrite IH. destruct (String.eqb suf (String c (dev ++ suf))); reflexivity.
Qed.




Lemma get_fields_keys (fields : list (string * string)) (source : json) :
  forall d, get_fields fields source = Ok d -> keys d = map fst fields.
Proof.
  induction fields as [|[name field] fields IH]; simpl; intros d.
  - now intros [= <-].
  - destruct (py_get source field (JFloat 0)) as [v|]; simpl; [|discriminate].
    destruct (get_fields fields source) as [rest|]; simpl; [|discriminate].
    intros [= <-]. simpl. now rewrite (IH rest).
Qed.










Lemma keys_level_plot_data (pd : dict (list json)) :
  keys (map (fun kv => (fst kv, JList (snd kv))) (level_plot_data pd)) = keys pd.
Proof.
  unfold keys, level_plot_data. rewrite !map_map. apply map_ext.
  intros [k l]. cbn [fst snd]. now destruct (String.eqb k "timestamp").
Qed.









(** ** The devices of a sample *)

Lemma find_main_disk_numbered (ends_with_digits : string -> bool) (disks : list json) :
  forallb (numbered ends_with_digits) disks = true ->
  find_main_disk ends_with_digits disks = Ok None.
Proof.
  induction disks as [|d disks IH]; simpl; [reflexivity|].
  intros H. apply andb_true_iff in H as [Hd Hrest].
  unfold numbered, device_name in Hd.
  destruct (py_get d "disk_device" (JStr "")) as [[| | | |s| |]|]; try discriminate.
  simpl. rewrite Hd. now apply IH.
Qed.

Lemma find_main_disk_first (ends_with_digits : string -> bool) (pre post : list json)
  (entry : json) (name : string) :
  forallb (numbered ends_with_digits) pre = true ->
  device_name entry = Some name -> ends_with_digits name = false ->
  find_main_disk ends_with_digits (pre ++ entry :: post) = Ok (Some (entry, name)).
Proof.
  intros Hpre Hname Hend.
  induction pre as [|d pre IH]; simpl.
  - unfold device_name in Hname.
    destruct (py_get entry "disk_device" (JStr "")) as [[| | | |s| |]|]; try discriminate.
    injection Hname as ->. simpl. now rewrite Hend.
  - simpl in Hpre. apply andb_true_iff in Hpre as [Hd Hrest].
    unfold numbered, device_name in Hd.
    destruct (py_get d "disk_device" (JStr "")) as [[| | | |s| |]|]; try discriminate.
    simpl. rewrite Hd. now apply IH.
Qed.

Lemma find_main_disk_Ok (ends_with_digits : string -> bool) (disks : list json) :
  forall r,
    find_main_disk ends_with_digits disks = Ok r ->
    match r with
    | Some (entry, name) =>
        exists pre post,
          disks = pre ++ entry :: post /\
          forallb (numbered ends_with_digits) pre = true /\
          device_name entry = Some name /\ ends_with_digits name = false
    | None => forallb (numbered ends_with_digits) disks = true
    end.
Proof.
  induction disks as [|d disks IH]; simpl; intros r.
  - now intros [= <-].
  - destruct (py_get d "disk_device" (JStr "")) as [[| | | |s| |]|] eqn:E;
      simpl; try discriminate.
    destruct (ends_with_digits s) eqn:Hs.
    + intros H. specialize (IH r H).
      assert (Hd : numbered ends_with_digits d = true)
        by (unfold numbered, device_name; now rewrite E).
      destruct r as [[entry name]|].
      * destruct IH as (pre & post & -> & Hpre & Hname & Hend).
        exists (d :: pre), post. simpl. now rewrite Hd, Hpre.
      * now rewrite Hd, IH.
    + intros [= <-]. exists [], disks. simpl.
      unfold device_name. now rewrite E.
Qed.

(** X10: of the devices of a sample the adapter reports one at most: the
    first whose name does not end in digits, whatever follows it in the
    list; when every device name ends in digits no device is found.  The
    search raises only on an entry, met before a device is found, that is
    not an object or whose name is not a string. *)
Theorem main_disk_is_first_unnumbered_device
  (ends_with_digits : string -> bool) (disks : list json) :
  (forall pre post entry name,
      disks = pre ++ entry :: post ->
      forallb (numbered ends_with_digits) pre = true ->
      device_name entry = Some name -> ends_with_digits name = false ->
      find_main_disk ends_with_digits disks = Ok (Some (entry, name)))
  /\
  (forallb (numbered ends_with_digits) disks = true ->
   find_main_disk ends_with_digits disks = Ok None)
  /\
  (forall r,
      find_main_disk ends_with_digits disks = Ok r ->
      match r with
      | Some (entry, name) =>
          exists pre post,
            disks = pre ++ entry :: post /\
            forallb (numbered ends_with_digits) pre = true /\
            device_name entry = Some name /\ ends_with_digits name = false
      | None => forallb (numbered ends_with_digits) disks = true
      end).
Proof.
  split; [|split].
  - intros pre post entry name ->. apply find_main_disk_first.
  - apply find_main_disk_numbered.
  - apply find_main_disk_Ok.
Qed.

Lemma main_disk_is_first_unnumbered_device_witness :
  find_main_disk ends_in_digit
    [JObj [("disk_device", JStr "vdb1")]; JObj [("disk_device", JStr "vdb")];
     JObj [("disk_device", JStr "vdc")]; JNull]
  = Ok (Some (JObj [("disk_device", JStr "vdb")], "vdb")).
Proof.
  apply (proj1 (main_disk_is_first_unnumbered_device ends_in_digit _)
           [JObj [("disk_device", JStr "vdb1")]]
           [JObj [("disk_device", JStr "vdc")]; JNull]);
    reflexivity.
Defined.

Lemma dmem_In {V : Type} (k : string) (d : dict V) : In k (keys d) -> dmem k d = true.
Proof.
  intros H. unfold dmem. destruct (dget k d) eqn:E; [reflexivity|].
  apply dget_None_iff in E. contradiction.
Qed.

Lemma keys_dappend_present {V : Type} (k : string) (v : V) (d : dict (list V)) :
  In k (keys d) -> keys (dappend k v d) = keys d.
Proof. intros H. unfold dappend. now rewrite keys_dupd, dmem_In. Qed.

Lemma keys_append_all_present (items : dict json) :
  forall d : dict (list json),
    (forall k, In k (keys items) -> In k (keys d)) ->
    keys (append_all items d) = keys d.
Proof.
  unfold append_all.
  induction items as [|[k v] items IH]; intros d H; [reflexivity|].
  cbn [fold_left fst snd].
  assert (Hk : keys (dappend k v d) = keys d)
    by (apply keys_dappend_present, H; now left).
  rewrite IH, Hk; [reflexivity|].
  intros k' Hk'. rewrite Hk. apply H. now right.
Qed.

Lemma statistics_step_base (ends_with_digits : string -> bool) (idx : Z)
  (stat_entry : json) (acc acc' : iostat_acc) :
  statistics_step ends_with_digits (idx, stat_entry) acc = Ok acc' ->
  forallb (numbered ends_with_digits) (disks_of stat_entry) = true ->
  base_only acc -> base_only acc'.
Proof.
  unfold statistics_step, disks_of. intros H Hnum (Hpd & Hts & Hdts).
  apply bind_Ok in H as (cpu_stats & _ & H).
  apply bind_Ok in H as (cpu & Hcpu & H).
  apply bind_Ok in H as (disk_list & Hdl & H).
  apply bind_Ok in H as (disks & Hdisks & H).
  apply bind_Ok in H as (main_disk & Hmain & H).
  rewrite Hdl in Hnum. cbn [bind] in Hnum. rewrite Hdisks in Hnum.
  rewrite (find_main_disk_numbered _ _ Hnum) in Hmain. injection Hmain as <-.
  injection H as <-. unfold base_only.
  cbn [plot_data table_stats device_table_stats].
  apply get_fields_keys in Hcpu.
  split; [|split; [|exact Hdts]].
  - rewrite keys_append_all_present.
    + rewrite keys_dappend_present; [exact Hpd|]. rewrite Hpd. simpl. auto.
    + intros k Hk. rewrite keys_dappend_present by (rewrite Hpd; simpl; auto).
      rewrite Hpd. rewrite Hcpu in Hk. simpl in Hk. simpl. tauto.
  - rewrite keys_append_all_present; [exact Hts|].
    intros k Hk. rewrite Hts. rewrite Hcpu in Hk. exact Hk.
Qed.

Lemma average_into_keys (name : string) (values : list json) (td td' : dict json) :
  average_into name values td = Ok td' ->
  forall k, In k (keys td') -> In k (keys td) \/ k = name.
Proof.
  unfold average_into. destruct values as [|v values]; [intros [= <-]; auto|].
  intros H. apply bind_Ok in H as (mean & _ & H).
  apply bind_Ok in H as (r & _ & H). injection H as <-.
  intros k. unfold dset. rewrite keys_dupd.
  destruct (dmem name td); [auto|].
  rewrite in_app_iff. simpl. intuition.
Qed.

Lemma average_loop_keys (name : string * list json -> string)
  (l : dict (list json)) :
  forall td td',
    for_each (fun kv => average_into (name kv) (snd kv)) l td = Ok td' ->
    forall k, In k (keys td') -> In k (keys td) \/ In k (map name l).
Proof.
  induction l as [|kv l IH]; intros td td'; simpl.
  - intros [= <-]. auto.
  - intros H. apply bind_Ok in H as (td1 & H1 & H).
    intros k Hk. destruct (IH _ _ H k Hk) as [Hk1|Hk1]; [|auto].
    destruct (average_into_keys _ _ _ _ H1 k Hk1) as [Hk0| ->]; auto.
Qed.

(** X11: a host whose disks all have names ending in digits (an NVMe
    namespace such as nvme0n1, md0, dm-0, a partition) gets no device
    metrics at all: when in every sample every disk entry has such a
    name, the plot holds the timestamps and the four CPU series only and
    the table nothing but the four CPU averages. *)
Theorem numbered_devices_are_never_reported
  (json_loads : string -> option json) (py_str : json -> string)
  (ends_with_digits is_blank : string -> bool) (content : string) (data out : json) :
  json_loads content = Some data ->
  (forall stat_entry,
      In stat_entry (samples_of data) ->
      forallb (numbered ends_with_digits) (disks_of stat_entry) = true) ->
  parse_iostat json_loads py_str ends_with_digits is_blank content = Ok out ->
  exists version plot table,
    out = JObj [("version", JStr version); ("plot", JObj plot); ("table", JObj table)] /\
    (plot = [] \/
     keys plot = ["timestamp"; "cpu_user"; "cpu_system"; "cpu_iowait"; "cpu_idle"]) /\
    (forall k,
        In k (keys table) ->
        In k ["cpu_user_avg"; "cpu_system_avg"; "cpu_iowait_avg"; "cpu_idle_avg"]).
Proof.
  intros Hdata Hnum.
  unfold parse_iostat, parse_single_json_object, skeleton.
  destruct (is_blank content);
    [intros [= <-]; do 3 eexists; split; [reflexivity|]; split;
     [now left | intros k []]|].
  rewrite Hdata. intros H.
  assert (Hinit : forall version,
             exists version0 plot table,
               JObj [("version", JStr version);
                     ("plot", JObj (map (fun kv : string * list json =>
                                           (fst kv, JList (snd kv))) initial_plot_data));
                     ("table", JObj [])]
               = JObj [("version", JStr version0); ("plot", JObj plot);
                       ("table", JObj table)] /\
               (plot = [] \/
                keys plot
                = ["timestamp"; "cpu_user"; "cpu_system"; "cpu_iowait"; "cpu_idle"]) /\
               (forall k,
                   In k (keys table) ->
                   In k ["cpu_user_avg"; "cpu_system_avg"; "cpu_iowait_avg";
                         "cpu_idle_avg"])).
  { intros version. do 3 eexists. split; [reflexivity|]. split; [now right|].
    intros k []. }
  apply bind_Ok in H as (has_sysstat & _ & H).
  destruct (negb has_sysstat); [injection H as <-; apply Hinit|].
  apply bind_Ok in H as (sysstat & E1 & H).
  apply bind_Ok in H as (hosts & E2 & H).
  destruct (negb (truthy hosts)); [injection H as <-; apply Hinit|].
  apply bind_Ok in H as (host & E3 & H).
  apply bind_Ok in H as (sysname & _ & H).
  apply bind_Ok in H as (release & _ & H).
  apply bind_Ok in H as (nodename & _ & H).
  apply bind_Ok in H as (machine & _ & H).
  apply bind_Ok in H as (statistics_list & E4 & H).
  destruct (negb (truthy statistics_list)); [injection H as <-; apply Hinit|].
  apply bind_Ok in H as (entries & E5 & H).
  apply bind_Ok in H as (acc & Hloop & H).
  apply bind_Ok in H as (table_data & Htable & H).
  injection H as <-.
  assert (Hsamples : samples_of data = entries).
  { unfold samples_of. rewrite E1. cbn [bind]. rewrite E2. cbn [bind].
    rewrite E3. cbn [bind]. rewrite E4. cbn [bind]. now rewrite E5. }
  rewrite Hsamples in Hnum.
  assert (Hbase : base_only acc).
  { refine (for_each_invariant (fun s s' => base_only s -> base_only s') _ _
              _ _ _ _ _ Hloop _).
    - auto.
    - auto.
    - intros [idx e] s s' HIn Hstep. apply (statistics_step_base _ _ _ _ _ Hstep).
      apply Hnum. unfold enumerate in HIn. now apply in_combine_r in HIn.
    - repeat split. }
  destruct Hbase as (Hpd & Hts & Hdts).
  do 3 eexists. split; [reflexivity|]. split.
  - right. change (keys (map (fun kv : string * list json => (fst kv, JList (snd kv)))
                           (level_plot_data (plot_data acc)))
                   = keys initial_plot_data).
    now rewrite keys_level_plot_data.
  - unfold compute_table_data in Htable. rewrite Hdts in Htable.
    apply bind_Ok in Htable as (cpu_table & Hcpu & Htable).
    cbn [for_each] in Htable. injection Htable as <-.
    intros k Hk.
    destruct (average_loop_keys (fun kv => (fst kv ++ "_avg")%string) _ _ _ Hcpu k Hk)
      as [[]|Hk'].
    rewrite <- (map_map fst (fun k0 => (k0 ++ "_avg")%string)) in Hk'.
    change (map fst (table_stats acc)) with (keys (table_stats acc)) in Hk'.
    rewrite Hts in Hk'. exact Hk'.
Qed.

Lemma numbered_devices_are_never_reported_witness :
  exists version plot table,
    parse_iostat nvme_loads str_of ends_in_digit (String.eqb "") "nvme"
    = Ok (JObj [("version", JStr version); ("plot", JObj plot); ("table", JObj table)]) /\
    keys plot = ["timestamp"; "cpu_user"; "cpu_system"; "cpu_iowait"; "cpu_idle"].
Proof.
  destruct (parse_iostat nvme_loads str_of ends_in_digit (String.eqb "") "nvme")
    as [out|e] eqn:E; [|vm_compute in E; discriminate].
  destruct (numbered_devices_are_never_reported nvme_loads str_of ends_in_digit
              (String.eqb "") "nvme" nvme_log out eq_refl)
    as (version & plot & table & -> & [Hplot|Hplot] & _).
  - intros stat_entry HIn. vm_compute in HIn.
    destruct HIn as [<-|[<-|[]]]; reflexivity.
  - exact E.
  - subst plot. vm_compute in E. discriminate.
  - now exists version, plot, table.
Defined.

(** ** The table of the storage-IO adapter *)

Lemma Forall_dupd {V : Type} (Q : string * V -> Prop) (k : string) (f : option V -> V)
  (d : dict V) :
  Forall Q d -> (forall o, Q (k, f o)) -> Forall Q (dupd k f d).
Proof.
  intros Hall Hk. induction d as [|[k0 v] d IH]; simpl.
  - repeat constructor. apply Hk.
  - inversion Hall as [|? ? Hv Hd]; subst.
    destruct (String.eqb_spec k k0) as [->|Hne]; constructor; auto.
Qed.

Lemma average_into_rounded (name : string) (values : list json) (td td' : dict json) :
  average_into name values td = Ok td' ->
  is_suffix "_avg" name = true ->
  Forall rounded_average td -> Forall rounded_average td'.
Proof.
  unfold average_into. destruct values as [|v values]; [now intros [= <-]|].
  intros H Hname Hall.
  apply bind_Ok in H as (mean & Hmean & H).
  apply bind_Ok in H as (r & Hr & H). injection H as <-.
  apply Forall_dupd; [exact Hall|]. intros _.
  split; [exact Hname|]. cbn [snd].
  unfold statistics_mean in Hmean.
  destruct (forallb is_number (v :: values)); [|discriminate].
  destruct (existsb is_float (v :: values));
    [|destruct (Pos.eqb (Qden (Qred (qmean (v :: values)))) 1)];
    injection Hmean as <-; injection Hr as <-; (split; [reflexivity|]); cbn [num_val].
  - destruct (round_half_even_grid (Qred (qmean (v :: values))) 2) as [n Hn].
    now exists n.
  - exists (Qnum (Qred (qmean (v :: values))) * 100)%Z.
    unfold Qeq, inject_Z. simpl. lia.
  - destruct (round_half_even_grid (Qred (qmean (v :: values))) 2) as [n Hn].
    now exists n.
Qed.

Lemma average_loop_rounded (name : string * list json -> string)
  (l : dict (list json)) :
  (forall kv, is_suffix "_avg" (name kv) = true) ->
  forall td td',
    for_each (fun kv => average_into (name kv) (snd kv)) l td = Ok td' ->
    Forall rounded_average td -> Forall rounded_average td'.
Proof.
  intros Hname. apply for_each_keeps.
  intros kv s s' H. apply (average_into_rounded _ _ _ _ H), Hname.
Qed.

Lemma append_assoc (a b c : string) : ((a ++ b) ++ c = a ++ b ++ c)%string.
Proof. induction a as [|x a IH]; simpl; [reflexivity | now rewrite IH]. Qed.

Lemma compute_table_data_rounded (acc : iostat_acc) (table_data : dict json) :
  compute_table_data acc = Ok table_data -> Forall rounded_average table_data.
Proof.
  unfold compute_table_data. intros H.
  apply bind_Ok in H as (cpu_table & Hcpu & H).
  assert (Hcpu' : Forall rounded_average cpu_table).
  { apply (average_loop_rounded (fun kv => (fst kv ++ "_avg")%string) _
             (fun kv => is_suffix_app (fst kv) "_avg") _ _ Hcpu).
    constructor. }
  assert (Hbody : forall (dev_entry : string * dict (list json)) s s',
             for_each
               (fun kv => average_into (fst dev_entry ++ "_" ++ fst kv ++ "_avg")%string
                            (snd kv))
               (snd dev_entry) s = Ok s' ->
             Forall rounded_average s -> Forall rounded_average s').
  { intros dev_entry s s'.
    apply (average_loop_rounded
             (fun kv => (fst dev_entry ++ "_" ++ fst kv ++ "_avg")%string)).
    intros kv.
    rewrite <- (append_assoc "_" (fst kv) "_avg"), <- append_assoc.
    apply is_suffix_app. }
  exact (for_each_keeps (Forall rounded_average) _ _ Hbody _ _ H Hcpu').
Qed.

Lemma parse_iostat_rounded (json_loads : string -> option json) (py_str : json -> string)
  (ends_with_digits is_blank : string -> bool) (content : string) (out : json) :
  parse_iostat json_loads py_str ends_with_digits is_blank content = Ok out ->
  exists version plot table,
    out = skeleton version plot table /\ Forall rounded_average table.
Proof.
  unfold parse_iostat, parse_single_json_object.
  destruct (is_blank content); [intros [= <-]; do 3 eexists; split; eauto|].
  destruct (json_loads content) as [data|];
    [|intros [= <-]; do 3 eexists; split; eauto].
  intros H.
  apply bind_Ok in H as (has_sysstat & _ & H).
  destruct (negb has_sysstat); [injection H as <-; do 3 eexists; split; eauto|].
  apply bind_Ok in H as (sysstat & _ & H).
  apply bind_Ok in H as (hosts & _ & H).
  destruct (negb (truthy hosts)); [injection H as <-; do 3 eexists; split; eauto|].
  apply bind_Ok in H as (host & _ & H).
  apply bind_Ok in H as (sysname & _ & H).
  apply bind_Ok in H as (release & _ & H).
  apply bind_Ok in H as (nodename & _ & H).
  apply bind_Ok in H as (machine & _ & H).
  apply bind_Ok in H as (statistics_list & _ & H).
  destruct (negb (truthy statistics_list));
    [injection H as <-; do 3 eexists; split; eauto|].
  apply bind_Ok in H as (entries & _ & H).
  apply bind_Ok in H as (acc & _ & H).
  apply bind_Ok in H as (table_data & Htable & H).
  injection H as <-. do 3 eexists. split; [reflexivity|].
  now apply (compute_table_data_rounded acc).
Qed.

(** X12: whatever the adapter returns honours the record contract of the
    engine ([plot] and [table] are mappings), and every entry of its
    [table] is an average: its name ends in [_avg] and its value is a
    number with at most two decimals. *)
Theorem iostat_table_holds_rounded_averages
  (json_loads : string -> option json) (py_str : json -> string)
  (ends_with_digits is_blank : string -> bool) (content : string) (out : json) :
  parse_iostat json_loads py_str ends_with_digits is_blank content = Ok out ->
  well_shaped out = true /\
  exists table,
    jpath ["table"] out = Some (JObj table) /\
    forall k v,
      In (k, v) table ->
      is_suffix "_avg" k = true /\ is_number v = true /\
      exists z : Z, (num_val v == z # 100)%Q.
Proof.
  intros H.
  apply parse_iostat_rounded in H as (version & plot & table & -> & Hall).
  split; [reflexivity|]. exists table. split; [reflexivity|].
  intros k v HIn. rewrite Forall_forall in Hall. apply (Hall (k, v) HIn).
Qed.

Lemma iostat_table_holds_rounded_averages_witness :
  well_shaped iostat_log_out = true /\
  exists table,
    jpath ["table"] iostat_log_out = Some (JObj table) /\
    forall k v,
      In (k, v) table ->
      is_suffix "_avg" k = true /\ is_number v = true /\
      exists z : Z, (num_val v == z # 100)%Q.
Proof.
  apply (iostat_table_holds_rounded_averages log_loads str_of ends_in_digit
           (String.eqb "") "log").
  vm_compute. reflexivity.
Defined.

(** ** The block-device adapter *)

Lemma dmem_dset {V : Type} (k k' : string) (v : V) (d : dict V) :
  dmem k (dset k' v d) = String.eqb k k' || dmem k d.
Proof.
  unfold dmem. rewrite dget_dset. now destruct (String.eqb k k').
Qed.

Lemma NoDup_keys_dset {V : Type} (k : string) (v : V) (d : dict V) :
  NoDup (keys d) -> NoDup (keys (dset k v d)).
Proof. apply NoDup_keys_dupd. Qed.

Lemma percentile_into_Ok (name key : string) (percentiles : json) (td td' : dict json) :
  percentile_into name key percentiles td = Ok td' ->
  (NoDup (keys td) -> NoDup (keys td')) /\
  (forall k, dmem k td = true -> dmem k td' = true) /\
  (forall k, dmem k td' = true -> dmem k td = true \/ k = name).
Proof.
  unfold percentile_into. intros H.
  apply bind_Ok in H as ([|] & _ & H).
  - apply bind_Ok in H as (v & _ & H). injection H as <-. split; [|split].
    + apply NoDup_keys_dset.
    + intros k Hk. rewrite dmem_dset, Hk. apply orb_true_r.
    + intros k. rewrite dmem_dset.
      destruct (String.eqb_spec k name); [auto | simpl; auto].
  - injection H as <-. auto.
Qed.

(** What one direction adds to the two mappings. *)
Lemma direction_stats_Ok (dir : string) (job : json) (plot table plot' table' : dict json) :
  direction_stats dir job (plot, table) = Ok (plot', table') ->
  (forall k,
      dmem k plot'
      = dmem k plot || (positive_io dir job && existsb (String.eqb k) (direction_keys dir)))
  /\ (NoDup (keys plot) -> NoDup (keys plot'))
  /\ (NoDup (keys table) -> NoDup (keys table'))
  /\ (forall k, dmem k table = true -> dmem k table' = true)
  /\ (positive_io dir job = true -> dmem (dir ++ "_io_bytes") table' = true)
  /\ (forall k,
         dmem k table' = true ->
         dmem k table = true \/
         (positive_io dir job = true /\ In k (direction_table_keys dir))).
Proof.
  unfold direction_stats, positive_io. intros H.
  apply bind_Ok in H as (stats & -> & H). cbn [bind].
  apply bind_Ok in H as (io_bytes & -> & H). cbn [bind].
  apply bind_Ok in H as (positive & -> & H).
  destruct positive.
  - apply bind_Ok in H as (iops & _ & H).
    apply bind_Ok in H as (bw_bytes & _ & H).
    apply bind_Ok in H as (lat_ns & _ & H).
    apply bind_Ok in H as (lat_mean & _ & H).
    apply bind_Ok in H as (lat_ns1 & _ & H).
    apply bind_Ok in H as (lat_min & _ & H).
    apply bind_Ok in H as (lat_ns2 & _ & H).
    apply bind_Ok in H as (lat_max & _ & H).
    apply bind_Ok in H as (clat_ns & _ & H).
    apply bind_Ok in H as (percentiles & _ & H).
    apply bind_Ok in H as (td1 & H95 & H).
    apply bind_Ok in H as (td2 & H99 & H).
    injection H as <- <-.
    apply percentile_into_Ok in H95 as (Hnd95 & Hmem95 & Hnew95).
    apply percentile_into_Ok in H99 as (Hnd99 & Hmem99 & Hnew99).
    split; [|split; [|split; [|split; [|split]]]].
    + intros k. rewrite !dmem_dset. unfold direction_keys. simpl.
      destruct (String.eqb k (dir ++ "_iops")), (String.eqb k (dir ++ "_bw_bytes")),
        (String.eqb k (dir ++ "_lat_ns_mean")), (dmem k plot); reflexivity.
    + intros Hnd. now do 3 apply NoDup_keys_dset.
    + intros Hnd. apply Hnd99, Hnd95. now do 3 apply NoDup_keys_dset.
    + intros k Hk. apply Hmem99, Hmem95. rewrite !dmem_dset, Hk.
      now rewrite !orb_true_r.
    + intros _. apply Hmem99, Hmem95. rewrite !dmem_dset, String.eqb_refl.
      now rewrite !orb_true_r.
    + intros k Hk. unfold direction_table_keys.
      apply Hnew99 in Hk as [Hk|Hk]; [|right; split; [reflexivity | simpl; auto 10]].
      apply Hnew95 in Hk as [Hk|Hk]; [|right; split; [reflexivity | simpl; auto 10]].
      rewrite !dmem_dset in Hk.
      destruct (String.eqb_spec k (dir ++ "_lat_ns_max")) as [E|_];
        [right; split; [reflexivity | simpl; auto 10]|].
      destruct (String.eqb_spec k (dir ++ "_lat_ns_min")) as [E|_];
        [right; split; [reflexivity | simpl; auto 10]|].
      destruct (String.eqb_spec k (dir ++ "_io_bytes")) as [E|_];
        [right; split; [reflexivity | simpl; auto 10]|].
      left. exact Hk.
  - injection H as <- <-.
    split; [|split; [|split; [|split; [|split]]]]; auto.
    + intros k. now rewrite orb_false_r.
    + discriminate.
Qed.

Lemma parse_fio_cases (json_loads : string -> option json) (content : string) (out : json) :
  parse_fio json_loads content = Ok out ->
  (exists message, out = fio_error message /\
     (json_loads content = None \/
      exists data jobs,
        json_loads content = Some data /\
        py_get data "jobs" (JList []) = Ok jobs /\ truthy jobs = false))
  \/
  (exists data jobs job version plot table,
      json_loads content = Some data /\
      py_get data "jobs" (JList []) = Ok jobs /\ truthy jobs = true /\
      py_first jobs = Ok job /\
      out = JObj [("version", version); ("plot", JObj plot); ("table", JObj table)] /\
      (forall k,
          dmem k plot
          = (positive_io "read" job && existsb (String.eqb k) (direction_keys "read"))
            || (positive_io "write" job
                && existsb (String.eqb k) (direction_keys "write"))) /\
      NoDup (keys plot) /\ NoDup (keys table) /\
      (forall k,
          In k ["job_name"; "rw_mode"; "bs"; "ioengine"; "iodepth"; "error"] ->
          dmem k table = true) /\
      dmem "read_io_bytes" table = positive_io "read" job /\
      dmem "write_io_bytes" table = positive_io "write" job).
Proof.
  unfold parse_fio.
  destruct (json_loads content) as [data|] eqn:Hdata;
    [|intros [= <-]; left; eexists; split; [reflexivity | now left]].
  intros H.
  apply bind_Ok in H as (version & _ & H).
  apply bind_Ok in H as (jobs & Hjobs & H).
  destruct (truthy jobs) eqn:Htruthy; cbn [negb] in H.
  - right.
    apply bind_Ok in H as (job & Hjob & H).
    apply bind_Ok in H as (options & _ & H).
    apply bind_Ok in H as (job_name & _ & H).
    apply bind_Ok in H as (rw_mode & _ & H).
    apply bind_Ok in H as (bs & _ & H).
    apply bind_Ok in H as (ioengine & _ & H).
    apply bind_Ok in H as (iodepth & _ & H).
    apply bind_Ok in H as ([plot1 table1] & Hread & H).
    apply bind_Ok in H as ([plot2 table2] & Hwrite & H).
    apply bind_Ok in H as (error & _ & H).
    injection H as <-. cbn [fst snd].
    apply direction_stats_Ok in Hread
      as (Hp1 & Hndp1 & Hndt1 & Hmem1 & Hio1 & Hnew1).
    apply direction_stats_Ok in Hwrite
      as (Hp2 & Hndp2 & Hndt2 & Hmem2 & Hio2 & Hnew2).
    exists data, jobs, job, version, plot2, (dset "error" error table2).
    repeat (split; [assumption || reflexivity|]).
    assert (Hnd0 : NoDup (keys (dset "iodepth" iodepth
                                  (dset "ioengine" ioengine
                                     (dset "bs" bs
                                        (dset "rw_mode" rw_mode
                                           (dset "job_name" job_name [])))))))
      by (simpl; distinct_names).
    split; [|split; [|split; [|split; [|split]]]].
    + intros k. rewrite Hp2, Hp1. reflexivity.
    + apply Hndp2, Hndp1. constructor.
    + apply NoDup_keys_dset, Hndt2, Hndt1, Hnd0.
    + intros k Hk. rewrite dmem_dset.
      destruct (String.eqb_spec k "error") as [->|Hne]; [reflexivity|].
      apply Hmem2, Hmem1. simpl in Hk.
      destruct Hk as [<-|[<-|[<-|[<-|[<-|[<-|[]]]]]]]; try reflexivity.
      now contradiction Hne.
    + rewrite dmem_dset. cbn [String.eqb Ascii.eqb Bool.eqb orb].
      destruct (positive_io "read" job) eqn:Er.
      * apply Hmem2, Hio1. reflexivity.
      * destruct (dmem "read_io_bytes" table2) eqn:E; [exfalso|reflexivity].
        apply Hnew2 in E as [E|[_ E]];
          [|simpl in E; intuition discriminate].
        apply Hnew1 in E as [E|[E _]]; discriminate.
    + rewrite dmem_dset. cbn [String.eqb Ascii.eqb Bool.eqb orb].
      destruct (positive_io "write" job) eqn:Ew.
      * apply Hio2. reflexivity.
      * destruct (dmem "write_io_bytes" table2) eqn:E; [exfalso|reflexivity].
        apply Hnew2 in E as [E|[E _]]; [|discriminate].
        apply Hnew1 in E as [E|[_ E]];
          [discriminate | simpl in E; intuition discriminate].
  - injection H as <-. left. eexists. split; [reflexivity|]. right.
    now exists data, jobs.
Qed.

(** X13: of a result with several jobs only the first one is reported:
    two results that agree on the version and on the first job give the
    same record, whatever jobs follow (their IOPS and bandwidth are not
    added up). *)
Theorem fio_reports_first_job_only
  (json_loads : string -> option json) (content1 content2 : string)
  (o1 o2 : list (string * json)) (job : json) (rest1 rest2 : list json) :
  json_loads content1 = Some (JObj o1) ->
  json_loads content2 = Some (JObj o2) ->
  dget "fio version" o1 = dget "fio version" o2 ->
  dget "jobs" o1 = Some (JList (job :: rest1)) ->
  dget "jobs" o2 = Some (JList (job :: rest2)) ->
  parse_fio json_loads content1 = parse_fio json_loads content2.
Proof.
  intros H1 H2 Hversion Hjobs1 Hjobs2. unfold parse_fio.
  rewrite H1, H2. cbn [py_get bind]. rewrite Hversion, Hjobs1, Hjobs2.
  reflexivity.
Qed.

Lemma fio_reports_first_job_only_witness :
  parse_fio fio_loads "two jobs" = parse_fio fio_loads "one job".
Proof.
  eapply (fio_reports_first_job_only fio_loads "two jobs" "one job");
    reflexivity.
Defined.

(** X14: whatever the adapter returns honours the record contract of the
    engine, so it never aborts a pass.  A result that cannot be decoded or
    that has no job gives the record [{"error": message}]; the engine
    takes it for a run without metrics: nothing is collected from it and
    the failure is not reported. *)
Theorem fio_failure_is_silently_dropped
  (json_loads : string -> option json) (content : string) (out : json) :
  parse_fio json_loads content = Ok out ->
  well_shaped out = true /\
  (json_loads content = None \/
   (exists data jobs,
       json_loads content = Some data /\
       py_get data "jobs" (JList []) = Ok jobs /\ truthy jobs = false) ->
   (exists message, out = JObj [("error", JStr message)]) /\
   forall run_parser b fs parser_script run_path run_entries st,
     run_parser parser_script (os_path_join run_path (workload_name b)) = Some out ->
     collect_workload run_parser b fs parser_script run_path run_entries st = Ok st).
Proof.
  intros H. apply parse_fio_cases in H
    as [(message & -> & _)
       |(data & jobs & job & version & plot & table & Hdata & Hjobs & Htruthy & _
         & -> & _)].
  - split; [reflexivity|]. intros _. split; [now exists message|].
    intros run_parser b fs parser_script run_path run_entries st Hrp.
    unfold collect_workload. rewrite Hrp.
    destruct (exists_in run_entries (workload_name b)); reflexivity.
  - split; [reflexivity|].
    intros [Hnone|(data' & jobs' & Hdata' & Hjobs' & Hfalse)]; [congruence|].
    rewrite Hdata in Hdata'. injection Hdata' as <-.
    rewrite Hjobs in Hjobs'. injection Hjobs' as <-. congruence.
Qed.

Lemma fio_failure_is_silently_dropped_witness :
  collect_workload
    (fun _ _ => Some (JObj [("error", JStr "No jobs found in FIO result")]))
    "fio-randread" "fsA" "scripts/parse_fio.py" "results/fio-randread/fsA/run_1"
    [("result.json", File)] empty_store
  = Ok empty_store.
Proof.
  assert (H : parse_fio fio_loads "no job"
              = Ok (JObj [("error", JStr "No jobs found in FIO result")]))
    by reflexivity.
  apply (proj2 (fio_failure_is_silently_dropped fio_loads "no job" _ H)).
  - right. exists (fio_result []), (JList []). repeat split.
  - reflexivity.
Defined.

Lemma py_first_truthy (v first : json) : py_first v = Ok first -> truthy v = true.
Proof.
  destruct v as [| | | |s|l|o]; simpl; try discriminate.
  - destruct s; [discriminate | reflexivity].
  - destruct l; [discriminate | reflexivity].
Qed.

(** X15: the record of a result with a job has, under distinct names, the
    three plotted scalars of a direction exactly when the first job moved
    bytes in that direction ([io_bytes > 0]) and no other plotted scalar:
    a job that only reads contributes no write metric, not a zero.  Its
    table always holds the five job options and the error code, and the
    byte count of a direction exactly when the direction is plotted. *)
Theorem fio_plots_the_directions_that_moved_bytes
  (json_loads : string -> option json) (content : string) (data jobs job out : json) :
  json_loads content = Some data ->
  py_get data "jobs" (JList []) = Ok jobs ->
  py_first jobs = Ok job ->
  parse_fio json_loads content = Ok out ->
  exists version plot table,
    out = JObj [("version", version); ("plot", JObj plot); ("table", JObj table)] /\
    (forall k,
        dmem k plot
        = (positive_io "read" job && existsb (String.eqb k) (direction_keys "read"))
          || (positive_io "write" job && existsb (String.eqb k) (direction_keys "write")))
    /\ NoDup (keys plot) /\ NoDup (keys table) /\
    (forall k,
        In k ["job_name"; "rw_mode"; "bs"; "ioengine"; "iodepth"; "error"] ->
        dmem k table = true) /\
    dmem "read_io_bytes" table = positive_io "read" job /\
    dmem "write_io_bytes" table = positive_io "write" job.
Proof.
  intros Hdata Hjobs Hjob H.
  destruct (parse_fio_cases _ _ _ H)
    as [(message & _ & [Hnone|(data' & jobs' & Hdata' & Hjobs' & Hfalse)])
       |(data' & jobs' & job' & version & plot & table & Hdata' & Hjobs' & _ & Hjob'
         & -> & Hrest)].
  - congruence.
  - rewrite Hdata in Hdata'. injection Hdata' as <-.
    rewrite Hjobs in Hjobs'. injection Hjobs' as <-.
    rewrite (py_first_truthy _ _ Hjob) in Hfalse. discriminate.
  - rewrite Hdata in Hdata'. injection Hdata' as <-.
    rewrite Hjobs in Hjobs'. injection Hjobs' as <-.
    rewrite Hjob in Hjob'. injection Hjob' as <-.
    now exists version, plot, table.
Qed.

Lemma fio_plots_the_directions_that_moved_bytes_witness :
  exists version plot table,
    parse_fio fio_loads "one job"
    = Ok (JObj [("version", version); ("plot", JObj plot); ("table", JObj table)]) /\
    dmem "read_iops" plot = true /\ dmem "write_iops" plot = false.
Proof.
  destruct (parse_fio fio_loads "one job") as [out|e] eqn:E;
    [|vm_compute in E; discriminate].
  destruct (fio_plots_the_directions_that_moved_bytes fio_loads "one job"
              (fio_result [fio_job "randread" 4096000 0 15234])
              (JList [fio_job "randread" 4096000 0 15234])
              (fio_job "randread" 4096000 0 15234) out eq_refl eq_refl eq_refl E)
    as (version & plot & table & -> & Hplot & _).
  exists version, plot, table. split; [reflexivity|].
  split; rewrite Hplot; reflexivity.
Defined.

(** ** The container adapter *)

Lemma attempt_bind_Returns {A B : Type} (c : attempt A) (k : A -> attempt B) (b : B) :
  attempt_bind c k = Returns b -> exists a, c = Returns a /\ k a = Returns b.
Proof. destruct c as [a|f]; simpl; [|discriminate]. intros H. now exists a. Qed.



(** The lines that are no samples can be left out. *)
Lemma for_lines_samples (json_loads : string -> option json) (is_blank : string -> bool)
  (py_strip : string -> string) (match_size : string -> option (string * string))
  (py_float : string -> option Q) (lines : list string) :
  forall d,
    for_lines (sample_step json_loads is_blank py_strip match_size py_float)
      (filter (is_sample json_loads is_blank) lines) d
    = for_lines (sample_step json_loads is_blank py_strip match_size py_float) lines d.
Proof.
  induction lines as [|line lines IH]; intros d; simpl; [reflexivity|].
  destruct (is_sample json_loads is_blank line) eqn:E; simpl.
  - destruct (sample_step json_loads is_blank py_strip match_size py_float line d);
      simpl; [apply IH | reflexivity].
  - assert (Hskip : sample_step json_loads is_blank py_strip match_size py_float line d
                    = Returns d).
    { unfold sample_step. unfold is_sample in E.
      destruct (is_blank line); [reflexivity|].
      destruct (json_loads line); [discriminate | reflexivity]. }
    rewrite Hskip. simpl. apply IH.
Qed.



(** X17: blank lines and lines that do not decode are skipped: the
    adapter ends on a file as on the file without them, whether it
    returns or fails; a file that does not exist ends the adapter with
    exit status 1. *)
Theorem docker_lines_that_are_no_samples_are_skipped
  (json_loads : string -> option json) (is_blank : string -> bool)
  (py_strip : string -> string) (match_size : string -> option (string * string))
  (py_float : string -> option Q) :
  (forall lines,
      parse_docker_stats json_loads is_blank py_strip match_size py_float
        (Some (filter (is_sample json_loads is_blank) lines))
      = parse_docker_stats json_loads is_blank py_strip match_size py_float (Some lines))
  /\
  parse_docker_stats json_loads is_blank py_strip match_size py_float None
  = Fails (SystemExit 1).
Proof.
  split; [|reflexivity].
  intros lines. unfold parse_docker_stats. now rewrite for_lines_samples.
Qed.

Lemma for_lines_fails {A S : Type} (body : A -> S -> attempt S) (l : list A) (x : A) :
  In x l -> (forall s, exists f, body x s = Fails f) ->
  forall s, exists f, for_lines body l s = Fails f.
Proof.
  intros HIn Hx. induction l as [|y l IH]; [contradiction|].
  intros s. simpl.
  destruct HIn as [->|HIn].
  - destruct (Hx s) as [f Hf]. rewrite Hf. now exists f.
  - destruct (body y s) as [s1|f]; simpl; [now apply IH | now exists f].
Qed.

Lemma unpack2_fails (parts : list string) :
  length parts <> 2%nat -> unpack2 parts = Fails ValueError.
Proof.
  destruct parts as [|a [|b [|c parts]]]; simpl; try reflexivity.
  intros H. now contradiction H.
Qed.

(** X18: one malformed sample makes the adapter fail, whatever the other
    lines hold: a line that decodes to something that is not an object, or
    a sample whose memory usage has more than one separator (the two
    sizes are unpacked from the split). *)
Theorem docker_malformed_sample_fails
  (json_loads : string -> option json) (is_blank : string -> bool)
  (py_strip : string -> string) (match_size : string -> option (string * string))
  (py_float : string -> option Q) (lines : list string) (line : string) (entry : json) :
  In line lines -> is_blank line = false -> json_loads line = Some entry ->
  is_obj entry = false \/
  (exists o cpu usage,
      entry = JObj o /\
      from_option (JStr "0%") (dget "CPUPerc" o) = JStr cpu /\
      dget "MemUsage" o = Some (JStr usage) /\
      contains " / " usage = true /\
      length (split_from " / " 0 "" usage) <> 2%nat) ->
  exists f,
    parse_docker_stats json_loads is_blank py_strip match_size py_float (Some lines)
    = Fails f.
Proof.
  intros HIn Hblank Hloads Hbad.
  assert (Hstep : forall d, exists f,
             sample_step json_loads is_blank py_strip match_size py_float line d
             = Fails f).
  { intros d. unfold sample_step. rewrite Hblank, Hloads.
    destruct Hbad as [Hobj|(o & cpu & usage & -> & Hcpu & Hmem & Hsep & Hparts)].
    - destruct entry; try discriminate; simpl; eauto.
    - cbn [py_get lift attempt_bind]. rewrite Hcpu, Hmem.
      cbn [py_replace_percent attempt_bind from_option py_in lift]. rewrite Hsep.
      unfold parse_pair. cbn [py_split attempt_bind].
      rewrite (unpack2_fails _ Hparts). cbn [attempt_bind]. eauto. }
  unfold parse_docker_stats.
  destruct (for_lines_fails _ lines line HIn Hstep empty_docker_data) as [f Hf].
  rewrite Hf. now exists f.
Qed.

Lemma docker_malformed_sample_fails_witness :
  exists f,
    parse_docker_stats stats_loads (String.eqb "") (fun s => s) stats_match stats_float
      (Some ["first"; "three sizes"; "second"])
    = Fails f.
Proof.
  apply (docker_malformed_sample_fails stats_loads (String.eqb "") (fun s => s)
           stats_match stats_float ["first"; "three sizes"; "second"] "three sizes"
           (stats_line "13.5%" "421MiB / 8GiB / 1GiB" "80MB / 300MB" "--")).
  - simpl. auto.
  - reflexivity.
  - reflexivity.
  - right. do 3 eexists. repeat split; try reflexivity. discriminate.
Defined.

(** ** The engine on the adapters *)

Lemma parse_docker_stats_shape (json_loads : string -> option json)
  (is_blank : string -> bool) (py_strip : string -> string)
  (match_size : string -> option (string * string)) (py_float : string -> option Q)
  (lines : list string) (out : json) :
  parse_docker_stats json_loads is_blank py_strip match_size py_float (Some lines)
  = Returns out ->
  exists d, out = JObj [("plot", JObj (summary_of d)); ("series", JObj (series_of d))].
Proof.
  unfold parse_docker_stats. intros H.
  apply attempt_bind_Returns in H as (d & _ & H). injection H as <-. now exists d.
Qed.



Lemma In_picked (k : string) (n : nat) (items : list (string * json)) (x : json) :
  In x (picked k n items) -> In (k, x) items.
Proof.
  unfold picked. rewrite in_flat_map. intros ([k0 v] & HIn & Hx). cbn [fst snd] in Hx.
  destruct (String.eqb_spec k k0) as [->|_]; [|contradiction].
  apply repeat_spec in Hx. now subst.
Qed.

Lemma In_field_picked (field : string) (data : json) (k : string) (n : nat) (x : json) :
  In x (field_picked field data k n) ->
  exists o items,
    data = JObj o /\ dget field o = Some (JObj items) /\ In (k, x) items.
Proof.
  unfold field_picked. destruct data as [| | | | | |o]; try contradiction.
  destruct (dget field o) as [[| | | | | |items]|] eqn:E; try contradiction.
  intros H. exists o, items. split; [reflexivity|]. split; [exact E|].
  now apply In_picked in H.
Qed.

Lemma In_from_output (o : option json) (f : json -> list json) (x : json) :
  In x (from_output o f) -> exists data, o = Some data /\ In x (f data).
Proof. destruct o as [data|]; simpl; [eauto | contradiction]. Qed.

Lemma field_picked_zero (field : string) (data : json) (k : string) :
  field_picked field data k 0 = [].
Proof.
  unfold field_picked. destruct data as [| | | | | |o]; try reflexivity.
  destruct (dget field o) as [[| | | | | |items]|]; try reflexivity.
  apply picked_zero.
Qed.

(** Where a collected value of a monitoring group comes from: the [plot]
    of an output of the container adapter, or the [table] of an output of
    the storage-IO adapter. *)
Lemma monitoring_value_source (run_parser : string -> string -> option json)
  (b fs : string) (g : group) (k : string) (benchmarks : list (string * node))
  (x : json) :
  In x (collected run_parser b fs g k benchmarks) ->
  match g with
  | docker_plot | docker_table =>
      exists path o items,
        run_parser (os_path_join SCRIPTS_DIR "parse_docker_stats.py") path = Some (JObj o) /\
        dget "plot" o = Some (JObj items) /\ In (k, x) items
  | monitoring_plot | monitoring_table =>
      exists path o items,
        run_parser (os_path_join SCRIPTS_DIR "parse_iostat.py") path = Some (JObj o) /\
        dget "table" o = Some (JObj items) /\ In (k, x) items
  | _ => True
  end.
Proof.
  unfold collected. rewrite in_flat_map. intros ([b0 n0] & _ & H).
  unfold benchmark_adds in H. cbn [fst snd] in H.
  destruct n0 as [|filesystems]; [contradiction|].
  destruct (String.eqb b b0); [|contradiction].
  destruct (get_parser_for_benchmark b0) as [parser_script|]; [|contradiction].
  rewrite in_flat_map in H. destruct H as ([fs0 n1] & _ & H).
  unfold fs_adds in H. cbn [fst snd] in H.
  destruct n1 as [|runs]; [contradiction|].
  destruct (String.eqb fs fs0); [|contradiction].
  rewrite in_flat_map in H. destruct H as ([run n2] & _ & H).
  unfold run_adds in H. cbn [fst snd] in H.
  destruct n2 as [|run_entries]; [contradiction|].
  rewrite !in_app_iff in H.
  destruct g; try exact I; cbn [hits filter group_eqb length] in H;
    destruct H as [H|[H|H]];
    apply In_from_output in H as (data & E & H);
    rewrite ?field_picked_zero in H; cbn [app] in H; try contradiction;
    apply usable_output_Some in E as (_ & Hrp & _);
    apply In_field_picked in H as (o & items & -> & Hf & HIn);
    do 3 eexists; (split; [exact Hrp|]); split; eassumption.
Qed.

Lemma group_entry_from (g : group) (values : list json) (v : json)
  (P : json -> Prop) :
  (forall valid, P (rounded_mean valid 4)) ->
  (forall x, In x values -> P x) ->
  group_entry g values = Some v -> P v /\ values <> [].
Proof.
  intros Hmean Hall H.
  assert (Hne : values <> []) by (intros ->; rewrite group_entry_nil in H; discriminate).
  split; [|exact Hne].
  destruct g; cbn [group_entry] in H.
  all: try (unfold plot_entry in H;
            assert (Hf : forall x, In x (filter is_number values) -> P x)
              by (intros x Hx; apply filter_In in Hx as [Hx _]; now apply Hall);
            destruct (filter is_number values) as [|v1 [|v2 rest]];
            [discriminate
            |injection H as <-; apply Hf; now left
            |injection H as <-; apply Hmean]).
  all: unfold table_entry in H; destruct values as [|v0 rest]; [discriminate|];
    destruct (is_number v0); injection H as <-;
    [apply Hmean | apply Hall; now left].
Qed.


Lemma fixture_runner_runs_the_adapters : runs_the_adapters fixture_runner.
Proof.
  intros script input_file data. unfold fixture_runner.
  destruct (String.eqb_spec script "scripts/parse_iostat.py") as [->|N1].
  { intros H. repeat split; try discriminate.
    - intros _. exists log_loads, str_of, ends_in_digit, (String.eqb ""), "log".
      destruct (parse_iostat log_loads str_of ends_in_digit (String.eqb "") "log");
        [now injection H as -> | discriminate].
    - intros Hnot. exfalso. apply Hnot. simpl. auto. }
  destruct (String.eqb_spec script "scripts/parse_docker_stats.py") as [->|N2].
  { intros H. repeat split; try discriminate.
    - intros _.
      exists stats_loads, (String.eqb ""), (fun s => s), stats_match, stats_float,
        stats_file.
      destruct (parse_docker_stats stats_loads (String.eqb "") (fun s => s) stats_match
                  stats_float (Some stats_file));
        [now injection H as -> | discriminate].
    - intros Hnot. exfalso. apply Hnot. simpl. auto. }
  destruct (String.eqb_spec script "scripts/parse_fio.py") as [->|N3].
  { intros H. repeat split; try discriminate.
    - intros _. exists fio_loads, "one job".
      destruct (parse_fio fio_loads "one job"); [now injection H as -> | discriminate].
    - intros Hnot. exfalso. apply Hnot. simpl. auto. }
  discriminate.
Qed.


(** X20: in the report of such a pass every monitoring scalar is a number
    (so the table mappings of the monitoring sections hold averages too,
    never a first value taken as text); the container section has no
    scalar but the six the container adapter summarises (the memory limit
    is not among them), and the names of the storage-IO section all end
    in [_avg]. *)
Theorem monitoring_scalars_of_the_report
  (run_parser : string -> string -> option json) (system_info : json)
  (benchmarks : list (string * node)) (path : string) (out : json)
  (b fs : string) (g : group) (k : string) (v : json) :
  runs_the_adapters run_parser ->
  main run_parser system_info (Some (Dir benchmarks)) = Completed path out ->
  jpath ("data" :: b :: fs :: group_path g ++ [k]) out = Some v ->
  match g with
  | docker_plot | docker_table =>
      is_number v = true /\
      In k ["cpu_perc"; "mem_usage_bytes"; "block_read_bytes"; "block_write_bytes";
            "net_rx_bytes"; "net_tx_bytes"]
  | monitoring_plot | monitoring_table =>
      is_number v = true /\ is_suffix "_avg" k = true
  | _ => True
  end.
Proof.
  intros Hruns Hmain Hv.
  rewrite (report_value _ _ _ _ _ b fs g k Hmain) in Hv.
  assert (Hdocker : forall x,
             g = docker_plot \/ g = docker_table ->
             In x (collected run_parser b fs g k benchmarks) ->
             is_number x = true /\
             In k ["cpu_perc"; "mem_usage_bytes"; "block_read_bytes";
                   "block_write_bytes"; "net_rx_bytes"; "net_tx_bytes"]).
  { intros x Hg Hx. apply monitoring_value_source in Hx.
    assert (Hsrc : exists path0 o items,
               run_parser (os_path_join SCRIPTS_DIR "parse_docker_stats.py") path0
               = Some (JObj o) /\
               dget "plot" o = Some (JObj items) /\ In (k, x) items)
      by (destruct Hg as [-> | ->]; exact Hx).
    destruct Hsrc as (path0 & o & items & Hrp & Hplot & HIn).
    destruct (Hruns _ _ _ Hrp) as (_ & Hfrom & _).
    destruct (Hfrom eq_refl) as (jl & ib & st & ms & pf & lines & Hparse).
    apply parse_docker_stats_shape in Hparse as (d & [= ->]).
    cbn in Hplot. injection Hplot as <-.
    unfold summary_of in HIn. simpl in HIn.
    destruct HIn as [[= <- <-]|[[= <- <-]|[[= <- <-]|[[= <- <-]|[[= <- <-]|[[= <- <-]|[]]]]]]];
      (split; [reflexivity | simpl; auto 10]). }
  assert (Hiostat : forall x,
             g = monitoring_plot \/ g = monitoring_table ->
             In x (collected run_parser b fs g k benchmarks) ->
             is_number x = true /\ is_suffix "_avg" k = true).
  { intros x Hg Hx. apply monitoring_value_source in Hx.
    assert (Hsrc : exists path0 o items,
               run_parser (os_path_join SCRIPTS_DIR "parse_iostat.py") path0
               = Some (JObj o) /\
               dget "table" o = Some (JObj items) /\ In (k, x) items)
      by (destruct Hg as [-> | ->]; exact Hx).
    destruct Hsrc as (path0 & o & items & Hrp & Htable & HIn).
    destruct (Hruns _ _ _ Hrp) as (Hfrom & _).
    destruct (Hfrom eq_refl) as (jl & ps & ewd & ib & content & Hparse).
    apply parse_iostat_rounded in Hparse as (version & plot & table & [= ->] & Hall).
    cbn in Htable. injection Htable as <-.
    rewrite Forall_forall in Hall. destruct (Hall (k, x) HIn) as (Hk & Hx' & _).
    now split. }
  assert (Hpick : forall (P : Prop),
             (forall x, In x (collected run_parser b fs g k benchmarks) ->
                        is_number x = true /\ P) ->
             is_number v = true /\ P).
  { intros P HP.
    destruct (group_entry_from g _ v (fun x => is_number x = true)
                (fun valid => rounded_mean_is_number valid 4)
                (fun x Hx => proj1 (HP x Hx)) Hv) as [Hnum Hne].
    split; [exact Hnum|].
    destruct (collected run_parser b fs g k benchmarks) as [|x rest];
      [now contradiction Hne|].
    apply (HP x). now left. }
  destruct g; try exact I.
  - apply Hpick. intros x. apply Hiostat. now left.
  - apply Hpick. intros x. apply Hiostat. now right.
  - apply Hpick. intros x. apply Hdocker. now left.
  - apply Hpick. intros x. apply Hdocker. now right.
Qed.

Lemma monitoring_scalars_of_the_report_witness :
  is_number (q 13 1) = true /\
  In "cpu_perc" ["cpu_perc"; "mem_usage_bytes"; "block_read_bytes"; "block_write_bytes";
                 "net_rx_bytes"; "net_tx_bytes"].
Proof.
  assert (Hmain : main fixture_runner (JObj []) (Some (Dir monitored_results))
                  = Completed OUTPUT_FILE monitored_out) by (vm_compute; reflexivity).
  apply (monitoring_scalars_of_the_report fixture_runner (JObj []) monitored_results
           OUTPUT_FILE monitored_out "fio-randread" "fsA" docker_table "cpu_perc"
           (q 13 1) fixture_runner_runs_the_adapters Hmain).
  vm_compute. reflexivity.
Defined.
